(** * nodeadm: the configuration model and its docker-compose transform

    A shallow embedding of [app.py]: the loader
    [load_config_from_docker_compose], the writer
    [save_config_to_docker_compose] and the commit action of
    [ConfigScreen], followed by the properties the specification states
    about them.

    Python values are embedded as a universal value type; exceptions as a
    result type with the classes the code can raise; the file system as a
    finite map from paths to what [yaml.safe_load] makes of each file.
    The value of a function is computed on values; where a property is
    about which object a value lives in ([DEFAULT_CONFIG] and its copies),
    the objects are put on a heap.

    What the embedding leaves out: log records; how the widgets are laid
    out and drawn; YAML text (a file is modelled by the value it
    loads as, and a written document loads back as the value dumped);
    floats, timestamps, binary scalars and sets among YAML values; and
    characters beyond 8 bits in a [str]. *)

From Stdlib Require Import ZArith String Ascii List Bool.
From stdpp Require Import base gmap strings.

Set Warnings "-register-all".

Local Open Scope string_scope.
Local Open Scope list_scope.

(** ** Python values *)

(** Keys of a dict read from YAML are scalars (PyYAML refuses unhashable
    keys). *)
Inductive pykey : Type :=
| KNone
| KBool (b : bool)
| KInt (n : Z)
| KStr (s : string).

Coercion KStr : string >-> pykey.

(** The values [yaml.safe_load] builds from null, booleans, integers,
    strings, sequences and mappings.  A dict is an association list in
    insertion order. *)
Inductive pyval : Type :=
| PNone
| PBool (b : bool)
| PInt (n : Z)
| PStr (s : string)
| PList (l : list pyval)
| PDict (d : list (pykey * pyval)).

Abbreviation pydict := (list (pykey * pyval)).

(** The exception classes that the modelled operations raise; all of them
    derive from [Exception]. *)
Inductive exn : Type :=
| AttributeError
| TypeError
| KeyError
| IndexError
| OSError
| YAMLError.

Inductive result (A : Type) : Type :=
| Ok (a : A)
| Raise (e : exn).

Arguments Ok {A} a.
Arguments Raise {A} e.

Definition bind {A B} (m : result A) (k : A -> result B) : result B :=
  match m with
  | Ok a => k a
  | Raise e => Raise e
  end.

Notation "x <- m ;; k" := (bind m (fun x => k))
  (at level 100, m at next level, right associativity).

(** [try: body / except Exception: handler]. *)
Definition try_except {A} (body : result A) (handler : exn -> result A) : result A :=
  match body with
  | Ok a => Ok a
  | Raise e => handler e
  end.

(** A [for] loop whose body may raise, threading the loop's state. *)
Fixpoint for_each {A S} (xs : list A) (body : A -> S -> result S) (s : S) : result S :=
  match xs with
  | [] => Ok s
  | x :: xs' => s' <- body x s ;; for_each xs' body s'
  end.

(** ** Dict and str primitives *)

Definition int_of_bool (b : bool) : Z := if b then 1%Z else 0%Z.

(** Key equality as dict lookup sees it: [True == 1] and [False == 0]. *)
Definition key_eqb (a b : pykey) : bool :=
  match a, b with
  | KNone, KNone => true
  | KBool x, KBool y => Bool.eqb x y
  | KInt x, KInt y => Z.eqb x y
  | KBool x, KInt y | KInt y, KBool x => Z.eqb (int_of_bool x) y
  | KStr x, KStr y => String.eqb x y
  | _, _ => false
  end.

Fixpoint dict_get {V} (k : pykey) (d : list (pykey * V)) : option V :=
  match d with
  | [] => None
  | (k', v) :: d' => if key_eqb k' k then Some v else dict_get k d'
  end.

(** [d[k] = v]: an existing key keeps its place, a new one goes last. *)
Fixpoint dict_set {V} (k : pykey) (v : V) (d : list (pykey * V)) : list (pykey * V) :=
  match d with
  | [] => [(k, v)]
  | (k', v') :: d' =>
      if key_eqb k' k then (k', v) :: d' else (k', v') :: dict_set k v d'
  end.

Definition keys {V} (d : list (pykey * V)) : list pykey := map fst d.

(** [o.get(k, dflt)] *)
Definition py_get (o : pyval) (k : pykey) (dflt : pyval) : result pyval :=
  match o with
  | PDict d =>
      match dict_get k d with
      | Some v => Ok v
      | None => Ok dflt
      end
  | _ => Raise AttributeError
  end.

(** [o[k]] on a dict; with the keys used here, which are never ints, any
    other subject raises [TypeError]. *)
Definition py_subscript (o : pyval) (k : pykey) : result pyval :=
  match o with
  | PDict d =>
      match dict_get k d with
      | Some v => Ok v
      | None => Raise KeyError
      end
  | _ => Raise TypeError
  end.

(** [len(o)] *)
Definition py_len (o : pyval) : result nat :=
  match o with
  | PStr s => Ok (String.length s)
  | PList l => Ok (length l)
  | PDict d => Ok (length d)
  | _ => Raise TypeError
  end.

(** [o[i]] with a non-negative int index *)
Definition py_index (o : pyval) (i : nat) : result pyval :=
  match o with
  | PStr s =>
      match String.get i s with
      | Some c => Ok (PStr (String c ""))
      | None => Raise IndexError
      end
  | PList l =>
      match nth_error l i with
      | Some v => Ok v
      | None => Raise IndexError
      end
  | PDict d =>
      match dict_get (KInt (Z.of_nat i)) d with
      | Some v => Ok v
      | None => Raise KeyError
      end
  | _ => Raise TypeError
  end.

(** [s.split(sep)] for a one-character separator: never empty. *)
Fixpoint split (sep : ascii) (s : string) : list string :=
  match s with
  | EmptyString => [""]
  | String c s' =>
      if Ascii.eqb c sep then "" :: split sep s'
      else match split sep s' with
           | [] => [String c ""]
           | p :: ps => String c p :: ps
           end
  end.

(** [o.split(sep)] *)
Definition py_split (o : pyval) (sep : ascii) : result pyval :=
  match o with
  | PStr s => Ok (PList (map PStr (split sep s)))
  | _ => Raise AttributeError
  end.

(** [a + b] *)
Definition py_add (a b : pyval) : result pyval :=
  match a, b with
  | PStr x, PStr y => Ok (PStr (x ++ y))
  | PList x, PList y => Ok (PList (x ++ y))
  | PInt x, PInt y => Ok (PInt (x + y))
  | PBool x, PInt y => Ok (PInt (int_of_bool x + y))
  | PInt x, PBool y => Ok (PInt (x + int_of_bool y))
  | PBool x, PBool y => Ok (PInt (int_of_bool x + int_of_bool y))
  | _, _ => Raise TypeError
  end.

(** [o.items()] *)
Definition py_items (o : pyval) : result pydict :=
  match o with
  | PDict d => Ok d
  | _ => Raise AttributeError
  end.

(** [o.copy()]: a new dict with the same entries. *)
Definition py_copy (o : pyval) : result pyval :=
  match o with
  | PDict d => Ok (PDict d)
  | PList l => Ok (PList l)
  | _ => Raise AttributeError
  end.

(** ** The file system *)

(** A file is what reading it gives: [open] raises, [yaml.safe_load]
    raises, or [yaml.safe_load] returns a value (an empty file loads as
    [None]). *)
Inductive file : Type :=
| Unreadable
| Garbled
| Doc (v : pyval).

(** [write_denied] holds the paths at which [open(path, "w")] raises. *)
Record world : Type := World {
  files : gmap string file;
  write_denied : gset string
}.

(** [os.path.exists(path)] *)
Definition path_exists (w : world) (path : string) : bool :=
  bool_decide (is_Some (files w !! path)).

(** [with open(path, "r") as f: yaml.safe_load(f)] *)
Definition read_yaml (w : world) (path : string) : result pyval :=
  match files w !! path with
  | None => Raise OSError
  | Some Unreadable => Raise OSError
  | Some Garbled => Raise YAMLError
  | Some (Doc v) => Ok v
  end.

(** [with open(path, "w") as f: yaml.safe_dump(data, f, sort_keys=False)]:
    the file then loads back as [data], keys in the order written. *)
Definition write_yaml (w : world) (path : string) (data : pyval) : result world :=
  if bool_decide (path ∈ write_denied w) then Raise OSError
  else Ok (World (<[path := Doc data]> (files w)) (write_denied w)).

(** ** The loader *)

Definition DEFAULT_CONFIG : pyval :=
  PDict
    [ (KStr "justicar",
       PDict [ (KStr "port", PStr "1309");
               (KStr "configuration file", PStr "/opt/cd2n/justicar");
               (KStr "name", PStr "justicar") ]);
      (KStr "chain",
       PDict [ (KStr "name", PStr "cess-chain");
               (KStr "port", PStr "9944");
               (KStr "network", PStr "testnet");
               (KStr "configuration file", PStr "/opt/cd2n/chain") ]) ].

(** [if len(x) > 0: x = x[0].split(':')[0]], giving the new [x]. *)
Definition first_host_side (x : pyval) : result pyval :=
  n <- py_len x ;;
  if (0 <? n)%nat then
    e <- py_index x 0 ;;
    parts <- py_split e ":" ;;
    py_index parts 0
  else Ok x.

(** The loader reads the module-level [DEFAULT_CONFIG] object each time it
    runs; [default_config] is the value that object holds at the call. *)
Section Loader.

Variable default_config : pyval.

(** [DEFAULT_CONFIG[service_name][field]] *)
Definition default_field (service_name field : pykey) : result pyval :=
  r <- py_subscript default_config service_name ;;
  py_subscript r field.

(** One turn of the loop over [DEFAULT_CONFIG.keys()]. *)
Definition load_service (data : pyval) (service_name : pykey)
    (new_config : pydict) : result pydict :=
  services <- py_get data "services" (PDict []) ;;
  service_data <- py_get services service_name (PDict []) ;;
  dflt <- default_field service_name "port" ;;
  ports <- py_get service_data "ports" dflt ;;
  ports <- first_host_side ports ;;
  dflt <- default_field service_name "configuration file" ;;
  configuration_path <- py_get service_data "volumes" dflt ;;
  configuration_path <- first_host_side configuration_path ;;
  if key_eqb service_name "justicar" then
    dflt <- default_field service_name "name" ;;
    name <- py_get service_data "container_name" dflt ;;
    Ok (dict_set service_name
          (PDict [ (KStr "port", ports);
                   (KStr "configuration file", configuration_path);
                   (KStr "name", name) ])
          new_config)
  else if key_eqb service_name "chain" then
    image <- py_get service_data "image" PNone ;;
    network <-
      match image with
      | PNone => default_field service_name "network"
      | _ =>
          image <- py_get service_data "image" PNone ;;
          parts <- py_split image ":" ;;
          py_index parts 1
      end ;;
    dflt <- default_field service_name "name" ;;
    name <- py_get service_data "container_name" dflt ;;
    Ok (dict_set service_name
          (PDict [ (KStr "port", ports);
                   (KStr "configuration file", configuration_path);
                   (KStr "name", name);
                   (KStr "network", network) ])
          new_config)
  else Ok new_config.

(** The loop of the [try] block, from the parsed document on, giving
    [new_config]. *)
Definition load_body (data : pyval) : result pydict :=
  names <- py_items default_config ;;
  for_each (keys names) (load_service data) [].

(** The whole [try] block. *)
Definition load_try (w : world) (path : string) : result pydict :=
  data <- read_yaml w path ;;
  load_body data.

Definition load_with (w : world) (path : string) : result pyval :=
  if negb (path_exists w path) then py_copy default_config
  else
    try_except
      (new_config <- load_try w path ;; Ok (PDict new_config))
      (fun _ => py_copy default_config).

End Loader.

(** The loader as the program runs it: no code of [app.py] writes to
    [DEFAULT_CONFIG] or to a record it holds, so the object has its
    literal value at every call. *)
Definition load_config_from_docker_compose (w : world) (path : string) : result pyval :=
  load_with DEFAULT_CONFIG w path.

(** ** The writer *)

Definition chain_command (chain_id : pyval) : list pyval :=
  [ PStr "--base-path"; PStr "/opt/cess/data";
    PStr "--chain"; chain_id;
    PStr "--port"; PStr "30336";
    PStr "--name"; PStr "cess";
    PStr "--rpc-port"; PStr "9944";
    PStr "--execution"; PStr "WASM";
    PStr "--wasm-execution"; PStr "compiled";
    PStr "--in-peers"; PStr "75";
    PStr "--out-peers"; PStr "75";
    PStr "--rpc-max-response-size"; PStr "32";
    PStr "--pruning"; PStr "archive";
    PStr "--rpc-external";
    PStr "--rpc-methods"; PStr "unsafe";
    PStr "--rpc-cors"; PStr "all" ].

(** The dict display of [case "justicar"], given its computed entries. *)
Definition justicar_definition (name port_mapping volume : pyval) : pyval :=
  PDict
    [ (KStr "image", PStr "cdn:latest");
      (KStr "container_name", name);
      (KStr "devices",
       PList [ PStr "/dev/sgx_enclave:/dev/sgx_enclave";
               PStr "/dev/sgx_provision:/dev/sgx_provision" ]);
      (KStr "ports", PList [port_mapping]);
      (KStr "volumes", PList [volume]);
      (KStr "networks", PList [PStr "cd2n"]);
      (KStr "stdin_open", PBool true);
      (KStr "tty", PBool true) ].

(** [case "justicar"]: the entries are evaluated in the order written. *)
Definition justicar_service (service_config : pyval) : result pyval :=
  name <- py_subscript service_config "name" ;;
  port <- py_subscript service_config "port" ;;
  port_mapping <- py_add port (PStr ":1309") ;;
  configuration_file <- py_subscript service_config "configuration file" ;;
  volume <- py_add configuration_file (PStr ":/opt/justicar/backups") ;;
  Ok (justicar_definition name port_mapping volume).

(** The dict display of [case "chain"], given its computed entries. *)
Definition chain_definition (image volume chain_id name port_mapping : pyval) : pyval :=
  PDict
    [ (KStr "image", image);
      (KStr "volumes", PList [volume]);
      (KStr "command", PList (chain_command chain_id));
      (KStr "logging",
       PDict [ (KStr "driver", PStr "json-file");
               (KStr "options",
                PDict [ (KStr "max-size", PStr "300m");
                        (KStr "max-file", PStr "10") ]) ]);
      (KStr "networks", PList [PStr "cd2n"]);
      (KStr "container_name", name);
      (KStr "ports", PList [port_mapping; PStr "30336:30336"]) ].

(** [case "chain"]: the entries are evaluated in the order written. *)
Definition chain_service (service_config : pyval) : result pyval :=
  network <- py_subscript service_config "network" ;;
  image <- py_add (PStr "cesslab/cess-chain:") network ;;
  configuration_file <- py_subscript service_config "configuration file" ;;
  volume <- py_add configuration_file (PStr ":/opt/cess/data") ;;
  network <- py_subscript service_config "network" ;;
  chain_id <- py_add (PStr "cess-") network ;;
  name <- py_subscript service_config "name" ;;
  port <- py_subscript service_config "port" ;;
  port_mapping <- py_add port (PStr ":9944") ;;
  Ok (chain_definition image volume chain_id name port_mapping).

(** One turn of the loop over [config.items()]. *)
Definition save_service (item : pykey * pyval) (services : pydict) : result pydict :=
  let '(service_name, service_config) := item in
  if key_eqb service_name (KStr "justicar") then
    s <- justicar_service service_config ;;
    Ok (dict_set service_name s services)
  else if key_eqb service_name (KStr "chain") then
    s <- chain_service service_config ;;
    Ok (dict_set service_name s services)
  else Ok services.

Definition compose_networks : pyval :=
  PDict [ (KStr "cd2n",
           PDict [ (KStr "name", PStr "cd2n"); (KStr "driver", PStr "bridge") ]) ].

Definition docker_compose_data (services : pydict) : pyval :=
  PDict [ (KStr "version", PStr "3.9");
          (KStr "services", PDict services);
          (KStr "networks", compose_networks) ].

Definition save_config_to_docker_compose (config : pyval) (path : string)
    (w : world) : result world :=
  items <- py_items config ;;
  services <- for_each items save_service [] ;;
  write_yaml w path (docker_compose_data services).

(** ** Python's [==] on the fragment *)

Fixpoint py_eqb (a b : pyval) {struct a} : bool :=
  match a, b with
  | PNone, PNone => true
  | PBool x, PBool y => Bool.eqb x y
  | PInt x, PInt y => Z.eqb x y
  | PBool x, PInt y | PInt y, PBool x => Z.eqb (int_of_bool x) y
  | PStr x, PStr y => String.eqb x y
  | PList x, PList y =>
      (fix all2 (x y : list pyval) : bool :=
         match x, y with
         | [], [] => true
         | u :: x', v :: y' => py_eqb u v && all2 x' y'
         | _, _ => false
         end) x y
  | PDict x, PDict y =>
      Nat.eqb (length x) (length y) &&
      forallb (fun kv =>
                 match dict_get (fst kv) y with
                 | Some v => py_eqb (snd kv) v
                 | None => false
                 end) x
  | _, _ => false
  end.

(** ** The configuration screen *)

Definition default_path : string := "docker-compose.yml".

(** [o[k] = v] on a dict *)
Definition py_setitem (o : pyval) (k : pykey) (v : pyval) : result pyval :=
  match o with
  | PDict d => Ok (PDict (dict_set k v d))
  | _ => Raise TypeError
  end.

(** A [ConfigScreen]: [input_fields] pairs each key of [current_config]
    with the text its [Input] widget holds. *)
Record ConfigScreen : Type := {
  service_name : string;
  current_config : pydict;
  input_fields : list (pykey * string)
}.

Inductive screen : Type :=
| MainMenu
| Config (s : ConfigScreen).

(** The running [CD2N] app: the global [config], the screen stack (top
    first) and the file system it writes to. *)
Record CD2N : Type := {
  config : pyval;
  screen_stack : list screen;
  disk : world
}.

(** [for key, input_field in self.input_fields.items():
       self.current_config[key] = input_field.value] *)
Definition apply_input_fields (fields : list (pykey * string)) (cur : pydict) : pydict :=
  fold_left (fun d kv => dict_set (fst kv) (PStr (snd kv)) d) fields cur.

(** [ConfigScreen.action_save_config]: the state it leaves, and how it
    returns.  When [save_config_to_docker_compose] raises, the statements
    before it have run and [pop_screen] has not. *)
Definition action_save_config (s : ConfigScreen) (app : CD2N) : CD2N * result unit :=
  let cur := apply_input_fields (input_fields s) (current_config s) in
  let s' := {| service_name := service_name s;
               current_config := cur;
               input_fields := input_fields s |} in
  match py_setitem (config app) (KStr (service_name s)) (PDict cur) with
  | Raise e =>
      ({| config := config app;
          screen_stack := Config s' :: tl (screen_stack app);
          disk := disk app |}, Raise e)
  | Ok config' =>
      match save_config_to_docker_compose config' default_path (disk app) with
      | Raise e =>
          ({| config := config';
              screen_stack := Config s' :: tl (screen_stack app);
              disk := disk app |}, Raise e)
      | Ok w' =>
          ({| config := config';
              screen_stack := tl (screen_stack app);
              disk := w' |}, Ok tt)
      end
  end.

(** [MainMenu.on_button_pressed] for the [run_compose] button. *)
Definition run_compose (app : CD2N) : CD2N * result unit :=
  match save_config_to_docker_compose (config app) default_path (disk app) with
  | Raise e => (app, Raise e)
  | Ok w' =>
      ({| config := config app; screen_stack := screen_stack app; disk := w' |},
       Ok tt)
  end.

(** ** Object identity: the template and the models the loader returns

    A ConfigModel is a dict object whose entries refer to record objects.
    The heap maps locations to objects; [dict.copy()] makes a new dict
    object with the entries of the old one, so the records are shared. *)

Definition loc : Type := nat.

Inductive obj : Type :=
| Value (v : pyval)
| Model (d : list (pykey * loc)).

Abbreviation heap := (gmap nat obj).

Definition alloc (h : heap) (o : obj) : heap * loc :=
  let l := fresh (dom h) in (<[l := o]> h, l).

(** Where the module-level [DEFAULT_CONFIG] lives. *)
Definition DEFAULT_CONFIG_loc : loc := 0.

Definition heap0 : heap :=
  {[ 0 := Model [ (KStr "justicar", 1); (KStr "chain", 2) ];
     1 := Value (PDict [ (KStr "port", PStr "1309");
                         (KStr "configuration file", PStr "/opt/cd2n/justicar");
                         (KStr "name", PStr "justicar") ]);
     2 := Value (PDict [ (KStr "name", PStr "cess-chain");
                         (KStr "port", PStr "9944");
                         (KStr "network", PStr "testnet");
                         (KStr "configuration file", PStr "/opt/cd2n/chain") ]) ]}.

Definition view_value (h : heap) (l : loc) : option pyval :=
  match h !! l with
  | Some (Value v) => Some v
  | _ => None
  end.

Fixpoint view_entries (h : heap) (d : list (pykey * loc)) : option pydict :=
  match d with
  | [] => Some []
  | (k, l) :: d' =>
      match view_value h l, view_entries h d' with
      | Some v, Some vs => Some ((k, v) :: vs)
      | _, _ => None
      end
  end.

(** The value a model object stands for; [None] on a dangling reference. *)
Definition view_model (h : heap) (m : loc) : option pyval :=
  match h !! m with
  | Some (Model d) => PDict <$> view_entries h d
  | _ => None
  end.

(** [m.copy()] on a model object *)
Definition h_copy (h : heap) (m : loc) : option (heap * loc) :=
  match h !! m with
  | Some (Model d) => Some (alloc h (Model d))
  | _ => None
  end.

(** [m[k] = r], binding key [k] of model [m] to the object at [r] *)
Definition h_setitem (h : heap) (m : loc) (k : pykey) (r : loc) : option heap :=
  match h !! m with
  | Some (Model d) => Some (<[m := Model (dict_set k r d)]> h)
  | _ => None
  end.

(** [m[k][f] = v], writing field [f] of the record that [m] holds at [k] *)
Definition h_setfield (h : heap) (m : loc) (k f : pykey) (v : pyval) : option heap :=
  match h !! m with
  | Some (Model d) =>
      match dict_get k d with
      | Some r =>
          match h !! r with
          | Some (Value (PDict rec)) =>
              Some (<[r := Value (PDict (dict_set f v rec))]> h)
          | _ => None
          end
      | None => None
      end
  | _ => None
  end.

(** A new object for each value of [new_config], then the dict itself. *)
Fixpoint h_alloc_entries (h : heap) (d : pydict) : heap * list (pykey * loc) :=
  match d with
  | [] => (h, [])
  | (k, v) :: d' =>
      let '(h1, l) := alloc h (Value v) in
      let '(h2, e) := h_alloc_entries h1 d' in
      (h2, (k, l) :: e)
  end.

Definition h_new_model (h : heap) (d : pydict) : heap * loc :=
  let '(h1, e) := h_alloc_entries h d in
  alloc h1 (Model e).

(** The loader on the heap: [DEFAULT_CONFIG] is read where it lives, and
    the fallback returns [DEFAULT_CONFIG.copy()]. *)
Definition h_load (h : heap) (w : world) (path : string) : option (heap * loc) :=
  if negb (path_exists w path) then h_copy h DEFAULT_CONFIG_loc
  else
    match view_model h DEFAULT_CONFIG_loc with
    | Some default_config =>
        match load_try default_config w path with
        | Ok new_config => Some (h_new_model h new_config)
        | Raise _ => h_copy h DEFAULT_CONFIG_loc
        end
    | None => None
    end.

(** ** Vocabulary of the properties *)

Fixpoint colon_free (s : string) : bool :=
  match s with
  | EmptyString => true
  | String c s' => negb (Ascii.eqb c ":") && colon_free s'
  end.

(** [d] is a dict with as many entries as [fields] that holds each of
    them: what Python's [fields == d] checks, values compared exactly. *)
Definition dict_holds (d fields : pydict) : Prop :=
  length d = length fields /\
  forall k v, In (k, v) fields -> dict_get k d = Some v.

Definition justicar_record (port configuration_file name : string) : pydict :=
  [ (KStr "port", PStr port);
    (KStr "configuration file", PStr configuration_file);
    (KStr "name", PStr name) ].

Definition chain_record (port configuration_file name network : string) : pydict :=
  [ (KStr "port", PStr port);
    (KStr "configuration file", PStr configuration_file);
    (KStr "name", PStr name);
    (KStr "network", PStr network) ].

(** The number a key stands for in a lookup: [True] and [False] hash and
    compare as [1] and [0]. *)
Definition key_norm (k : pykey) : pykey :=
  match k with
  | KBool b => KInt (int_of_bool b)
  | _ => k
  end.

(** The keys of an association list are pairwise distinct, as those of a
    dict object are. *)
Fixpoint unique_keys {V} (d : list (pykey * V)) : bool :=
  match d with
  | [] => true
  | (k, _) :: d' => negb (existsb (key_eqb k) (keys d')) && unique_keys d'
  end.

(** How often [a] is immediately followed by [b] in [l]. *)
Fixpoint count_pair (a b : pyval) (l : list pyval) : nat :=
  match l with
  | [] => 0
  | x :: t =>
      match t with
      | y :: _ => (if py_eqb x a && py_eqb y b then 1 else 0) + count_pair a b t
      | [] => 0
      end
  end.

Definition followed_by (a b : pyval) (l : list pyval) : Prop :=
  exists pre post, l = pre ++ a :: b :: post.

(** [m[service][field]] of a model, when both keys are there. *)
Definition model_field (m : pydict) (service field : string) : option pyval :=
  match dict_get (KStr service) m with
  | Some (PDict r) => dict_get (KStr field) r
  | _ => None
  end.

(** What [d.get(k, dflt)] returns on a dict. *)
Definition get_or (d : pydict) (k : pykey) (dflt : pyval) : pyval :=
  match dict_get k d with
  | Some v => v
  | None => dflt
  end.

(** ** Sample file systems *)

Definition no_files : world := World ∅ ∅.

(** A single file at the default path. *)
Definition one_file (f : file) : world := World {[ default_path := f ]} ∅.

(** No file can be opened for writing at the default path. *)
Definition read_only : world := World ∅ {[ default_path ]}.

(** A document with a top-level mapping and no [services] key. *)
Definition no_services_doc : pyval :=
  PDict [ (KStr "version", PStr "3.9") ].

Definition sample_chain_entry : pyval :=
  PDict [ (KStr "image", PStr "cesslab/cess-chain:testnet");
          (KStr "volumes", PList [PStr "/opt/cd2n/chain:/opt/cess/data"]);
          (KStr "container_name", PStr "cess-chain");
          (KStr "ports", PList [PStr "9944:9944"; PStr "30336:30336"]) ].

(** [justicar] has [ports: []]; everything else is as the writer emits it. *)
Definition empty_ports_doc : pyval :=
  PDict
    [ (KStr "services",
       PDict
         [ (KStr "justicar",
            PDict [ (KStr "image", PStr "cdn:latest");
                    (KStr "container_name", PStr "worker");
                    (KStr "ports", PList []);
                    (KStr "volumes", PList [PStr "/srv/justicar:/opt/justicar/backups"]) ]);
           (KStr "chain", sample_chain_entry) ]) ].

(** [justicar] has [volumes: []]. *)
Definition empty_volumes_doc : pyval :=
  PDict
    [ (KStr "services",
       PDict
         [ (KStr "justicar",
            PDict [ (KStr "image", PStr "cdn:latest");
                    (KStr "container_name", PStr "worker");
                    (KStr "ports", PList [PStr "8080:1309"]);
                    (KStr "volumes", PList []) ]);
           (KStr "chain", sample_chain_entry) ]) ].

(** The [chain] image carries no tag. *)
Definition untagged_image_doc : pyval :=
  PDict
    [ (KStr "services",
       PDict
         [ (KStr "chain",
            PDict [ (KStr "image", PStr "cesslab/cess-chain");
                    (KStr "container_name", PStr "cess-chain");
                    (KStr "ports", PList [PStr "9944:9944"]);
                    (KStr "volumes", PList [PStr "/opt/cd2n/chain:/opt/cess/data"]) ]) ]) ].

(** [justicar] names its container and nothing else. *)
Definition name_only_doc : pyval :=
  PDict
    [ (KStr "services",
       PDict
         [ (KStr "justicar", PDict [ (KStr "container_name", PStr "worker") ]);
           (KStr "chain", sample_chain_entry) ]) ].

(** [name_only_doc] with one more, unknown service after [justicar]. *)
Definition extra_service_doc : pyval :=
  PDict
    [ (KStr "services",
       PDict
         [ (KStr "justicar", PDict [ (KStr "container_name", PStr "worker") ]);
           (KStr "redis", PDict [ (KStr "image", PStr "redis:7") ]);
           (KStr "chain", sample_chain_entry) ]) ].

(** ** A sample edit *)

(** The [justicar] screen opened on the default model, every field
    retyped. *)
Definition sample_screen : ConfigScreen :=
  {| service_name := "justicar";
     current_config := justicar_record "1309" "/opt/cd2n/justicar" "justicar";
     input_fields := [ (KStr "port", "8080");
                       (KStr "configuration file", "/srv/justicar");
                       (KStr "name", "worker") ] |}.

(** The app on that screen, over a file system that refuses the write. *)
Definition sample_app : CD2N :=
  {| config := DEFAULT_CONFIG;
     screen_stack := [ Config sample_screen; MainMenu ];
     disk := read_only |}.

(** ** More of the screens *)

(** [s.endswith(suffix)] *)
Fixpoint ends_with (suffix s : string) : bool :=
  String.eqb s suffix ||
  match s with
  | EmptyString => false
  | String _ s' => ends_with suffix s'
  end.

(** The first [n] characters of [s]. *)
Fixpoint str_take (n : nat) (s : string) : string :=
  match n, s with
  | S n', String c s' => String c (str_take n' s')
  | _, _ => EmptyString
  end.

(** [s[:-n]] for a positive [n] *)
Definition drop_last (n : nat) (s : string) : string :=
  str_take (String.length s - n) s.

(** [action_go_back]: [self.app.pop_screen()] *)
Definition action_go_back (app : CD2N) : CD2N * result unit :=
  ({| config := config app;
      screen_stack := tl (screen_stack app);
      disk := disk app |}, Ok tt).

(** [ConfigScreen.on_button_pressed] *)
Definition ConfigScreen_on_button_pressed (s : ConfigScreen) (button_id : string)
    (app : CD2N) : CD2N * result unit :=
  if String.eqb button_id "save_and_back" then action_save_config s app
  else if String.eqb button_id "cancel" then action_go_back app
  else (app, Ok tt).

(** The ids of the buttons [MainMenu.compose] yields: one per key of the
    config, then [run_compose].  [capitalize] is a method of [str] only. *)
Definition MainMenu_buttons (config : pyval) : result (list string) :=
  items <- py_items config ;;
  ids <- for_each (keys items)
           (fun key ids =>
              match key with
              | KStr name => Ok (ids ++ [String.append name "_btn"])
              | _ => Raise AttributeError
              end) [] ;;
  Ok (ids ++ ["run_compose"]).

(** The screens show a value through Python's [str]; it is a builtin, not
    code of [app.py], and all that is used of it is that it returns a
    [str] as it is. *)
Section Screens.

Variable py_str : pyval -> string.

(** [ConfigScreen.compose]: the loop that fills [input_fields], one
    [Input] per item of [current_config], showing [str(value)].  The label
    calls [key.capitalize()] first. *)
Definition compose_input_fields (current_config : pydict)
  : result (list (pykey * string)) :=
  for_each current_config
    (fun item fields =>
       match fst item with
       | KStr _ => Ok (dict_set (fst item) (py_str (snd item)) fields)
       | _ => Raise AttributeError
       end) [].

(** [ConfigScreen(service_name, config)] pushed as a screen: [__init__]
    takes [config[service_name].copy()], mounting runs [compose]. *)
Definition push_config_screen (name : string) (config : pyval) : result ConfigScreen :=
  record <- py_subscript config name ;;
  copy <- py_copy record ;;
  current <- py_items copy ;;
  fields <- compose_input_fields current ;;
  Ok {| service_name := name;
        current_config := current;
        input_fields := fields |}.

(** [MainMenu.on_button_pressed] *)
Definition MainMenu_on_button_pressed (button_id : string) (app : CD2N)
  : CD2N * result unit :=
  if ends_with "_btn" button_id then
    match push_config_screen (drop_last 4 button_id) (config app) with
    | Ok s =>
        ({| config := config app;
            screen_stack := Config s :: screen_stack app;
            disk := disk app |}, Ok tt)
    | Raise e => (app, Raise e)
    end
  else if String.eqb button_id "run_compose" then run_compose app
  else (app, Ok tt).

(** What the user does: press a button, press a bound key, or change the
    text of the [Input] of a field. *)
Inductive event : Type :=
| ButtonPressed (button_id : string)
| KeyPressed (key : string)
| InputChanged (field : pykey) (text : string).

(** The text of an [Input] that exists is replaced. *)
Definition change_input (field : pykey) (text : string) (s : ConfigScreen) : ConfigScreen :=
  {| service_name := service_name s;
     current_config := current_config s;
     input_fields :=
       match dict_get field (input_fields s) with
       | Some _ => dict_set field text (input_fields s)
       | None => input_fields s
       end |}.

(** One event, handled by the screen on top of the stack.  [BINDINGS] of
    [ConfigScreen] maps [escape] to [action_go_back] and [ctrl+s] to
    [action_save_config]; the binding of [MainMenu] quits the app and is
    no event of a run. *)
Definition step (app : CD2N) (e : event) : CD2N * result unit :=
  match screen_stack app with
  | [] => (app, Ok tt)
  | MainMenu :: _ =>
      match e with
      | ButtonPressed button_id => MainMenu_on_button_pressed button_id app
      | _ => (app, Ok tt)
      end
  | Config s :: rest =>
      match e with
      | ButtonPressed button_id => ConfigScreen_on_button_pressed s button_id app
      | KeyPressed key =>
          if String.eqb key "escape" then action_go_back app
          else if String.eqb key "ctrl+s" then action_save_config s app
          else (app, Ok tt)
      | InputChanged field text =>
          ({| config := config app;
              screen_stack := Config (change_input field text s) :: rest;
              disk := disk app |}, Ok tt)
      end
  end.

(** Events in turn; an exception that leaves a handler ends the run. *)
Fixpoint run (app : CD2N) (es : list event) : CD2N * result unit :=
  match es with
  | [] => (app, Ok tt)
  | e :: es' =>
      match step app e with
      | (app', Ok _) => run app' es'
      | (app', Raise x) => (app', Raise x)
      end
  end.

End Screens.

(** [CD2N.on_mount] then [CD2N.on_ready]: the config is loaded from the
    default path and the main menu is pushed. *)
Definition startup (w : world) : result CD2N :=
  config <- load_config_from_docker_compose w default_path ;;
  Ok {| config := config; screen_stack := [MainMenu]; disk := w |}.

(** [s.split(':')[0]] *)
Definition before_colon (s : string) : string := hd "" (split ":" s).

Definition is_str (v : pyval) : bool :=
  match v with
  | PStr _ => true
  | _ => false
  end.

(** The service keys the writer has a case for. *)
Definition supported (k : pykey) : bool :=
  key_eqb k "justicar" || key_eqb k "chain".

(** A [str] for the samples: a [str] is shown as it is; other values are
    not shown in them. *)
Definition sample_str (v : pyval) : string :=
  match v with
  | PStr s => s
  | _ => ""
  end.

(** A [ports] or [volumes] value on which [x[0].split(':')[0]] raises:
    no [len], a first entry that is not a [str], or a non-empty mapping
    with no such entry under [0]. *)
Definition malformed_sequence (v : pyval) : bool :=
  match v with
  | PNone | PBool _ | PInt _ => true
  | PStr _ => false
  | PList [] => false
  | PList (x :: _) => negb (is_str x)
  | PDict [] => false
  | PDict d =>
      match dict_get (KInt 0) d with
      | Some x => negb (is_str x)
      | None => true
      end
  end.

(** A port or path as the loader can return it: a [str], or the value
    of length 0 that the document had in its place ([len] is not above 0
    and the value is kept as it is). *)
Definition str_or_empty (v : pyval) : Prop :=
  is_str v = true \/ py_len v = Ok 0.

(** Every key of the dict is a [str]. *)
Definition str_keys {V} (d : list (pykey * V)) : bool :=
  forallb (fun k => match k with KStr _ => true | _ => false end) (keys d).

(** A field as its [Input] shows it at first. *)
Definition shown (py_str : pyval -> string) (kv : pykey * pyval) : pykey * string :=
  (fst kv, py_str (snd kv)).

(** A field as a commit stores it. *)
Definition typed (kt : pykey * string) : pykey * pyval :=
  (fst kt, PStr (snd kt)).

(** The screen after the user changed inputs, one change after another. *)
Definition change_inputs (edits : list (pykey * string)) (s : ConfigScreen) : ConfigScreen :=
  fold_left (fun s e => change_input (fst e) (snd e) s) edits s.

(** The app is on the main menu, or on the screen of one of the two
    services over the main menu, and its config is a dict of the two
    services. *)
Definition app_ok (app : CD2N) : Prop :=
  (exists d, config app = PDict d /\ keys d = [ KStr "justicar"; KStr "chain" ]) /\
  (screen_stack app = [ MainMenu ] \/
   exists s, screen_stack app = [ Config s; MainMenu ] /\
             (service_name s = "justicar" \/ service_name s = "chain")).

(** ** More samples *)

(** [justicar] names its container and has neither [ports] nor [volumes];
    the image of [chain] has no tag. *)
Definition absent_keys_untagged_doc : pyval :=
  PDict
    [ (KStr "services",
       PDict
         [ (KStr "justicar", PDict [ (KStr "container_name", PStr "worker") ]);
           (KStr "chain", PDict [ (KStr "image", PStr "cesslab/cess-chain") ]) ]) ].

(** [ports] of [justicar] written as one string; the image of [chain] has
    no tag. *)
Definition scalar_ports_untagged_doc : pyval :=
  PDict
    [ (KStr "services",
       PDict
         [ (KStr "justicar", PDict [ (KStr "ports", PStr "8080:1309") ]);
           (KStr "chain", PDict [ (KStr "image", PStr "cesslab/cess-chain") ]) ]) ].

(** A bind address in front of the port, a second port entry, a name with
    a colon, a registry with a port in front of the image, and [ports]
    written as one string for [chain]. *)
Definition colons_doc : pyval :=
  PDict
    [ (KStr "services",
       PDict
         [ (KStr "justicar",
            PDict [ (KStr "container_name", PStr "worker:1");
                    (KStr "ports",
                     PList [ PStr "127.0.0.1:8080:1309"; PStr "9999:9999" ]);
                    (KStr "volumes",
                     PList [ PStr "/srv/justicar:/opt/justicar/backups" ]) ]);
           (KStr "chain",
            PDict [ (KStr "image", PStr "localhost:5000/cess-chain:testnet");
                    (KStr "ports", PStr "9944:9944");
                    (KStr "volumes", PList [ PStr "/srv/chain" ]) ]) ]) ].

(** What the loop of the loader makes of [colons_doc]. *)
Definition colons_model : pydict :=
  [ (KStr "justicar",
     PDict [ (KStr "port", PStr "127.0.0.1");
             (KStr "configuration file", PStr "/srv/justicar");
             (KStr "name", PStr "worker:1") ]);
    (KStr "chain",
     PDict [ (KStr "port", PStr "9");
             (KStr "configuration file", PStr "/srv/chain");
             (KStr "name", PStr "cess-chain");
             (KStr "network", PStr "5000/cess-chain") ]) ].

(** [justicar] lists its port as a number. *)
Definition number_port_doc : pyval :=
  PDict
    [ (KStr "services",
       PDict
         [ (KStr "justicar",
            PDict [ (KStr "container_name", PStr "worker");
                    (KStr "ports", PList [ PInt 8080 ]);
                    (KStr "volumes",
                     PList [ PStr "/srv/justicar:/opt/justicar/backups" ]) ]);
           (KStr "chain", sample_chain_entry) ]) ].




(** The file [logging.basicConfig] opens, to which the loader and the
    writer append records; what it holds is not part of [world]. *)
Definition debug_log : string := "app_debug.log".

(** The world a successful save leaves, and the empty one if it raised. *)
Definition saved (config : pyval) (p : string) (w : world) : world :=
  match save_config_to_docker_compose config p w with
  | Ok w' => w'
  | Raise _ => no_files
  end.

(** The app on the main menu with the default config. *)
Definition menu_app : CD2N :=
  {| config := DEFAULT_CONFIG; screen_stack := [ MainMenu ]; disk := no_files |}.

(** The screen of [justicar] as the main menu of [menu_app] opens it. *)
Definition justicar_screen : ConfigScreen :=
  {| service_name := "justicar";
     current_config := justicar_record "1309" "/opt/cd2n/justicar" "justicar";
     input_fields := [ (KStr "port", "1309");
                       (KStr "configuration file", "/opt/cd2n/justicar");
                       (KStr "name", "justicar") ] |}.

(** ** Basic facts *)

Lemma key_eqb_refl (k : pykey) : key_eqb k k = true.
Proof.
  destruct k as [|b|n|s]; simpl; auto.
  - destruct b; reflexivity.
  - apply Z.eqb_refl.
  - apply String.eqb_refl.
Qed.

Lemma key_eqb_str (k : pykey) (s : string) :
  key_eqb k (KStr s) = true -> k = KStr s.
Proof.
  destruct k as [|b|n|s']; simpl; try discriminate.
  intros H. apply String.eqb_eq in H. congruence.
Qed.

Lemma bind_ok {A B} (m : result A) (k : A -> result B) (b : B) :
  bind m k = Ok b -> exists a, m = Ok a /\ k a = Ok b.
Proof. destruct m as [a|e]; simpl; [eauto | discriminate]. Qed.

Lemma py_subscript_dict (d : pydict) (k : string) (v : pyval) :
  dict_get (KStr k) d = Some v -> py_subscript (PDict d) k = Ok v.
Proof. intros H. unfold py_subscript. rewrite H. reflexivity. Qed.

Lemma split_cons (sep : ascii) (s : string) :
  exists p ps, split sep s = p :: ps.
Proof.
  induction s as [|c s IH]; simpl; [eauto |].
  destruct (Ascii.eqb c sep); [eauto |].
  destruct IH as (p & ps & ->). eauto.
Qed.

Lemma split_colon_free (s : string) :
  colon_free s = true -> split ":" s = [s].
Proof.
  induction s as [|c s IH]; simpl; [reflexivity |].
  intros H. apply andb_true_iff in H as [Hc Hs].
  apply negb_true_iff in Hc. rewrite Hc, (IH Hs). reflexivity.
Qed.

Lemma split_host_side (s t : string) :
  colon_free s = true -> split ":" (s ++ String ":" t) = s :: split ":" t.
Proof.
  induction s as [|c s IH]; simpl; [reflexivity |].
  intros H. apply andb_true_iff in H as [Hc Hs].
  apply negb_true_iff in Hc. rewrite Hc, (IH Hs). reflexivity.
Qed.


(** *** Dict lookups *)

Lemma key_eqb_norm (a b : pykey) :
  key_eqb a b = true <-> key_norm a = key_norm b.
Proof.
  destruct a as [|x|x|x], b as [|y|y|y]; simpl;
    try (split; [discriminate | intros H; inversion H]; fail);
    try tauto.
  - destruct x, y; simpl; split; intros H; try reflexivity; try discriminate;
      inversion H.
  - rewrite Z.eqb_eq. split; congruence.
  - rewrite Z.eqb_eq. split; [intros <-; reflexivity | intros H; inversion H; auto].
  - rewrite Z.eqb_eq. split; congruence.
  - rewrite String.eqb_eq. split; congruence.
Qed.

Lemma key_eqb_sym (a b : pykey) : key_eqb a b = key_eqb b a.
Proof.
  apply eq_true_iff_eq. rewrite !key_eqb_norm. split; congruence.
Qed.

Lemma key_eqb_trans (a b c : pykey) :
  key_eqb a b = true -> key_eqb b c = true -> key_eqb a c = true.
Proof. rewrite !key_eqb_norm. congruence. Qed.

(** Lookup only sees the class of a key. *)
Lemma key_eqb_congr (a b c : pykey) :
  key_eqb a b = true -> key_eqb a c = key_eqb b c.
Proof.
  intros H. apply eq_true_iff_eq. rewrite key_eqb_norm in H.
  rewrite !key_eqb_norm. split; congruence.
Qed.

Lemma key_eqb_congr_r (a b c : pykey) :
  key_eqb a b = true -> key_eqb c a = key_eqb c b.
Proof.
  intros H. rewrite (key_eqb_sym c a), (key_eqb_sym c b).
  apply key_eqb_congr, H.
Qed.

Lemma dict_get_set_same {V} (k k' : pykey) (v : V) (d : list (pykey * V)) :
  key_eqb k k' = true -> dict_get k' (dict_set k v d) = Some v.
Proof.
  intros H. induction d as [|[k0 v0] d IH]; simpl.
  - rewrite H. reflexivity.
  - destruct (key_eqb k0 k) eqn:E; simpl.
    + rewrite (key_eqb_trans _ _ _ E H). reflexivity.
    + rewrite <- (key_eqb_congr_r k k' k0 H), E. apply IH.
Qed.

Lemma dict_get_set_other {V} (k k' : pykey) (v : V) (d : list (pykey * V)) :
  key_eqb k k' = false -> dict_get k' (dict_set k v d) = dict_get k' d.
Proof.
  intros H. induction d as [|[k0 v0] d IH]; simpl.
  - rewrite H. reflexivity.
  - destruct (key_eqb k0 k) eqn:E; simpl.
    + rewrite (key_eqb_congr k0 k k' E), H. reflexivity.
    + rewrite IH. reflexivity.
Qed.

Lemma keys_dict_set_old {V} (k : pykey) (v v0 : V) (d : list (pykey * V)) :
  dict_get k d = Some v0 -> keys (dict_set k v d) = keys d.
Proof.
  unfold keys. induction d as [|[k0 v1] d IH]; simpl; [discriminate |].
  destruct (key_eqb k0 k); simpl; [reflexivity |].
  intros H. f_equal. apply IH, H.
Qed.


Lemma dict_get_none_existsb {V} (k : pykey) (d : list (pykey * V)) :
  existsb (key_eqb k) (keys d) = false -> dict_get k d = None.
Proof.
  induction d as [|[k0 v0] d IH]; simpl; [reflexivity |].
  intros H. apply orb_false_iff in H as [H1 H2].
  rewrite key_eqb_sym, H1. apply IH, H2.
Qed.

(** Inserting an entry under another key does not change a lookup. *)
Lemma dict_get_insert_other {V} (k k' : pykey) (v : V) (pre post : list (pykey * V)) :
  key_eqb k k' = false ->
  dict_get k' (pre ++ (k, v) :: post) = dict_get k' (pre ++ post).
Proof.
  intros H. induction pre as [|[k0 v0] pre IH]; simpl.
  - rewrite H. reflexivity.
  - rewrite IH. reflexivity.
Qed.

(** *** The loader, step by step *)

Ltac bind_inv H :=
  repeat match type of H with
         | bind _ _ = Ok _ =>
             let x := fresh "x" in
             let E := fresh "E" in
             apply bind_ok in H as (x & E & H)
         end.

(** What a successful turn of the loader's loop has computed. *)
Lemma load_service_inv (dc data : pyval) (name : string) (nc nc' : pydict) :
  load_service dc data name nc = Ok nc' ->
  exists services sd dport ports0 ports dcfg cfg0 cfg,
    py_get data "services" (PDict []) = Ok services /\
    py_get services name (PDict []) = Ok sd /\
    default_field dc name "port" = Ok dport /\
    py_get sd "ports" dport = Ok ports0 /\
    first_host_side ports0 = Ok ports /\
    default_field dc name "configuration file" = Ok dcfg /\
    py_get sd "volumes" dcfg = Ok cfg0 /\
    first_host_side cfg0 = Ok cfg /\
    ((name = "justicar" /\
      exists nm,
        nc' = dict_set (KStr name)
                (PDict [ (KStr "port", ports);
                         (KStr "configuration file", cfg);
                         (KStr "name", nm) ]) nc) \/
     (name = "chain" /\
      exists nm net,
        nc' = dict_set (KStr name)
                (PDict [ (KStr "port", ports);
                         (KStr "configuration file", cfg);
                         (KStr "name", nm);
                         (KStr "network", net) ]) nc) \/
     (name <> "justicar" /\ name <> "chain" /\ nc' = nc)).
Proof.
  unfold load_service. intros H. bind_inv H.
  do 8 eexists. repeat (split; [eassumption |]).
  cbn [key_eqb] in H.
  destruct (String.eqb name "justicar") eqn:Ej.
  - apply String.eqb_eq in Ej. bind_inv H. inversion H. left. eauto.
  - apply String.eqb_neq in Ej.
    destruct (String.eqb name "chain") eqn:Ec.
    + apply String.eqb_eq in Ec. bind_inv H. inversion H. right. left. eauto.
    + apply String.eqb_neq in Ec. inversion H. right. right. auto.
Qed.

Lemma load_body_default_inv (data : pyval) (nc : pydict) :
  load_body DEFAULT_CONFIG data = Ok nc ->
  exists s1,
    load_service DEFAULT_CONFIG data "justicar" [] = Ok s1 /\
    load_service DEFAULT_CONFIG data "chain" s1 = Ok nc.
Proof.
  unfold load_body. cbn [py_items DEFAULT_CONFIG bind keys map fst for_each].
  intros H. bind_inv H. inversion H. subst. eauto.
Qed.

(** A model the loop completes lists the two services in declaration
    order, each with the fields of its record. *)
Lemma load_body_shape (data : pyval) (nc : pydict) :
  load_body DEFAULT_CONFIG data = Ok nc ->
  exists jp jc jn cp cc cn cnet,
    nc = [ (KStr "justicar",
            PDict [ (KStr "port", jp); (KStr "configuration file", jc);
                    (KStr "name", jn) ]);
           (KStr "chain",
            PDict [ (KStr "port", cp); (KStr "configuration file", cc);
                    (KStr "name", cn); (KStr "network", cnet) ]) ].
Proof.
  intros H. apply load_body_default_inv in H as (s1 & H1 & H2).
  apply load_service_inv in H1
    as (? & ? & ? & ? & jp & ? & ? & jc & _ & _ & _ & _ & _ & _ & _ & _ & H1).
  apply load_service_inv in H2
    as (? & ? & ? & ? & cp & ? & ? & cc & _ & _ & _ & _ & _ & _ & _ & _ & H2).
  destruct H1 as [(_ & jn & ->) | [(Hn & _) | (Hn & _)]];
    [| discriminate Hn | contradiction Hn; reflexivity].
  destruct H2 as [(Hn & _) | [(_ & cn & cnet & ->) | (_ & Hn & _)]];
    [discriminate Hn | | contradiction Hn; reflexivity].
  exists jp, jc, jn, cp, cc, cn, cnet. reflexivity.
Qed.

(** The loader either completes the loop or returns the copy of the
    default. *)
Lemma load_cases (w : world) (path : string) :
  (exists nc, load_try DEFAULT_CONFIG w path = Ok nc /\
              load_config_from_docker_compose w path = Ok (PDict nc)) \/
  load_config_from_docker_compose w path = Ok DEFAULT_CONFIG.
Proof.
  unfold load_config_from_docker_compose, load_with.
  destruct (negb (path_exists w path)); [right; reflexivity |].
  destruct (load_try DEFAULT_CONFIG w path) as [nc|e]; simpl.
  - left. eauto.
  - right. reflexivity.
Qed.

Lemma load_missing (w : world) (path : string) :
  files w !! path = None ->
  load_config_from_docker_compose w path = Ok DEFAULT_CONFIG.
Proof.
  intros H. unfold load_config_from_docker_compose, load_with, path_exists.
  rewrite bool_decide_eq_false_2; [reflexivity |].
  rewrite H. intros [? ?]. discriminate.
Qed.

Lemma load_existing (w : world) (path : string) (f : file) :
  files w !! path = Some f ->
  load_config_from_docker_compose w path =
  try_except (new_config <- load_try DEFAULT_CONFIG w path ;; Ok (PDict new_config))
    (fun _ => Ok DEFAULT_CONFIG).
Proof.
  intros H. unfold load_config_from_docker_compose, load_with, path_exists.
  rewrite bool_decide_eq_true_2 by (rewrite H; eauto). reflexivity.
Qed.

Lemma load_raised (w : world) (path : string) (e : exn) :
  load_try DEFAULT_CONFIG w path = Raise e ->
  load_config_from_docker_compose w path = Ok DEFAULT_CONFIG.
Proof.
  intros H. unfold load_config_from_docker_compose, load_with.
  destruct (negb (path_exists w path)); [reflexivity |].
  rewrite H. reflexivity.
Qed.

Lemma load_document (w : world) (path : string) (data : pyval) :
  files w !! path = Some (Doc data) ->
  load_try DEFAULT_CONFIG w path = load_body DEFAULT_CONFIG data.
Proof. intros H. unfold load_try, read_yaml. rewrite H. reflexivity. Qed.

Lemma key_neq_str (k : pykey) (s : string) :
  k <> KStr s -> key_eqb k (KStr s) = false.
Proof.
  intros H. destruct (key_eqb k (KStr s)) eqn:E; [|reflexivity].
  apply key_eqb_str in E. contradiction.
Qed.

Lemma key_neq_str_l (k : pykey) (s : string) :
  k <> KStr s -> key_eqb (KStr s) k = false.
Proof. intros H. rewrite key_eqb_sym. apply key_neq_str, H. Qed.

(** An entry under an unknown key in [services] is not looked at. *)
Lemma load_service_unknown_key (dc : pyval) (doc doc' : pydict)
    (pre post : pydict) (k : pykey) (v : pyval) (name : string) (nc : pydict) :
  dict_get (KStr "services") doc = Some (PDict (pre ++ post)) ->
  dict_get (KStr "services") doc' = Some (PDict (pre ++ (k, v) :: post)) ->
  k <> KStr name ->
  load_service dc (PDict doc') name nc = load_service dc (PDict doc) name nc.
Proof.
  intros H H' Hk. unfold load_service.
  cbn [py_get]. rewrite H, H'. cbn [bind py_get].
  rewrite dict_get_insert_other by (apply key_neq_str, Hk). reflexivity.
Qed.

Lemma py_get_dict (d : pydict) (k : string) (dflt : pyval) :
  py_get (PDict d) k dflt = Ok (get_or d k dflt).
Proof. unfold py_get, get_or. destruct (dict_get (KStr k) d); reflexivity. Qed.

(** The port and path fields of a loaded model, in terms of the entry the
    document has for the service. *)
Lemma loaded_fields (doc svcs sd : pydict) (name : string) (nc : pydict) :
  load_body DEFAULT_CONFIG (PDict doc) = Ok nc ->
  dict_get (KStr "services") doc = Some (PDict svcs) ->
  dict_get (KStr name) svcs = Some (PDict sd) ->
  name = "justicar" \/ name = "chain" ->
  exists dport dcfg ports cfg,
    default_field DEFAULT_CONFIG name "port" = Ok dport /\
    default_field DEFAULT_CONFIG name "configuration file" = Ok dcfg /\
    first_host_side (get_or sd "ports" dport) = Ok ports /\
    first_host_side (get_or sd "volumes" dcfg) = Ok cfg /\
    model_field nc name "port" = Some ports /\
    model_field nc name "configuration file" = Some cfg.
Proof.
  intros H Hdoc Hsd Hname.
  apply load_body_default_inv in H as (s1 & H1 & H2).
  apply load_service_inv in H1
    as (sv1 & sd1 & dp1 & p01 & p1 & dc1 & c01 & c1 &
        A1 & A2 & A3 & A4 & A5 & A6 & A7 & A8 & H1).
  apply load_service_inv in H2
    as (sv2 & sd2 & dp2 & p02 & p2 & dc2 & c02 & c2 &
        B1 & B2 & B3 & B4 & B5 & B6 & B7 & B8 & H2).
  destruct H1 as [(_ & jn & ->) | [(Hn & _) | (Hn & _)]];
    [| discriminate Hn | contradiction Hn; reflexivity].
  destruct H2 as [(Hn & _) | [(_ & cn & cnet & ->) | (_ & Hn & _)]];
    [discriminate Hn | | contradiction Hn; reflexivity].
  rewrite py_get_dict in A1, B1. unfold get_or in A1, B1.
  rewrite Hdoc in A1, B1. inversion A1. inversion B1. subst sv1 sv2.
  destruct Hname as [-> | ->].
  - rewrite py_get_dict in A2. unfold get_or in A2. rewrite Hsd in A2.
    inversion A2. subst sd1. rewrite py_get_dict in A4, A7.
    inversion A4. inversion A7. subst p01 c01.
    exists dp1, dc1, p1, c1. repeat (split; [assumption |]).
    split; reflexivity.
  - rewrite py_get_dict in B2. unfold get_or in B2. rewrite Hsd in B2.
    inversion B2. subst sd2. rewrite py_get_dict in B4, B7.
    inversion B4. inversion B7. subst p02 c02.
    exists dp2, dc2, p2, c2. repeat (split; [assumption |]).
    split; reflexivity.
Qed.

(** ** The writer on well-formed models *)

Lemma justicar_service_record (rj : pydict) (port cfg name : string) :
  dict_holds rj (justicar_record port cfg name) ->
  justicar_service (PDict rj) =
  Ok (justicar_definition (PStr name) (PStr (port ++ ":1309"))
        (PStr (cfg ++ ":/opt/justicar/backups"))).
Proof.
  intros [_ H]. unfold justicar_service.
  rewrite (py_subscript_dict rj "name" (PStr name)) by (apply H; simpl; auto).
  rewrite (py_subscript_dict rj "port" (PStr port)) by (apply H; simpl; auto).
  rewrite (py_subscript_dict rj "configuration file" (PStr cfg)) by (apply H; simpl; auto).
  reflexivity.
Qed.

Lemma chain_service_record (rc : pydict) (port cfg name network : string) :
  dict_holds rc (chain_record port cfg name network) ->
  chain_service (PDict rc) =
  Ok (chain_definition (PStr ("cesslab/cess-chain:" ++ network))
        (PStr (cfg ++ ":/opt/cess/data")) (PStr ("cess-" ++ network))
        (PStr name) (PStr (port ++ ":9944"))).
Proof.
  intros [_ H]. unfold chain_service.
  rewrite (py_subscript_dict rc "name" (PStr name)) by (apply H; simpl; auto).
  rewrite (py_subscript_dict rc "port" (PStr port)) by (apply H; simpl; auto).
  rewrite (py_subscript_dict rc "configuration file" (PStr cfg)) by (apply H; simpl; auto).
  rewrite (py_subscript_dict rc "network" (PStr network)) by (apply H; simpl; auto 6).
  reflexivity.
Qed.





(** A dict of two entries that holds both service keys lists them in one
    of the two orders. *)
Lemma two_services (items : pydict) (vj vc : pyval) :
  dict_holds items [ (KStr "justicar", vj); (KStr "chain", vc) ] ->
  items = [ (KStr "justicar", vj); (KStr "chain", vc) ] \/
  items = [ (KStr "chain", vc); (KStr "justicar", vj) ].
Proof.
  intros [Hlen H].
  destruct items as [|[k1 v1] [|[k2 v2] [|? ?]]]; try discriminate.
  pose proof (H (KStr "justicar") vj (or_introl eq_refl)) as Hj.
  pose proof (H (KStr "chain") vc (or_intror (or_introl eq_refl))) as Hc.
  simpl in Hj, Hc.
  destruct (key_eqb k1 (KStr "justicar")) eqn:E1.
  - apply key_eqb_str in E1. subst k1. simpl in Hc.
    destruct (key_eqb k2 (KStr "chain")) eqn:E2; [|discriminate].
    apply key_eqb_str in E2. left. congruence.
  - destruct (key_eqb k2 (KStr "justicar")) eqn:E2; [|discriminate].
    apply key_eqb_str in E2. subst k2.
    destruct (key_eqb k1 (KStr "chain")) eqn:E3; [|simpl in Hc; discriminate].
    apply key_eqb_str in E3. right. congruence.
Qed.

(** Skipping an unsupported key leaves the loop's state as it was. *)
Lemma save_service_unsupported (k : pykey) (v : pyval) (services : pydict) :
  k <> KStr "justicar" -> k <> KStr "chain" ->
  save_service (k, v) services = Ok services.
Proof.
  intros Hj Hc. unfold save_service.
  rewrite (key_neq_str _ _ Hj), (key_neq_str _ _ Hc). reflexivity.
Qed.

Lemma for_each_unsupported (pre post : pydict) (k : pykey) (v : pyval)
    (acc : pydict) :
  k <> KStr "justicar" -> k <> KStr "chain" ->
  for_each (pre ++ (k, v) :: post) save_service acc
  = for_each (pre ++ post) save_service acc.
Proof.
  intros Hj Hc. revert acc.
  induction pre as [|x pre IH]; intros acc; cbn [app for_each].
  - rewrite (save_service_unsupported k v acc Hj Hc). reflexivity.
  - destruct (save_service x acc) as [acc'|e]; cbn [bind];
      [apply IH | reflexivity].
Qed.

(** The services the writer synthesizes for a model of the two services
    with string fields. *)
Lemma save_services_well_formed (items rj rc : pydict)
    (jp jc jn cp cc cn cnet : string) :
  dict_holds items [ (KStr "justicar", PDict rj); (KStr "chain", PDict rc) ] ->
  dict_holds rj (justicar_record jp jc jn) ->
  dict_holds rc (chain_record cp cc cn cnet) ->
  exists services,
    for_each items save_service [] = Ok services /\
    keys services = keys items /\
    length services = 2 /\
    dict_get (KStr "justicar") services =
      Some (justicar_definition (PStr jn) (PStr (jp ++ ":1309"))
              (PStr (jc ++ ":/opt/justicar/backups"))) /\
    dict_get (KStr "chain") services =
      Some (chain_definition (PStr ("cesslab/cess-chain:" ++ cnet))
              (PStr (cc ++ ":/opt/cess/data")) (PStr ("cess-" ++ cnet))
              (PStr cn) (PStr (cp ++ ":9944"))).
Proof.
  intros Hitems Hrj Hrc.
  pose proof (justicar_service_record _ _ _ _ Hrj) as Sj.
  pose proof (chain_service_record _ _ _ _ _ Hrc) as Sc.
  destruct (two_services _ _ _ Hitems) as [-> | ->];
    cbn [for_each save_service key_eqb String.eqb Ascii.eqb Bool.eqb];
    rewrite Sj, Sc; cbn [bind dict_set key_eqb String.eqb Ascii.eqb Bool.eqb];
    eexists; repeat (split; [reflexivity |]); reflexivity.
Qed.

Lemma save_writes (items services : pydict) (p : string) (w : world) :
  for_each items save_service [] = Ok services ->
  p ∉ write_denied w ->
  save_config_to_docker_compose (PDict items) p w
  = Ok (World (<[p := Doc (docker_compose_data services)]> (files w))
          (write_denied w)).
Proof.
  intros Hfor Hw. unfold save_config_to_docker_compose.
  cbn [py_items bind]. rewrite Hfor. cbn [bind]. unfold write_yaml.
  rewrite bool_decide_eq_false_2 by assumption. reflexivity.
Qed.

(** Whatever the writer writes has the fixed version tag and the one fixed
    network. *)
Lemma save_inv (config : pyval) (p : string) (w w' : world) :
  save_config_to_docker_compose config p w = Ok w' ->
  exists items services,
    config = PDict items /\
    for_each items save_service [] = Ok services /\
    (p ∉ write_denied w) /\
    w' = World (<[p := Doc (docker_compose_data services)]> (files w))
           (write_denied w).
Proof.
  unfold save_config_to_docker_compose. intros H. bind_inv H.
  destruct config; try discriminate. inversion E. subst.
  unfold write_yaml in H. case_bool_decide; [discriminate |].
  inversion H. eauto 10.
Qed.

(** ** Round trip *)


(** ** Default fallback *)

Lemma load_empty_file (w : world) (path : string) :
  files w !! path = Some (Doc PNone) ->
  load_config_from_docker_compose w path = Ok DEFAULT_CONFIG.
Proof.
  intros H. apply (load_raised w path AttributeError).
  rewrite (load_document w path PNone H). reflexivity.
Qed.

(** Without a [services] key every field falls back to its default, and
    the port and path defaults are then cut to their first character. *)
Lemma load_without_services (w : world) (path : string) (doc : pydict) :
  files w !! path = Some (Doc (PDict doc)) ->
  dict_get (KStr "services") doc = None ->
  load_config_from_docker_compose w path =
  Ok (PDict [ (KStr "justicar", PDict (justicar_record "1" "/" "justicar"));
              (KStr "chain", PDict (chain_record "9" "/" "cess-chain" "testnet")) ]).
Proof.
  intros H Hs. rewrite (load_existing w path _ H), (load_document w path _ H).
  unfold load_body.
  cbn [py_items DEFAULT_CONFIG bind keys map fst for_each].
  unfold load_service. cbn [py_get]. rewrite Hs. reflexivity.
Qed.

(** C2 (default fallback).  A missing path and an empty file both load as
    the default model, but a parseable mapping without a [services] key
    does not: the loader returns a model whose ports are ["1"] and ["9"]
    and whose paths are ["/"], which is not equal to [DEFAULT_CONFIG]. *)
Theorem default_fallback_fails_without_services :
  load_config_from_docker_compose no_files default_path = Ok DEFAULT_CONFIG /\
  load_config_from_docker_compose (one_file (Doc PNone)) default_path
    = Ok DEFAULT_CONFIG /\
  load_config_from_docker_compose (one_file (Doc no_services_doc)) default_path
    = Ok (PDict [ (KStr "justicar", PDict (justicar_record "1" "/" "justicar"));
                  (KStr "chain", PDict (chain_record "9" "/" "cess-chain" "testnet")) ]) /\
  py_eqb (PDict [ (KStr "justicar", PDict (justicar_record "1" "/" "justicar"));
                  (KStr "chain", PDict (chain_record "9" "/" "cess-chain" "testnet")) ])
         DEFAULT_CONFIG = false.
Proof.
  split; [apply load_missing; reflexivity |].
  split; [apply load_empty_file; reflexivity |].
  split; [apply (load_without_services _ _ [ (KStr "version", PStr "3.9") ]);
          reflexivity |].
  reflexivity.
Qed.

(** ** Empty sequences *)

(** The guard [len(x) > 0] leaves an empty sequence as it is. *)
Lemma first_host_side_empty : first_host_side (PList []) = Ok (PList []).
Proof. reflexivity. Qed.

Lemma loaded_empty_sequence (w : world) (path : string)
    (doc svcs sd : pydict) (name : string) (nc : pydict) :
  files w !! path = Some (Doc (PDict doc)) ->
  dict_get (KStr "services") doc = Some (PDict svcs) ->
  dict_get (KStr name) svcs = Some (PDict sd) ->
  name = "justicar" \/ name = "chain" ->
  load_try DEFAULT_CONFIG w path = Ok nc ->
  (dict_get (KStr "ports") sd = Some (PList []) ->
   model_field nc name "port" = Some (PList [])) /\
  (dict_get (KStr "volumes") sd = Some (PList []) ->
   model_field nc name "configuration file" = Some (PList [])).
Proof.
  intros Hf Hdoc Hsd Hname Hload. rewrite (load_document _ _ _ Hf) in Hload.
  destruct (loaded_fields doc svcs sd name nc Hload Hdoc Hsd Hname)
    as (dport & dcfg & ports & cfg & _ & _ & Hp & Hc & Mp & Mc).
  unfold get_or in Hp, Hc. split; intros E.
  - rewrite E in Hp. inversion Hp. subst. exact Mp.
  - rewrite E in Hc. inversion Hc. subst. exact Mc.
Qed.

(** C3 (empty-sequence safety).  With [ports: []] the loader does not raise
    and extracts the other fields, but the port of the record is the empty
    list itself, not the default ["1309"]; with [volumes: []] the path is
    the empty list, not the default path.  The writer then raises
    [TypeError] on such a model. *)
Theorem empty_sequence_is_kept_not_defaulted :
  load_config_from_docker_compose (one_file (Doc empty_ports_doc)) default_path
    = Ok (PDict [ (KStr "justicar",
                   PDict [ (KStr "port", PList []);
                           (KStr "configuration file", PStr "/srv/justicar");
                           (KStr "name", PStr "worker") ]);
                  (KStr "chain",
                   PDict (chain_record "9944" "/opt/cd2n/chain" "cess-chain" "testnet")) ]) /\
  load_config_from_docker_compose (one_file (Doc empty_volumes_doc)) default_path
    = Ok (PDict [ (KStr "justicar",
                   PDict [ (KStr "port", PStr "8080");
                           (KStr "configuration file", PList []);
                           (KStr "name", PStr "worker") ]);
                  (KStr "chain",
                   PDict (chain_record "9944" "/opt/cd2n/chain" "cess-chain" "testnet")) ]) /\
  default_field DEFAULT_CONFIG "justicar" "port" = Ok (PStr "1309") /\
  default_field DEFAULT_CONFIG "justicar" "configuration file"
    = Ok (PStr "/opt/cd2n/justicar") /\
  (m <- load_config_from_docker_compose (one_file (Doc empty_ports_doc)) default_path ;;
   save_config_to_docker_compose m default_path no_files) = Raise TypeError.
Proof. repeat split; reflexivity. Qed.

(** ** Keys of the loaded model *)

Lemma load_keys (w : world) (path : string) :
  exists d,
    load_config_from_docker_compose w path = Ok (PDict d) /\
    keys d = [ KStr "justicar"; KStr "chain" ].
Proof.
  destruct (load_cases w path) as [(nc & Ht & Hl) | Hl].
  - exists nc. split; [exact Hl |].
    unfold load_try in Ht. apply bind_ok in Ht as (data & _ & Hb).
    apply load_body_shape in Hb as (? & ? & ? & ? & ? & ? & ? & ->).
    reflexivity.
  - eexists. split; [exact Hl | reflexivity].
Qed.

Lemma load_body_unknown_key (doc doc' pre post : pydict) (k : pykey) (v : pyval) :
  dict_get (KStr "services") doc = Some (PDict (pre ++ post)) ->
  dict_get (KStr "services") doc' = Some (PDict (pre ++ (k, v) :: post)) ->
  k <> KStr "justicar" -> k <> KStr "chain" ->
  load_body DEFAULT_CONFIG (PDict doc') = load_body DEFAULT_CONFIG (PDict doc).
Proof.
  intros H H' Hj Hc. unfold load_body.
  cbn [py_items DEFAULT_CONFIG bind keys map fst for_each].
  rewrite (load_service_unknown_key _ doc doc' pre post k v "justicar" [] H H' Hj).
  destruct (load_service DEFAULT_CONFIG (PDict doc) "justicar" []) as [s1|e];
    [| reflexivity].
  cbn [bind].
  rewrite (load_service_unknown_key _ doc doc' pre post k v "chain" s1 H H' Hc).
  reflexivity.
Qed.

(** C5 (key set and order of load).  Whatever the file system holds at the
    path, the loader returns a dict whose keys are [justicar] then [chain];
    and an entry under any other key in the document's [services], at any
    position, changes nothing in what the loader returns. *)
Theorem load_key_set_and_order :
  (forall (w : world) (path : string),
      exists d,
        load_config_from_docker_compose w path = Ok (PDict d) /\
        keys d = [ KStr "justicar"; KStr "chain" ]) /\
  (forall (w w' : world) (path path' : string) (doc doc' pre post : pydict)
          (k : pykey) (v : pyval),
      files w !! path = Some (Doc (PDict doc)) ->
      files w' !! path' = Some (Doc (PDict doc')) ->
      dict_get (KStr "services") doc = Some (PDict (pre ++ post)) ->
      dict_get (KStr "services") doc' = Some (PDict (pre ++ (k, v) :: post)) ->
      k <> KStr "justicar" -> k <> KStr "chain" ->
      load_config_from_docker_compose w' path'
      = load_config_from_docker_compose w path).
Proof.
  split; [exact load_keys |].
  intros w w' path path' doc doc' pre post k v Hf Hf' H H' Hj Hc.
  rewrite (load_existing _ _ _ Hf), (load_existing _ _ _ Hf').
  rewrite (load_document _ _ _ Hf), (load_document _ _ _ Hf').
  rewrite (load_body_unknown_key doc doc' pre post k v H H' Hj Hc).
  reflexivity.
Qed.

(** ** Recovery *)

(** A [chain] image without a colon makes the loop raise. *)
Lemma untagged_image_raises (doc svcs sd : pydict) (img : string) :
  dict_get (KStr "services") doc = Some (PDict svcs) ->
  dict_get (KStr "chain") svcs = Some (PDict sd) ->
  dict_get (KStr "image") sd = Some (PStr img) ->
  colon_free img = true ->
  exists e, load_body DEFAULT_CONFIG (PDict doc) = Raise e.
Proof.
  intros Hdoc Hsv Himg Hfree. unfold load_body.
  cbn [py_items DEFAULT_CONFIG bind keys map fst for_each].
  destruct (load_service DEFAULT_CONFIG (PDict doc) "justicar" []) as [s1|e];
    [| eauto].
  cbn [bind]. unfold load_service.
  rewrite py_get_dict. unfold get_or at 1. rewrite Hdoc. cbn [bind].
  rewrite py_get_dict. unfold get_or at 1. rewrite Hsv. cbn [bind].
  change (default_field DEFAULT_CONFIG "chain" "port") with (Ok (PStr "9944")).
  change (default_field DEFAULT_CONFIG "chain" "configuration file")
    with (Ok (PStr "/opt/cd2n/chain")).
  change (default_field DEFAULT_CONFIG "chain" "name") with (Ok (PStr "cess-chain")).
  cbn [bind String.eqb Ascii.eqb Bool.eqb].
  repeat (rewrite py_get_dict; cbn [bind];
          try match goal with
              | |- context [bind (first_host_side ?x) _] =>
                  destruct (first_host_side x); cbn [bind]; [| eauto]
              end).
  assert (Hg : get_or sd "image" PNone = PStr img)
    by (unfold get_or; rewrite Himg; reflexivity).
  rewrite !Hg. cbn [bind py_split].
  rewrite (split_colon_free img Hfree). cbn. eauto.
Qed.

(** C7 (loader total recovery).  The loader returns for every file system
    and path, never raising, and what it returns is a dict keyed by the two
    services; whenever the path is missing, the file cannot be opened or
    parsed, or the [try] block raises for any reason (a chain image
    without a colon among them), the result is the default model. *)
Theorem loader_total_recovery (w : world) (path : string) :
  (exists d,
      load_config_from_docker_compose w path = Ok (PDict d) /\
      keys d = [ KStr "justicar"; KStr "chain" ]) /\
  (files w !! path = None ->
   load_config_from_docker_compose w path = Ok DEFAULT_CONFIG) /\
  (files w !! path = Some Unreadable \/ files w !! path = Some Garbled ->
   load_config_from_docker_compose w path = Ok DEFAULT_CONFIG) /\
  (forall e, load_try DEFAULT_CONFIG w path = Raise e ->
             load_config_from_docker_compose w path = Ok DEFAULT_CONFIG) /\
  (forall (doc svcs sd : pydict) (img : string),
      files w !! path = Some (Doc (PDict doc)) ->
      dict_get (KStr "services") doc = Some (PDict svcs) ->
      dict_get (KStr "chain") svcs = Some (PDict sd) ->
      dict_get (KStr "image") sd = Some (PStr img) ->
      colon_free img = true ->
      load_config_from_docker_compose w path = Ok DEFAULT_CONFIG).
Proof.
  split; [apply load_keys |].
  split; [apply load_missing |].
  split.
  { intros [H | H].
    - apply (load_raised w path OSError). unfold load_try, read_yaml.
      rewrite H. reflexivity.
    - apply (load_raised w path YAMLError). unfold load_try, read_yaml.
      rewrite H. reflexivity. }
  split; [intros e; apply load_raised |].
  intros doc svcs sd img Hf Hdoc Hsv Himg Hfree.
  destruct (untagged_image_raises doc svcs sd img Hdoc Hsv Himg Hfree) as [e He].
  apply (load_raised w path e). rewrite (load_document _ _ _ Hf). exact He.
Qed.

(** ** Absent [ports] and [volumes] keys *)

(** C10 as stated fails: an entry for [justicar] without [ports] and
    [volumes], in a document whose [chain] image has no tag.  The
    [IndexError] of [split(":")[1]] discards the whole extraction, and
    the model returned has the default port and path, not their first
    characters. *)
Lemma absent_key_beside_untagged_image_keeps_default :
  exists doc svcs sd d,
    absent_keys_untagged_doc = PDict doc /\
    dict_get (KStr "services") doc = Some (PDict svcs) /\
    dict_get (KStr "justicar") svcs = Some (PDict sd) /\
    dict_get (KStr "ports") sd = None /\
    dict_get (KStr "volumes") sd = None /\
    load_try DEFAULT_CONFIG (one_file (Doc absent_keys_untagged_doc)) default_path
    = Raise IndexError /\
    load_config_from_docker_compose (one_file (Doc absent_keys_untagged_doc))
      default_path = Ok (PDict d) /\
    model_field d "justicar" "port" = Some (PStr "1309") /\
    model_field d "justicar" "port" <> Some (PStr "1") /\
    model_field d "justicar" "configuration file" = Some (PStr "/opt/cd2n/justicar") /\
    model_field d "justicar" "configuration file" <> Some (PStr "/").
Proof.
  do 4 eexists.
  split; [reflexivity |]. split; [reflexivity |]. split; [reflexivity |].
  split; [reflexivity |]. split; [reflexivity |]. split; [reflexivity |].
  split; [reflexivity |]. split; [reflexivity |].
  split; [discriminate |]. split; [reflexivity | discriminate].
Qed.

(** C10, amended.  The document has a [services] mapping whose entry for
    [justicar] or [chain] is a mapping.  When the [try] block completes,
    the port the loader returns for a service whose entry has no [ports]
    key is the first character of the default port (["1"] for [justicar],
    ["9"] for [chain]) rather than the default, and without a [volumes]
    key the path it returns is ["/"].  When the block raises, for
    whatever reason and wherever in the document, the loader returns the
    default model, in which the port and the path of the service are the
    defaults in full. *)
Theorem absent_key_yields_first_character
    (w : world) (path : string) (doc svcs sd : pydict) (name : string) :
  files w !! path = Some (Doc (PDict doc)) ->
  dict_get (KStr "services") doc = Some (PDict svcs) ->
  dict_get (KStr name) svcs = Some (PDict sd) ->
  name = "justicar" \/ name = "chain" ->
  (forall nc,
      load_try DEFAULT_CONFIG w path = Ok nc ->
      load_config_from_docker_compose w path = Ok (PDict nc) /\
      (dict_get (KStr "ports") sd = None ->
       model_field nc name "port"
       = Some (PStr (if String.eqb name "justicar" then "1" else "9")) /\
       forall dflt, default_field DEFAULT_CONFIG name "port" = Ok dflt ->
                    model_field nc name "port" <> Some dflt) /\
      (dict_get (KStr "volumes") sd = None ->
       model_field nc name "configuration file" = Some (PStr "/") /\
       forall dflt,
         default_field DEFAULT_CONFIG name "configuration file" = Ok dflt ->
         model_field nc name "configuration file" <> Some dflt)) /\
  (forall e,
      load_try DEFAULT_CONFIG w path = Raise e ->
      exists d dport dcfg,
        load_config_from_docker_compose w path = Ok (PDict d) /\
        PDict d = DEFAULT_CONFIG /\
        default_field DEFAULT_CONFIG name "port" = Ok dport /\
        default_field DEFAULT_CONFIG name "configuration file" = Ok dcfg /\
        model_field d name "port" = Some dport /\
        model_field d name "configuration file" = Some dcfg).
Proof.
  intros Hf Hdoc Hsd Hname. split.
  - intros nc Hload. split.
    { rewrite (load_existing _ _ _ Hf), Hload. reflexivity. }
    rewrite (load_document _ _ _ Hf) in Hload.
    destruct (loaded_fields doc svcs sd name nc Hload Hdoc Hsd Hname)
      as (dport & dcfg & ports & cfg & Dp & Dc & Hp & Hc & Mp & Mc).
    unfold get_or in Hp, Hc. rewrite Mp, Mc.
    split; intros E.
    + rewrite E in Hp.
      destruct Hname as [-> | ->]; vm_compute in Dp; inversion Dp; subst dport;
        vm_compute in Hp; inversion Hp; subst ports;
        (split; [reflexivity |
                 intros dflt Hd; vm_compute in Hd; inversion Hd; discriminate]).
    + rewrite E in Hc.
      destruct Hname as [-> | ->]; vm_compute in Dc; inversion Dc; subst dcfg;
        vm_compute in Hc; inversion Hc; subst cfg;
        (split; [reflexivity |
                 intros dflt Hd; vm_compute in Hd; inversion Hd; discriminate]).
  - intros e Hload. rewrite (load_raised w path e Hload).
    destruct Hname as [-> | ->]; do 3 eexists;
      (split; [reflexivity |]); repeat (split; [reflexivity |]); reflexivity.
Qed.

(** ** The chain's startup arguments *)

Lemma chain_service_command (service_config s : pyval) (network : string) :
  py_subscript service_config "network" = Ok (PStr network) ->
  chain_service service_config = Ok s ->
  py_subscript s "command" = Ok (PList (chain_command (PStr ("cess-" ++ network)))).
Proof.
  intros Hn H. unfold chain_service in H. rewrite Hn in H.
  cbn [bind py_add] in H. bind_inv H. inversion H. reflexivity.
Qed.

Lemma testnet_command_pairs :
  followed_by (PStr "--chain") (PStr "cess-testnet")
    (chain_command (PStr "cess-testnet")) /\
  count_pair (PStr "--base-path") (PStr "/opt/cess/data")
    (chain_command (PStr "cess-testnet")) = 1.
Proof.
  split; [| reflexivity].
  exists [ PStr "--base-path"; PStr "/opt/cess/data" ]. eexists. reflexivity.
Qed.

(** C6 (verbatim argument contract).  Whenever [case "chain"] completes on
    a record whose network is ["testnet"], the [command] it synthesizes
    has ["--chain"] immediately followed by ["cess-testnet"] and exactly
    one ["--base-path"], ["/opt/cess/data"] pair; it completes on every
    record of four string fields, and the document the writer emits for
    such a model carries that command under [services.chain]. *)
Theorem verbatim_argument_contract :
  (forall service_config s,
      py_subscript service_config "network" = Ok (PStr "testnet") ->
      chain_service service_config = Ok s ->
      exists cmd,
        py_subscript s "command" = Ok (PList cmd) /\
        followed_by (PStr "--chain") (PStr "cess-testnet") cmd /\
        count_pair (PStr "--base-path") (PStr "/opt/cess/data") cmd = 1) /\
  (forall (w : world) (p : string) (items rj rc : pydict)
          (jp jc jn cp cc cn : string),
      dict_holds items [ (KStr "justicar", PDict rj); (KStr "chain", PDict rc) ] ->
      dict_holds rj (justicar_record jp jc jn) ->
      dict_holds rc (chain_record cp cc cn "testnet") ->
      p ∉ write_denied w ->
      exists w' doc services chain cmd,
        save_config_to_docker_compose (PDict items) p w = Ok w' /\
        files w' !! p = Some (Doc doc) /\
        py_subscript doc "services" = Ok services /\
        py_subscript services "chain" = Ok chain /\
        py_subscript chain "command" = Ok (PList cmd) /\
        followed_by (PStr "--chain") (PStr "cess-testnet") cmd /\
        count_pair (PStr "--base-path") (PStr "/opt/cess/data") cmd = 1).
Proof.
  split.
  - intros service_config s Hn H.
    exists (chain_command (PStr "cess-testnet")).
    split; [exact (chain_service_command _ _ _ Hn H) |].
    exact testnet_command_pairs.
  - intros w p items rj rc jp jc jn cp cc cn Hitems Hrj Hrc Hw.
    destruct (save_services_well_formed _ _ _ _ _ _ _ _ _ _ Hitems Hrj Hrc)
      as (services & Hfor & _ & _ & _ & Hgc).
    rewrite (save_writes items services p w Hfor Hw).
    eexists _, _, _, _, (chain_command (PStr "cess-testnet")).
    split; [reflexivity |].
    split; [cbn [files]; apply lookup_insert_eq |].
    split; [reflexivity |].
    split; [apply py_subscript_dict, Hgc |].
    split; [reflexivity |].
    exact testnet_command_pairs.
Qed.

(** ** Unsupported keys in the writer *)

(** C8 (unsupported key skip in save).  An entry under a key other than
    the two supported ones, placed anywhere in the model, changes nothing
    in what the writer does.  For a model of the two services with string
    fields and such a third entry the writer does not raise, and the
    document it leaves at the path, read back under ["services"], is a
    mapping of two entries, the [justicar] and the [chain] definition
    with the name, port, path and network of their records, and none
    under the third key; read under ["networks"] it is the
    single [cd2n] bridge network, as in every document the writer emits,
    whatever the model holds. *)
Theorem unsupported_key_skip :
  (forall (w : world) (p : string) (pre post : pydict) (k : pykey) (v : pyval),
      k <> KStr "justicar" -> k <> KStr "chain" ->
      save_config_to_docker_compose (PDict (pre ++ (k, v) :: post)) p w
      = save_config_to_docker_compose (PDict (pre ++ post)) p w) /\
  (forall (w : world) (p : string) (pre post rj rc : pydict)
          (k : pykey) (v : pyval) (jp jc jn cp cc cn cnet : string),
      dict_holds (pre ++ post)
        [ (KStr "justicar", PDict rj); (KStr "chain", PDict rc) ] ->
      dict_holds rj (justicar_record jp jc jn) ->
      dict_holds rc (chain_record cp cc cn cnet) ->
      k <> KStr "justicar" -> k <> KStr "chain" ->
      p ∉ write_denied w ->
      exists w' doc services,
        save_config_to_docker_compose (PDict (pre ++ (k, v) :: post)) p w = Ok w' /\
        save_config_to_docker_compose (PDict (pre ++ post)) p w = Ok w' /\
        files w' !! p = Some (Doc (PDict doc)) /\
        keys doc = [ KStr "version"; KStr "services"; KStr "networks" ] /\
        py_subscript (PDict doc) "services" = Ok (PDict services) /\
        py_subscript (PDict doc) "networks"
        = Ok (PDict [ (KStr "cd2n",
                       PDict [ (KStr "name", PStr "cd2n");
                               (KStr "driver", PStr "bridge") ]) ]) /\
        keys services = keys (pre ++ post) /\
        (keys services = [ KStr "justicar"; KStr "chain" ] \/
         keys services = [ KStr "chain"; KStr "justicar" ]) /\
        length services = 2 /\
        dict_get k services = None /\
        dict_get (KStr "justicar") services =
          Some (justicar_definition (PStr jn) (PStr (jp ++ ":1309"))
                  (PStr (jc ++ ":/opt/justicar/backups"))) /\
        dict_get (KStr "chain") services =
          Some (chain_definition (PStr ("cesslab/cess-chain:" ++ cnet))
                  (PStr (cc ++ ":/opt/cess/data")) (PStr ("cess-" ++ cnet))
                  (PStr cn) (PStr (cp ++ ":9944"))) /\
        (exists dj,
            py_subscript (PDict services) "justicar" = Ok dj /\
            py_subscript dj "image" = Ok (PStr "cdn:latest") /\
            py_subscript dj "container_name" = Ok (PStr jn) /\
            py_subscript dj "ports" = Ok (PList [PStr (jp ++ ":1309")]) /\
            py_subscript dj "volumes"
            = Ok (PList [PStr (jc ++ ":/opt/justicar/backups")])) /\
        (exists dc,
            py_subscript (PDict services) "chain" = Ok dc /\
            py_subscript dc "image" = Ok (PStr ("cesslab/cess-chain:" ++ cnet)) /\
            py_subscript dc "container_name" = Ok (PStr cn) /\
            py_subscript dc "ports"
            = Ok (PList [PStr (cp ++ ":9944"); PStr "30336:30336"]) /\
            py_subscript dc "volumes" = Ok (PList [PStr (cc ++ ":/opt/cess/data")]))) /\
  (forall (config : pyval) (p : string) (w w' : world),
      save_config_to_docker_compose config p w = Ok w' ->
      exists doc,
        files w' !! p = Some (Doc doc) /\
        py_subscript doc "networks"
        = Ok (PDict [ (KStr "cd2n",
                       PDict [ (KStr "name", PStr "cd2n");
                               (KStr "driver", PStr "bridge") ]) ])).
Proof.
  split; [| split].
  - intros w p pre post k v Hj Hc. unfold save_config_to_docker_compose.
    cbn [py_items bind]. rewrite (for_each_unsupported pre post k v [] Hj Hc).
    reflexivity.
  - intros w p pre post rj rc k v jp jc jn cp cc cn cnet Hitems Hrj Hrc Hj Hc Hw.
    destruct (save_services_well_formed _ _ _ _ _ _ _ _ _ _ Hitems Hrj Hrc)
      as (services & Hfor & Hkeys & Hlen & Hgj & Hgc).
    exists (World (<[p := Doc (docker_compose_data services)]> (files w))
              (write_denied w)),
      [ (KStr "version", PStr "3.9"); (KStr "services", PDict services);
        (KStr "networks", compose_networks) ],
      services.
    split.
    { apply save_writes; [| exact Hw].
      rewrite (for_each_unsupported pre post k v [] Hj Hc). exact Hfor. }
    split; [apply save_writes; assumption |].
    split; [cbn [files]; apply lookup_insert_eq |].
    split; [reflexivity |]. split; [reflexivity |]. split; [reflexivity |].
    split; [exact Hkeys |].
    split.
    { rewrite Hkeys. destruct (two_services _ _ _ Hitems) as [E | E];
        rewrite E; auto. }
    split; [exact Hlen |].
    split;
      [| split; [exact Hgj |];
         split; [exact Hgc |];
         split; eexists;
           (split; [apply py_subscript_dict; eassumption |]);
           repeat split; reflexivity].
    destruct services as [|[k1 s1] [|[k2 s2] [|? ?]]]; try discriminate Hlen.
    destruct (two_services _ _ _ Hitems) as [E | E]; rewrite E in Hkeys;
      inversion Hkeys; subst k1 k2; cbn [dict_get];
      rewrite (key_neq_str_l _ _ Hj), (key_neq_str_l _ _ Hc); reflexivity.
  - intros config p w w' H.
    apply save_inv in H as (items & services & _ & _ & _ & ->).
    eexists. split; [cbn [files]; apply lookup_insert_eq | reflexivity].
Qed.

(** ** Commit *)

Lemma dict_get_congr {V} (a b : pykey) (d : list (pykey * V)) :
  key_eqb a b = true -> dict_get a d = dict_get b d.
Proof.
  intros H. induction d as [|[k v] d IH]; simpl; [reflexivity |].
  rewrite (key_eqb_congr_r a b k H), IH. reflexivity.
Qed.

Lemma dict_get_cons_none {V} (k k0 : pykey) (v0 : V) (d : list (pykey * V)) :
  dict_get k ((k0, v0) :: d) = None ->
  key_eqb k0 k = false /\ dict_get k d = None.
Proof. simpl. destruct (key_eqb k0 k); [discriminate | auto]. Qed.

Lemma existsb_key_dict_set {V} (k0 k : pykey) (v : V) (d : list (pykey * V)) :
  key_eqb k0 k = false ->
  existsb (key_eqb k0) (keys (dict_set k v d)) = existsb (key_eqb k0) (keys d).
Proof.
  intros H. unfold keys. induction d as [|[k1 v1] d IH]; simpl.
  - rewrite H. reflexivity.
  - destruct (key_eqb k1 k); simpl; [reflexivity | rewrite IH; reflexivity].
Qed.

(** Assigning to a key of a dict keeps its keys distinct. *)
Lemma unique_keys_dict_set {V} (k : pykey) (v : V) (d : list (pykey * V)) :
  unique_keys d = true -> unique_keys (dict_set k v d) = true.
Proof.
  induction d as [|[k0 v0] d IH]; simpl; [reflexivity |].
  intros H. apply andb_true_iff in H as [H1 H2].
  destruct (key_eqb k0 k) eqn:E; simpl.
  - rewrite H1, H2. reflexivity.
  - fold (keys (dict_set k v d)). rewrite (existsb_key_dict_set k0 k v d E).
    fold (keys d) in H1. rewrite H1. apply IH, H2.
Qed.

Lemma apply_input_fields_frame (fields : list (pykey * string)) (cur : pydict)
    (k : pykey) :
  dict_get k fields = None ->
  dict_get k (apply_input_fields fields cur) = dict_get k cur.
Proof.
  revert cur. induction fields as [|[k0 t0] fields IH]; intros cur H;
    [reflexivity |].
  apply dict_get_cons_none in H as [H1 H2].
  cbn [apply_input_fields fold_left fst snd].
  fold (apply_input_fields fields (dict_set k0 (PStr t0) cur)).
  rewrite (IH _ H2). apply dict_get_set_other, H1.
Qed.

(** After the loop every key with an input holds that input's text. *)
Lemma apply_input_fields_get (fields : list (pykey * string)) (cur : pydict)
    (k : pykey) (text : string) :
  unique_keys fields = true ->
  dict_get k fields = Some text ->
  dict_get k (apply_input_fields fields cur) = Some (PStr text).
Proof.
  revert cur. induction fields as [|[k0 t0] fields IH]; intros cur U H;
    [discriminate |].
  cbn [unique_keys] in U. apply andb_true_iff in U as [U1 U2].
  apply negb_true_iff in U1.
  cbn [apply_input_fields fold_left fst snd].
  fold (apply_input_fields fields (dict_set k0 (PStr t0) cur)).
  cbn [dict_get] in H. destruct (key_eqb k0 k) eqn:E.
  - inversion H. subst t0.
    rewrite apply_input_fields_frame.
    + apply dict_get_set_same, E.
    + rewrite <- (dict_get_congr k0 k fields E).
      apply dict_get_none_existsb, U1.
  - apply IH; assumption.
Qed.

(** Keys that the model does not hold are not in the written services
    either, unless they were there before the loop. *)
Lemma for_each_save_frame (items acc services : pydict) (k : pykey) :
  dict_get k items = None ->
  for_each items save_service acc = Ok services ->
  dict_get k services = dict_get k acc.
Proof.
  revert acc. induction items as [|[k0 v0] items IH]; intros acc Hk H.
  - inversion H. reflexivity.
  - apply dict_get_cons_none in Hk as [Hk1 Hk2].
    cbn [for_each] in H. apply bind_ok in H as (acc' & Hs & H).
    rewrite (IH acc' Hk2 H). unfold save_service in Hs.
    destruct (key_eqb k0 (KStr "justicar")).
    { bind_inv Hs. inversion Hs. apply dict_get_set_other, Hk1. }
    destruct (key_eqb k0 (KStr "chain")).
    { bind_inv Hs. inversion Hs. apply dict_get_set_other, Hk1. }
    inversion Hs. reflexivity.
Qed.

(** What the writer's loop leaves in [services] for a supported service
    that the model holds. *)
Lemma for_each_save_lookup (items acc services : pydict) (name : string)
    (v : pyval) :
  unique_keys items = true ->
  for_each items save_service acc = Ok services ->
  dict_get (KStr name) items = Some v ->
  (name = "justicar" ->
   exists s, justicar_service v = Ok s /\
             dict_get (KStr name) services = Some s) /\
  (name = "chain" ->
   exists s, chain_service v = Ok s /\
             dict_get (KStr name) services = Some s).
Proof.
  revert acc. induction items as [|[k0 v0] items IH]; intros acc U H Hg;
    [discriminate |].
  cbn [unique_keys] in U. apply andb_true_iff in U as [U1 U2].
  apply negb_true_iff in U1.
  cbn [for_each] in H. apply bind_ok in H as (acc' & Hs & H).
  cbn [dict_get] in Hg. destruct (key_eqb k0 (KStr name)) eqn:E.
  - inversion Hg. subst v0. apply key_eqb_str in E. subst k0.
    assert (Hrest : dict_get (KStr name) items = None)
      by (apply dict_get_none_existsb, U1).
    rewrite (for_each_save_frame items acc' services _ Hrest H).
    unfold save_service in Hs. split; intros ->.
    + cbn in Hs. bind_inv Hs. inversion Hs.
      eexists. split; [eassumption |]. apply dict_get_set_same. reflexivity.
    + cbn in Hs. bind_inv Hs. inversion Hs.
      eexists. split; [eassumption |]. apply dict_get_set_same. reflexivity.
  - exact (IH acc' U2 H Hg).
Qed.

(** What a synthesized [justicar] definition holds: the name as it is,
    and the port and the path, when they are [str]s, in front of the
    container's side of the mapping. *)
Lemma justicar_service_reads (service_config d : pyval) :
  justicar_service service_config = Ok d ->
  (forall n, py_subscript service_config "name" = Ok n ->
             py_subscript d "container_name" = Ok n) /\
  (forall t, py_subscript service_config "port" = Ok (PStr t) ->
             py_subscript d "ports" = Ok (PList [PStr (t ++ ":1309")])) /\
  (forall t, py_subscript service_config "configuration file" = Ok (PStr t) ->
             py_subscript d "volumes"
             = Ok (PList [PStr (t ++ ":/opt/justicar/backups")])).
Proof.
  unfold justicar_service. intros H.
  apply bind_ok in H as (n & En & H). apply bind_ok in H as (po & Ep & H).
  apply bind_ok in H as (pm & Epm & H). apply bind_ok in H as (c & Ec & H).
  apply bind_ok in H as (vo & Evo & H). injection H as <-.
  split; [| split]; intros t Ht.
  - rewrite Ht in En. injection En as <-. reflexivity.
  - rewrite Ht in Ep. injection Ep as <-. cbn in Epm. injection Epm as <-.
    reflexivity.
  - rewrite Ht in Ec. injection Ec as <-. cbn in Evo. injection Evo as <-.
    reflexivity.
Qed.

(** The same for [chain], whose network shows in the image tag and in
    the chain id of the command. *)
Lemma chain_service_reads (service_config d : pyval) :
  chain_service service_config = Ok d ->
  (forall n, py_subscript service_config "name" = Ok n ->
             py_subscript d "container_name" = Ok n) /\
  (forall t, py_subscript service_config "port" = Ok (PStr t) ->
             py_subscript d "ports"
             = Ok (PList [PStr (t ++ ":9944"); PStr "30336:30336"])) /\
  (forall t, py_subscript service_config "configuration file" = Ok (PStr t) ->
             py_subscript d "volumes" = Ok (PList [PStr (t ++ ":/opt/cess/data")])) /\
  (forall t, py_subscript service_config "network" = Ok (PStr t) ->
             py_subscript d "image" = Ok (PStr ("cesslab/cess-chain:" ++ t)) /\
             py_subscript d "command"
             = Ok (PList (chain_command (PStr ("cess-" ++ t))))).
Proof.
  unfold chain_service. intros H.
  apply bind_ok in H as (ne & Ene & H). apply bind_ok in H as (im & Eim & H).
  apply bind_ok in H as (c & Ec & H). apply bind_ok in H as (vo & Evo & H).
  apply bind_ok in H as (ne' & Ene' & H). apply bind_ok in H as (ci & Eci & H).
  apply bind_ok in H as (n & En & H). apply bind_ok in H as (po & Ep & H).
  apply bind_ok in H as (pm & Epm & H). injection H as <-.
  split; [| split; [| split]]; intros t Ht.
  - rewrite Ht in En. injection En as <-. reflexivity.
  - rewrite Ht in Ep. injection Ep as <-. cbn in Epm. injection Epm as <-.
    reflexivity.
  - rewrite Ht in Ec. injection Ec as <-. cbn in Evo. injection Evo as <-.
    reflexivity.
  - rewrite Ht in Ene, Ene'. injection Ene as <-. injection Ene' as <-.
    cbn in Eim, Eci. injection Eim as <-. injection Eci as <-.
    split; reflexivity.
Qed.

(** C4 (commit isolates failure).  When [action_save_config] ends by an
    exception of the writer, the app's config already holds the edited
    record under the committed service: every field with an input has that
    input's text, the other services are as before, and nothing was
    written.  Any later save of that config that succeeds leaves at its
    path a document whose ["services"] mapping has, under the committed
    service, the definition synthesized from the edited record, and that
    definition carries the texts that were typed: the name as
    [container_name], the port as the host side of the first port
    mapping, the path as the host side of the volume and, for [chain],
    the network as the image tag and in the chain id of the command. *)
Theorem commit_isolates_failure
    (s : ConfigScreen) (app app' : CD2N) (items : pydict) (e : exn) :
  config app = PDict items ->
  action_save_config s app = (app', Raise e) ->
  exists items' edited,
    edited = apply_input_fields (input_fields s) (current_config s) /\
    config app' = PDict items' /\
    dict_get (KStr (service_name s)) items' = Some (PDict edited) /\
    (unique_keys (input_fields s) = true ->
     forall k text,
       dict_get k (input_fields s) = Some text ->
       dict_get k edited = Some (PStr text)) /\
    (forall k, key_eqb (KStr (service_name s)) k = false ->
               dict_get k items' = dict_get k items) /\
    disk app' = disk app /\
    (unique_keys items = true ->
     forall (p : string) (w w' : world),
       save_config_to_docker_compose (config app') p w = Ok w' ->
       exists doc services,
         files w' !! p = Some (Doc doc) /\
         py_subscript doc "services" = Ok (PDict services) /\
         (service_name s = "justicar" ->
          exists d,
            justicar_service (PDict edited) = Ok d /\
            py_subscript (PDict services) "justicar" = Ok d /\
            (unique_keys (input_fields s) = true ->
             (forall t, dict_get (KStr "name") (input_fields s) = Some t ->
                        py_subscript d "container_name" = Ok (PStr t)) /\
             (forall t, dict_get (KStr "port") (input_fields s) = Some t ->
                        py_subscript d "ports"
                        = Ok (PList [PStr (t ++ ":1309")])) /\
             (forall t, dict_get (KStr "configuration file") (input_fields s)
                        = Some t ->
                        py_subscript d "volumes"
                        = Ok (PList [PStr (t ++ ":/opt/justicar/backups")])))) /\
         (service_name s = "chain" ->
          exists d,
            chain_service (PDict edited) = Ok d /\
            py_subscript (PDict services) "chain" = Ok d /\
            (unique_keys (input_fields s) = true ->
             (forall t, dict_get (KStr "name") (input_fields s) = Some t ->
                        py_subscript d "container_name" = Ok (PStr t)) /\
             (forall t, dict_get (KStr "port") (input_fields s) = Some t ->
                        py_subscript d "ports"
                        = Ok (PList [PStr (t ++ ":9944"); PStr "30336:30336"])) /\
             (forall t, dict_get (KStr "configuration file") (input_fields s)
                        = Some t ->
                        py_subscript d "volumes"
                        = Ok (PList [PStr (t ++ ":/opt/cess/data")])) /\
             (forall t, dict_get (KStr "network") (input_fields s) = Some t ->
                        py_subscript d "image"
                        = Ok (PStr ("cesslab/cess-chain:" ++ t)) /\
                        py_subscript d "command"
                        = Ok (PList (chain_command (PStr ("cess-" ++ t)))))))).
Proof.
  intros Hcfg H. unfold action_save_config in H. rewrite Hcfg in H.
  cbn [py_setitem] in H.
  set (edited := apply_input_fields (input_fields s) (current_config s)) in *.
  set (items' := dict_set (KStr (service_name s)) (PDict edited) items) in *.
  destruct (save_config_to_docker_compose (PDict items') default_path (disk app))
    as [w1|e1] eqn:Hsave; inversion H; subst app' e1; clear H.
  exists items', edited. cbn [config disk].
  split; [reflexivity |]. split; [reflexivity |].
  assert (Hget : dict_get (KStr (service_name s)) items' = Some (PDict edited))
    by (apply dict_get_set_same, key_eqb_refl).
  split; [exact Hget |].
  assert (Hedit : unique_keys (input_fields s) = true ->
                  forall k text,
                    dict_get k (input_fields s) = Some text ->
                    dict_get k edited = Some (PStr text))
    by (intros U k text Hk; apply apply_input_fields_get; assumption).
  split; [exact Hedit |].
  split; [intros k Hk; apply dict_get_set_other, Hk |].
  split; [reflexivity |].
  intros U p w w' Hlater.
  apply save_inv in Hlater as (its & services & Eits & Hfor & _ & ->).
  inversion Eits. subst its.
  assert (U' : unique_keys items' = true) by (apply unique_keys_dict_set, U).
  destruct (for_each_save_lookup items' [] services (service_name s)
              (PDict edited) U' Hfor Hget) as [Hj Hc].
  exists (docker_compose_data services), services.
  split; [cbn [files]; apply lookup_insert_eq |].
  split; [reflexivity |].
  split; intros Hn.
  - destruct (Hj Hn) as (d & Hd & Hgd). rewrite Hn in Hgd.
    exists d. split; [exact Hd |].
    split; [apply py_subscript_dict, Hgd |].
    intros Uf.
    destruct (justicar_service_reads (PDict edited) d Hd) as (Rn & Rp & Rc).
    split; [| split]; intros t Ht; [apply Rn | apply Rp | apply Rc];
      apply py_subscript_dict, (Hedit Uf), Ht.
  - destruct (Hc Hn) as (d & Hd & Hgd). rewrite Hn in Hgd.
    exists d. split; [exact Hd |].
    split; [apply py_subscript_dict, Hgd |].
    intros Uf.
    destruct (chain_service_reads (PDict edited) d Hd) as (Rn & Rp & Rc & Rnet).
    split; [| split; [| split]]; intros t Ht;
      [apply Rn | apply Rp | apply Rc | apply Rnet];
      apply py_subscript_dict, (Hedit Uf), Ht.
Qed.

(** The sample edit: the commit raises [OSError] on the file system that
    refuses the write and leaves the retyped record in the config; once
    the file system accepts the write, [run_compose] puts the edit into
    the document. *)
Lemma sample_commit_then_run :
  snd (action_save_config sample_screen sample_app) = Raise OSError /\
  config (fst (action_save_config sample_screen sample_app))
  = PDict [ (KStr "justicar",
             PDict (justicar_record "8080" "/srv/justicar" "worker"));
            (KStr "chain",
             PDict [ (KStr "name", PStr "cess-chain");
                     (KStr "port", PStr "9944");
                     (KStr "network", PStr "testnet");
                     (KStr "configuration file", PStr "/opt/cd2n/chain") ]) ] /\
  exists app'' services,
    run_compose
      {| config := config (fst (action_save_config sample_screen sample_app));
         screen_stack := screen_stack (fst (action_save_config sample_screen sample_app));
         disk := no_files |} = (app'', Ok tt) /\
    files (disk app'') !! default_path = Some (Doc (docker_compose_data services)) /\
    dict_get (KStr "justicar") services
    = Some (justicar_definition (PStr "worker") (PStr "8080:1309")
              (PStr "/srv/justicar:/opt/justicar/backups")).
Proof.
  split; [reflexivity |]. split; [reflexivity |].
  do 2 eexists. split; [vm_compute; reflexivity |].
  split; [vm_compute; reflexivity | reflexivity].
Qed.

(** ** The default template on the heap *)

Lemma alloc_fresh (h : heap) (o : obj) :
  h !! (alloc h o).2 = None.
Proof.
  unfold alloc. cbn [snd]. apply not_elem_of_dom, is_fresh.
Qed.

Lemma alloc_spec (h h1 : heap) (o : obj) (l : loc) :
  alloc h o = (h1, l) -> h !! l = None /\ h1 = <[l := o]> h.
Proof.
  intros H. pose proof (alloc_fresh h o) as Hf. rewrite H in Hf.
  unfold alloc in H. inversion H. subst l. auto.
Qed.

Lemma view_entries_mono (h h' : heap) (d : list (pykey * loc)) (vs : pydict) :
  h ⊆ h' -> view_entries h d = Some vs -> view_entries h' d = Some vs.
Proof.
  intros Hsub. revert vs. induction d as [|[k l] d IH]; intros vs H;
    [exact H |].
  cbn [view_entries] in *. unfold view_value in *.
  destruct (h !! l) as [[v|?]|] eqn:El; try discriminate.
  rewrite (lookup_weaken h h' l _ El Hsub).
  destruct (view_entries h d) as [vs'|]; [| discriminate].
  rewrite (IH vs' eq_refl). exact H.
Qed.

(** Reading a model is not disturbed by objects allocated later. *)
Lemma view_model_mono (h h' : heap) (m : loc) (v : pyval) :
  h ⊆ h' -> view_model h m = Some v -> view_model h' m = Some v.
Proof.
  intros Hsub H. unfold view_model in *.
  destruct (h !! m) as [[?|d]|] eqn:Em; try discriminate.
  rewrite (lookup_weaken h h' m _ Em Hsub).
  destruct (view_entries h d) as [vs|] eqn:Ev; [| discriminate].
  rewrite (view_entries_mono h h' d vs Hsub Ev). exact H.
Qed.

Lemma view_model_insert_fresh (h : heap) (l m : loc) (o : obj) (v : pyval) :
  h !! l = None -> view_model h m = Some v ->
  view_model (<[l := o]> h) m = Some v.
Proof.
  intros Hl. apply view_model_mono, insert_subseteq, Hl.
Qed.

(** [DEFAULT_CONFIG.copy()]: a new dict object that reads as the template
    and holds the template's own entries. *)
Lemma h_copy_spec (h : heap) (m : loc) (v : pyval) :
  view_model h m = Some v ->
  exists d m',
    h !! m = Some (Model d) /\
    h !! m' = None /\
    h_copy h m = Some (<[m' := Model d]> h, m') /\
    view_model (<[m' := Model d]> h) m' = Some v.
Proof.
  intros H. unfold h_copy. pose proof H as H0. unfold view_model in H.
  destruct (h !! m) as [[?|d]|] eqn:Em; try discriminate.
  exists d, (alloc h (Model d)).2.
  pose proof (alloc_fresh h (Model d)) as Hf.
  split; [reflexivity |]. split; [exact Hf |]. split; [reflexivity |].
  unfold view_model. rewrite lookup_insert_eq.
  destruct (view_entries h d) as [vs|] eqn:Ev; [| discriminate].
  rewrite (view_entries_mono h _ d vs (insert_subseteq h _ _ Hf) Ev).
  exact H.
Qed.

Lemma h_alloc_entries_spec (d : pydict) (h h' : heap) (e : list (pykey * loc)) :
  h_alloc_entries h d = (h', e) ->
  h ⊆ h' /\ view_entries h' e = Some d.
Proof.
  revert h h' e. induction d as [|[k v] d IH]; intros h h' e H.
  - inversion H. split; reflexivity.
  - cbn [h_alloc_entries] in H.
    destruct (alloc h (Value v)) as [h1 l] eqn:Ea.
    destruct (h_alloc_entries h1 d) as [h2 e'] eqn:Er.
    inversion H. subst h' e. clear H.
    destruct (IH h1 h2 e' Er) as [Hsub Hview].
    apply alloc_spec in Ea as [Hf ->].
    split.
    + transitivity (<[l := Value v]> h); [apply insert_subseteq, Hf | exact Hsub].
    + cbn [view_entries]. unfold view_value.
      rewrite (lookup_weaken _ h2 l (Value v) (lookup_insert_eq h _ _) Hsub).
      rewrite Hview. reflexivity.
Qed.

(** The model object built from [new_config] reads as [new_config], and
    nothing that was on the heap has changed. *)
Lemma h_new_model_spec (h h1 : heap) (d : pydict) (m : loc) :
  h_new_model h d = (h1, m) ->
  h ⊆ h1 /\ h !! m = None /\ view_model h1 m = Some (PDict d).
Proof.
  unfold h_new_model. destruct (h_alloc_entries h d) as [h' e] eqn:Ee.
  intros H. destruct (h_alloc_entries_spec d h h' e Ee) as [Hsub Hview].
  apply alloc_spec in H as [Hf ->].
  split; [| split].
  - transitivity h'; [exact Hsub | apply insert_subseteq, Hf].
  - destruct (h !! m) eqn:E; [| reflexivity].
    rewrite (lookup_weaken h h' m _ E Hsub) in Hf. discriminate.
  - unfold view_model. rewrite lookup_insert_eq.
    rewrite (view_entries_mono h' _ e d (insert_subseteq h' _ _ Hf) Hview).
    reflexivity.
Qed.

(** The loader on the heap returns an object that reads as the value the
    loader computes from the template's current value, and leaves every
    object that was there as it was. *)
Lemma h_load_view (h : heap) (w : world) (path : string) (dc : pydict) :
  view_model h DEFAULT_CONFIG_loc = Some (PDict dc) ->
  exists h1 m,
    h_load h w path = Some (h1, m) /\
    h ⊆ h1 /\ h !! m = None /\
    Ok <$> view_model h1 m = Some (load_with (PDict dc) w path).
Proof.
  intros Hv. unfold h_load, load_with.
  destruct (h_copy_spec h _ _ Hv) as (d & m' & Hm & Hf & Hc & Hvc).
  destruct (negb (path_exists w path)).
  { exists (<[m' := Model d]> h), m'. rewrite Hc, Hvc.
    split; [reflexivity |]. split; [apply insert_subseteq, Hf |].
    split; [exact Hf | reflexivity]. }
  rewrite Hv. destruct (load_try (PDict dc) w path) as [nc|e].
  - destruct (h_new_model h nc) as [h1 m] eqn:En.
    destruct (h_new_model_spec h h1 nc m En) as (Hsub & Hfm & Hvm).
    exists h1, m. rewrite Hvm. auto.
  - exists (<[m' := Model d]> h), m'. rewrite Hc, Hvc.
    split; [reflexivity |]. split; [apply insert_subseteq, Hf |].
    split; [exact Hf | reflexivity].
Qed.

(** On the initial heap the loader returns an object that reads as the
    value [load_config_from_docker_compose] computes. *)
Lemma h_load_heap0 (w : world) (path : string) :
  exists h1 m,
    h_load heap0 w path = Some (h1, m) /\
    Ok <$> view_model h1 m = Some (load_config_from_docker_compose w path).
Proof.
  destruct (h_load_view heap0 w path
              match DEFAULT_CONFIG with PDict d => d | _ => [] end)
    as (h1 & m & Hl & _ & _ & Hv); [vm_compute; reflexivity |].
  exists h1, m. split; [exact Hl | exact Hv].
Qed.

(** When the path is missing or the [try] block raises, the loader on the
    heap returns [DEFAULT_CONFIG.copy()]. *)
Lemma h_load_default (h : heap) (w : world) (path : string) (dc : pyval) :
  view_model h DEFAULT_CONFIG_loc = Some dc ->
  files w !! path = None \/ (exists e, load_try dc w path = Raise e) ->
  h_load h w path = h_copy h DEFAULT_CONFIG_loc.
Proof.
  intros Hv Hd. unfold h_load. rewrite Hv.
  destruct (negb (path_exists w path)) eqn:Ex; [reflexivity |].
  destruct Hd as [Hnone | [e He]].
  - unfold path_exists in Ex. rewrite Hnone in Ex.
    rewrite bool_decide_eq_false_2 in Ex; [discriminate |].
    intros [? ?]. discriminate.
  - rewrite He. reflexivity.
Qed.

(** C9 as stated fails: the model returned for a missing file holds the
    template's own record objects, so writing a field of a record of the
    returned model changes what [DEFAULT_CONFIG] reads as, and what the
    next default-returning load returns. *)
Lemma default_copy_shares_records :
  exists h1 m h2 h3 m',
    h_load heap0 no_files default_path = Some (h1, m) /\
    view_model h1 m = Some DEFAULT_CONFIG /\
    view_model h1 DEFAULT_CONFIG_loc = Some DEFAULT_CONFIG /\
    h_setfield h1 m (KStr "justicar") (KStr "port") (PStr "1") = Some h2 /\
    view_model h2 DEFAULT_CONFIG_loc
    = Some (PDict [ (KStr "justicar",
                     PDict [ (KStr "port", PStr "1");
                             (KStr "configuration file", PStr "/opt/cd2n/justicar");
                             (KStr "name", PStr "justicar") ]);
                    (KStr "chain",
                     PDict [ (KStr "name", PStr "cess-chain");
                             (KStr "port", PStr "9944");
                             (KStr "network", PStr "testnet");
                             (KStr "configuration file", PStr "/opt/cd2n/chain") ]) ]) /\
    view_model h2 DEFAULT_CONFIG_loc <> view_model h1 DEFAULT_CONFIG_loc /\
    h_load h2 no_files default_path = Some (h3, m') /\
    view_model h3 m' <> Some DEFAULT_CONFIG.
Proof.
  do 5 eexists.
  split; [vm_compute; reflexivity |].
  split; [vm_compute; reflexivity |].
  split; [vm_compute; reflexivity |].
  split; [vm_compute; reflexivity |].
  split; [vm_compute; reflexivity |].
  split; [vm_compute; discriminate |].
  split; [vm_compute; reflexivity |].
  vm_compute. discriminate.
Qed.

(** C9, amended.  When the loader falls back to the default, it returns a
    new dict object that reads as the template and holds the template's
    own entries; binding a key of the returned dict to another record, as
    a commit does, leaves what the template reads as unchanged, and so
    every later default-returning load returns the same value. *)
Theorem default_copy_is_shallow
    (h : heap) (w : world) (path : string) (dc : pyval) :
  view_model h DEFAULT_CONFIG_loc = Some dc ->
  files w !! path = None \/ (exists e, load_try dc w path = Raise e) ->
  exists h1 m d,
    h_load h w path = Some (h1, m) /\
    h !! m = None /\ m <> DEFAULT_CONFIG_loc /\
    h !! DEFAULT_CONFIG_loc = Some (Model d) /\
    h1 !! m = Some (Model d) /\
    view_model h1 m = Some dc /\
    view_model h1 DEFAULT_CONFIG_loc = Some dc /\
    forall k r h2,
      h_setitem h1 m k r = Some h2 ->
      h2 !! m = Some (Model (dict_set k r d)) /\
      view_model h2 DEFAULT_CONFIG_loc = Some dc /\
      forall w2 path2,
        files w2 !! path2 = None \/ (exists e, load_try dc w2 path2 = Raise e) ->
        exists h3 m2,
          h_load h2 w2 path2 = Some (h3, m2) /\
          view_model h3 m2 = Some dc.
Proof.
  intros Hv Hd. rewrite (h_load_default h w path dc Hv Hd).
  destruct (h_copy_spec h _ _ Hv) as (d & m & Hm & Hf & Hc & Hvc).
  exists (<[m := Model d]> h), m, d.
  split; [exact Hc |]. split; [exact Hf |].
  split; [intros ->; rewrite Hm in Hf; discriminate |].
  split; [exact Hm |]. split; [apply lookup_insert_eq |].
  split; [exact Hvc |].
  split; [apply view_model_insert_fresh; assumption |].
  intros k r h2 Hset. unfold h_setitem in Hset.
  rewrite lookup_insert_eq in Hset. inversion Hset. subst h2. clear Hset.
  rewrite insert_insert_eq.
  split; [apply lookup_insert_eq |].
  assert (Hv2 : view_model (<[m := Model (dict_set k r d)]> h) DEFAULT_CONFIG_loc
                = Some dc) by (apply view_model_insert_fresh; assumption).
  split; [exact Hv2 |].
  intros w2 path2 Hd2. rewrite (h_load_default _ w2 path2 dc Hv2 Hd2).
  destruct (h_copy_spec _ _ _ Hv2) as (d2 & m2 & _ & _ & Hc2 & Hvc2).
  eauto.
Qed.

(** ** The properties at sample inputs *)

Ltac dict_holds_tac :=
  split;
  [ reflexivity
  | let k := fresh "k" in
    let v := fresh "v" in
    let Hin := fresh "Hin" in
    intros k v Hin; cbn [In] in Hin;
    repeat (destruct Hin as [Hin | Hin];
            [inversion Hin; reflexivity |]);
    destruct Hin ].

Lemma default_config_holds :
  dict_holds
    [ (KStr "justicar",
       PDict [ (KStr "port", PStr "1309");
               (KStr "configuration file", PStr "/opt/cd2n/justicar");
               (KStr "name", PStr "justicar") ]);
      (KStr "chain",
       PDict [ (KStr "name", PStr "cess-chain");
               (KStr "port", PStr "9944");
               (KStr "network", PStr "testnet");
               (KStr "configuration file", PStr "/opt/cd2n/chain") ]) ]
    [ (KStr "justicar",
       PDict [ (KStr "port", PStr "1309");
               (KStr "configuration file", PStr "/opt/cd2n/justicar");
               (KStr "name", PStr "justicar") ]);
      (KStr "chain",
       PDict [ (KStr "name", PStr "cess-chain");
               (KStr "port", PStr "9944");
               (KStr "network", PStr "testnet");
               (KStr "configuration file", PStr "/opt/cd2n/chain") ]) ] /\
  dict_holds
    [ (KStr "port", PStr "1309");
      (KStr "configuration file", PStr "/opt/cd2n/justicar");
      (KStr "name", PStr "justicar") ]
    (justicar_record "1309" "/opt/cd2n/justicar" "justicar") /\
  dict_holds
    [ (KStr "name", PStr "cess-chain");
      (KStr "port", PStr "9944");
      (KStr "network", PStr "testnet");
      (KStr "configuration file", PStr "/opt/cd2n/chain") ]
    (chain_record "9944" "/opt/cd2n/chain" "cess-chain" "testnet").
Proof. split; [| split]; dict_holds_tac. Defined.

Lemma default_path_writable : default_path ∉ write_denied no_files.
Proof. apply not_elem_of_empty. Defined.


(** The sample edit, committed over a file system that refuses the write:
    the config holds the retyped record although the save raised, and a
    save of that config over a file system that takes the write leaves a
    document with the three retyped texts in its [justicar] service. *)
Lemma commit_isolates_failure_witness :
  config sample_app = DEFAULT_CONFIG /\
  action_save_config sample_screen sample_app
  = (fst (action_save_config sample_screen sample_app), Raise OSError) /\
  exists items',
    config (fst (action_save_config sample_screen sample_app)) = PDict items' /\
    dict_get (KStr "justicar") items'
    = Some (PDict (justicar_record "8080" "/srv/justicar" "worker")) /\
    disk (fst (action_save_config sample_screen sample_app)) = disk sample_app /\
    exists w' doc services d,
      save_config_to_docker_compose
        (config (fst (action_save_config sample_screen sample_app)))
        default_path no_files = Ok w' /\
      files w' !! default_path = Some (Doc doc) /\
      py_subscript doc "services" = Ok (PDict services) /\
      py_subscript (PDict services) "justicar" = Ok d /\
      py_subscript d "container_name" = Ok (PStr "worker") /\
      py_subscript d "ports" = Ok (PList [PStr "8080:1309"]) /\
      py_subscript d "volumes"
      = Ok (PList [PStr "/srv/justicar:/opt/justicar/backups"]).
Proof.
  split; [reflexivity |]. split; [reflexivity |].
  destruct (commit_isolates_failure sample_screen sample_app
              (fst (action_save_config sample_screen sample_app)) _ OSError
              eq_refl eq_refl)
    as (items' & edited & He & Hc & Hg & _ & _ & Hd & Hlater).
  exists items'. split; [exact Hc |]. subst edited.
  split; [exact Hg |]. split; [exact Hd |].
  destruct (save_config_to_docker_compose
              (config (fst (action_save_config sample_screen sample_app)))
              default_path no_files) as [w'|e] eqn:Hs;
    [| vm_compute in Hs; discriminate Hs].
  destruct (Hlater eq_refl default_path no_files w' Hs)
    as (doc & services & Hf & Hsv & Hj & _).
  destruct (Hj eq_refl) as (d & _ & Hgd & Hfields).
  destruct (Hfields eq_refl) as (Hn & Hp & Hv).
  exists w', doc, services, d.
  split; [reflexivity |]. split; [exact Hf |]. split; [exact Hsv |].
  split; [exact Hgd |].
  split; [exact (Hn "worker" eq_refl) |].
  split; [exact (Hp "8080" eq_refl) | exact (Hv "/srv/justicar" eq_refl)].
Defined.

(** An unknown [redis] service between the two known ones changes nothing
    in what the loader returns. *)
Lemma load_key_set_and_order_witness :
  KStr "redis" <> KStr "justicar" /\ KStr "redis" <> KStr "chain" /\
  load_config_from_docker_compose (one_file (Doc extra_service_doc)) default_path
  = load_config_from_docker_compose (one_file (Doc name_only_doc)) default_path /\
  exists d,
    load_config_from_docker_compose (one_file (Doc extra_service_doc)) default_path
    = Ok (PDict d) /\
    keys d = [ KStr "justicar"; KStr "chain" ].
Proof.
  assert (Hj : KStr "redis" <> KStr "justicar") by discriminate.
  assert (Hc : KStr "redis" <> KStr "chain") by discriminate.
  split; [exact Hj |]. split; [exact Hc |].
  split.
  - exact (proj2 load_key_set_and_order
             (one_file (Doc name_only_doc)) (one_file (Doc extra_service_doc))
             default_path default_path _ _
             [ (KStr "justicar", PDict [ (KStr "container_name", PStr "worker") ]) ]
             [ (KStr "chain", sample_chain_entry) ]
             (KStr "redis") (PDict [ (KStr "image", PStr "redis:7") ])
             eq_refl eq_refl eq_refl eq_refl Hj Hc).
  - exact (proj1 load_key_set_and_order
             (one_file (Doc extra_service_doc)) default_path).
Defined.

(** The default [chain] record has network ["testnet"]. *)
Lemma verbatim_argument_contract_witness :
  py_subscript
    (PDict [ (KStr "name", PStr "cess-chain");
             (KStr "port", PStr "9944");
             (KStr "network", PStr "testnet");
             (KStr "configuration file", PStr "/opt/cd2n/chain") ])
    "network" = Ok (PStr "testnet") /\
  exists s cmd,
    chain_service
      (PDict [ (KStr "name", PStr "cess-chain");
               (KStr "port", PStr "9944");
               (KStr "network", PStr "testnet");
               (KStr "configuration file", PStr "/opt/cd2n/chain") ]) = Ok s /\
    py_subscript s "command" = Ok (PList cmd) /\
    followed_by (PStr "--chain") (PStr "cess-testnet") cmd /\
    count_pair (PStr "--base-path") (PStr "/opt/cess/data") cmd = 1.
Proof.
  split; [reflexivity |].
  eexists.
  destruct (proj1 verbatim_argument_contract
              (PDict [ (KStr "name", PStr "cess-chain");
                       (KStr "port", PStr "9944");
                       (KStr "network", PStr "testnet");
                       (KStr "configuration file", PStr "/opt/cd2n/chain") ])
              _ eq_refl eq_refl) as (cmd & H).
  exists cmd. split; [reflexivity | exact H].
Defined.

(** The file with an untagged [chain] image loads as the default. *)
Lemma loader_total_recovery_witness :
  load_try DEFAULT_CONFIG (one_file (Doc untagged_image_doc)) default_path
  = Raise IndexError /\
  colon_free "cesslab/cess-chain" = true /\
  load_config_from_docker_compose (one_file (Doc untagged_image_doc)) default_path
  = Ok DEFAULT_CONFIG.
Proof.
  split; [reflexivity |]. split; [reflexivity |].
  exact (proj2 (proj2 (proj2 (proj2
           (loader_total_recovery (one_file (Doc untagged_image_doc)) default_path))))
           _ _ _ "cesslab/cess-chain" eq_refl eq_refl eq_refl eq_refl eq_refl).
Defined.

(** The default model with a [redis] entry between its two services. *)
Lemma unsupported_key_skip_witness :
  exists w' doc services,
    save_config_to_docker_compose
      (PDict
         [ (KStr "justicar",
            PDict [ (KStr "port", PStr "1309");
                    (KStr "configuration file", PStr "/opt/cd2n/justicar");
                    (KStr "name", PStr "justicar") ]);
           (KStr "redis", PDict [ (KStr "port", PStr "6379") ]);
           (KStr "chain",
            PDict [ (KStr "name", PStr "cess-chain");
                    (KStr "port", PStr "9944");
                    (KStr "network", PStr "testnet");
                    (KStr "configuration file", PStr "/opt/cd2n/chain") ]) ])
      default_path no_files = Ok w' /\
    files w' !! default_path = Some (Doc (PDict doc)) /\
    py_subscript (PDict doc) "services" = Ok (PDict services) /\
    keys services = [ KStr "justicar"; KStr "chain" ] /\
    dict_get (KStr "redis") services = None.
Proof.
  destruct default_config_holds as (H0 & H1 & H2).
  destruct (proj1 (proj2 unsupported_key_skip) no_files default_path
              [ (KStr "justicar",
                 PDict [ (KStr "port", PStr "1309");
                         (KStr "configuration file", PStr "/opt/cd2n/justicar");
                         (KStr "name", PStr "justicar") ]) ]
              [ (KStr "chain",
                 PDict [ (KStr "name", PStr "cess-chain");
                         (KStr "port", PStr "9944");
                         (KStr "network", PStr "testnet");
                         (KStr "configuration file", PStr "/opt/cd2n/chain") ]) ]
              _ _ (KStr "redis") (PDict [ (KStr "port", PStr "6379") ])
              "1309" "/opt/cd2n/justicar" "justicar"
              "9944" "/opt/cd2n/chain" "cess-chain" "testnet"
              H0 H1 H2 ltac:(discriminate) ltac:(discriminate)
              default_path_writable)
    as (w' & doc & services & Hs & _ & Hf & _ & Hsv & _ & Hk & _ & _ & Hn & _).
  exists w', doc, services. auto.
Defined.

(** The first load of a session, with no file at the default path. *)
Lemma default_copy_is_shallow_witness :
  view_model heap0 DEFAULT_CONFIG_loc = Some DEFAULT_CONFIG /\
  files no_files !! default_path = None /\
  exists h1 m d,
    h_load heap0 no_files default_path = Some (h1, m) /\
    m <> DEFAULT_CONFIG_loc /\
    heap0 !! DEFAULT_CONFIG_loc = Some (Model d) /\
    h1 !! m = Some (Model d) /\
    view_model h1 m = Some DEFAULT_CONFIG /\
    forall k r h2,
      h_setitem h1 m k r = Some h2 ->
      view_model h2 DEFAULT_CONFIG_loc = Some DEFAULT_CONFIG.
Proof.
  assert (H0 : view_model heap0 DEFAULT_CONFIG_loc = Some DEFAULT_CONFIG)
    by (vm_compute; reflexivity).
  assert (H1 : files no_files !! default_path = None) by reflexivity.
  split; [exact H0 |]. split; [exact H1 |].
  destruct (default_copy_is_shallow heap0 no_files default_path DEFAULT_CONFIG
              H0 (or_introl H1))
    as (h1 & m & d & Hl & _ & Hne & Hd & Hm & Hv & _ & Hset).
  exists h1, m, d. repeat (split; [assumption |]).
  intros k r h2 H. exact (proj1 (proj2 (Hset k r h2 H))).
Defined.

(** A [justicar] entry that only names its container: first characters
    when the [chain] entry beside it loads, the defaults in full when the
    image of [chain] has no tag. *)
Lemma absent_key_yields_first_character_witness :
  load_try DEFAULT_CONFIG (one_file (Doc name_only_doc)) default_path
  = Ok [ (KStr "justicar",
          PDict [ (KStr "port", PStr "1");
                  (KStr "configuration file", PStr "/");
                  (KStr "name", PStr "worker") ]);
         (KStr "chain",
          PDict (chain_record "9944" "/opt/cd2n/chain" "cess-chain" "testnet")) ] /\
  model_field
    [ (KStr "justicar",
       PDict [ (KStr "port", PStr "1");
               (KStr "configuration file", PStr "/");
               (KStr "name", PStr "worker") ]);
      (KStr "chain",
       PDict (chain_record "9944" "/opt/cd2n/chain" "cess-chain" "testnet")) ]
    "justicar" "port" = Some (PStr "1") /\
  load_try DEFAULT_CONFIG (one_file (Doc absent_keys_untagged_doc)) default_path
  = Raise IndexError /\
  exists d dport dcfg,
    load_config_from_docker_compose (one_file (Doc absent_keys_untagged_doc))
      default_path = Ok (PDict d) /\
    PDict d = DEFAULT_CONFIG /\
    default_field DEFAULT_CONFIG "justicar" "port" = Ok dport /\
    default_field DEFAULT_CONFIG "justicar" "configuration file" = Ok dcfg /\
    model_field d "justicar" "port" = Some dport /\
    model_field d "justicar" "configuration file" = Some dcfg.
Proof.
  split; [reflexivity |].
  split.
  { exact (proj1 (proj1 (proj2
             (proj1 (absent_key_yields_first_character
                       (one_file (Doc name_only_doc)) default_path _ _
                       [ (KStr "container_name", PStr "worker") ] "justicar"
                       eq_refl eq_refl eq_refl (or_introl eq_refl))
                _ eq_refl)) eq_refl)). }
  split; [reflexivity |].
  exact (proj2 (absent_key_yields_first_character
                  (one_file (Doc absent_keys_untagged_doc)) default_path _ _
                  [ (KStr "container_name", PStr "worker") ] "justicar"
                  eq_refl eq_refl eq_refl (or_introl eq_refl))
           IndexError eq_refl).
Defined.

(** * Further properties *)

(** ** What the loader extracts *)

Lemma split_before_colon (s : string) :
  exists rest, split ":" s = before_colon s :: rest.
Proof.
  unfold before_colon. destruct (split_cons ":" s) as (p & ps & ->).
  eexists. reflexivity.
Qed.


Lemma before_colon_free (s : string) :
  colon_free s = true -> before_colon s = s.
Proof. intros H. unfold before_colon. rewrite (split_colon_free s H). reflexivity. Qed.



Lemma first_host_side_list (s : string) (rest : list pyval) :
  first_host_side (PList (PStr s :: rest)) = Ok (PStr (before_colon s)).
Proof.
  unfold first_host_side. cbn [py_len length Nat.ltb Nat.leb bind py_index nth_error py_split].
  destruct (split_before_colon s) as (r & ->). reflexivity.
Qed.

Lemma first_host_side_str (c : ascii) (s : string) :
  first_host_side (PStr (String c s))
  = Ok (PStr (if Ascii.eqb c ":" then "" else String c "")).
Proof.
  unfold first_host_side.
  cbn [py_len String.length Nat.ltb Nat.leb bind py_index String.get py_split split].
  destruct (Ascii.eqb c ":"); reflexivity.
Qed.

(** What [x[0].split(':')[0]] leaves behind when it does not raise: a
    [str], or the empty value that was there. *)
Lemma first_host_side_value (x y : pyval) :
  first_host_side x = Ok y ->
  is_str y = true \/ (y = x /\ (x = PList [] \/ x = PDict [])).
Proof.
  unfold first_host_side. intros H. apply bind_ok in H as (n & Hn & H).
  destruct n as [|n]; cbn [Nat.ltb Nat.leb] in H.
  - inversion H. subst y.
    destruct x as [| | |s|l|d]; try discriminate; cbn in Hn; inversion Hn.
    + destruct s; [left; reflexivity | discriminate].
    + destruct l; [right; auto | discriminate].
    + destruct d; [right; auto | discriminate].
  - bind_inv H. left.
    destruct x0; try discriminate. cbn in E0. inversion E0. subst x1.
    cbn in H. destruct (split_cons ":" s) as (p & ps & F). rewrite F in H.
    cbn in H. inversion H. reflexivity.
Qed.

Lemma first_host_side_malformed (x : pyval) :
  malformed_sequence x = true <-> exists e, first_host_side x = Raise e.
Proof.
  unfold first_host_side. destruct x as [| | |s|l|d]; cbn [py_len bind malformed_sequence].
  - split; eauto.
  - split; eauto.
  - split; eauto.
  - split; [discriminate |]. intros [e H].
    destruct s as [|c s]; [discriminate |].
    pose proof (first_host_side_str c s) as F. unfold first_host_side in F.
    cbn [py_len bind] in F. rewrite F in H. discriminate.
  - destruct l as [|x l]; [split; [discriminate | intros [e H]; discriminate] |].
    cbn [length Nat.ltb Nat.leb py_index nth_error bind].
    destruct x as [| | |s| |]; cbn [is_str negb py_split bind];
      try (split; eauto; fail).
    split; [discriminate |]. intros [e H].
    destruct (split_cons ":" s) as (p & ps & F). rewrite F in H. discriminate.
  - destruct d as [|[k v] d]; [split; [discriminate | intros [e H]; discriminate] |].
    cbn [length Nat.ltb Nat.leb py_index bind]. change (Z.of_nat 0) with 0%Z.
    destruct (dict_get (KInt 0) ((k, v) :: d)) as [x|]; cbn [bind];
      [| split; eauto].
    destruct x as [| | |s| |]; cbn [is_str negb py_split bind];
      try (split; eauto; fail).
    split; [discriminate |]. intros [e H].
    destruct (split_cons ":" s) as (p & ps & F). rewrite F in H. discriminate.
Qed.

(** The turn of the loop for [chain], with what it computed for the name
    and the network. *)
Lemma load_service_chain_inv (dc data : pyval) (nc nc' : pydict) :
  load_service dc data "chain" nc = Ok nc' ->
  exists services sd ports0 ports cfg0 cfg dname nm net,
    py_get data "services" (PDict []) = Ok services /\
    py_get services "chain" (PDict []) = Ok sd /\
    first_host_side ports0 = Ok ports /\
    first_host_side cfg0 = Ok cfg /\
    default_field dc "chain" "name" = Ok dname /\
    py_get sd "container_name" dname = Ok nm /\
    ((py_get sd "image" PNone = Ok PNone /\
      default_field dc "chain" "network" = Ok net) \/
     (exists s t,
        py_get sd "image" PNone = Ok (PStr s) /\
        nth_error (split ":" s) 1 = Some t /\
        net = PStr t)) /\
    nc' = dict_set (KStr "chain")
            (PDict [ (KStr "port", ports);
                     (KStr "configuration file", cfg);
                     (KStr "name", nm);
                     (KStr "network", net) ]) nc.
Proof.
  unfold load_service. intros H. bind_inv H.
  cbn [key_eqb String.eqb Ascii.eqb Bool.eqb] in H. bind_inv H.
  inversion H. subst nc'. clear H.
  exists x, x0, x2, x3, x5, x6, x9, x10, x8.
  repeat (split; [assumption |]). split; [| reflexivity].
  destruct x7 as [| | |s| |];
    [ left; split; [exact E7 | exact E8] | | | | | ];
    right; rewrite E7 in E8; cbn [bind py_split py_index] in E8;
    try discriminate E8.
  rewrite nth_error_map in E8.
  destruct (nth_error (split ":" s) 1) as [t|] eqn:N; [| discriminate E8].
  inversion E8. exists s, t. auto.
Qed.

(** The name and network of a loaded model, in terms of the entries the
    document has for the services. *)
Lemma loaded_names (doc svcs : pydict) (nc : pydict) :
  load_body DEFAULT_CONFIG (PDict doc) = Ok nc ->
  dict_get (KStr "services") doc = Some (PDict svcs) ->
  (forall sd, dict_get (KStr "justicar") svcs = Some (PDict sd) ->
              model_field nc "justicar" "name"
              = Some (get_or sd "container_name" (PStr "justicar"))) /\
  (forall sd, dict_get (KStr "chain") svcs = Some (PDict sd) ->
              model_field nc "chain" "name"
              = Some (get_or sd "container_name" (PStr "cess-chain")) /\
              ((get_or sd "image" PNone = PNone /\
                model_field nc "chain" "network" = Some (PStr "testnet")) \/
               (exists s t,
                  get_or sd "image" PNone = PStr s /\
                  nth_error (split ":" s) 1 = Some t /\
                  model_field nc "chain" "network" = Some (PStr t)))).
Proof.
  intros H Hdoc.
  apply load_body_default_inv in H as (s1 & H1 & H2).
  assert (Hsv : py_get (PDict doc) "services" (PDict []) = Ok (PDict svcs))
    by (rewrite py_get_dict; unfold get_or; rewrite Hdoc; reflexivity).
  split.
  - intros sd Hsd.
    apply load_service_chain_inv in H2
      as (? & ? & ? & ? & ? & ? & ? & ? & ? & _ & _ & _ & _ & _ & _ & _ & ->).
    unfold load_service in H1. rewrite Hsv in H1. cbn [bind] in H1.
    rewrite py_get_dict in H1. unfold get_or at 1 in H1. rewrite Hsd in H1.
    cbn [bind] in H1. bind_inv H1.
    cbn [key_eqb String.eqb Ascii.eqb Bool.eqb] in H1.
    bind_inv H1. inversion H1. subst s1. clear H1.
    match goal with
    | D : default_field _ _ (KStr "name") = Ok ?d,
      N : py_get (PDict sd) (KStr "container_name") ?d = Ok ?n |- _ =>
        vm_compute in D; inversion D; subst d;
        rewrite py_get_dict in N; inversion N; subst n
    end.
    reflexivity.
  - intros sd Hsd.
    apply load_service_chain_inv in H2
      as (sv & sd' & ports0 & ports & cfg0 & cfg & dname & nm & net &
          A1 & A2 & _ & _ & A3 & A4 & A5 & ->).
    rewrite Hsv in A1. inversion A1. subst sv.
    rewrite py_get_dict in A2. unfold get_or in A2. rewrite Hsd in A2.
    inversion A2. subst sd'.
    vm_compute in A3. inversion A3. subst dname.
    rewrite py_get_dict in A4. inversion A4. subst nm.
    unfold model_field. rewrite dict_get_set_same by reflexivity.
    split; [reflexivity |].
    destruct A5 as [(I & D) | (s & t & I & N & ->)];
      rewrite py_get_dict in I; injection I as I.
    + left. vm_compute in D. injection D as <-. split; [exact I | reflexivity].
    + right. exists s, t. split; [exact I |]. split; [exact N | reflexivity].
Qed.

(** X1.  When the loader completes on a document whose entry for a known
    service has a [ports] (or [volumes]) list starting with a [str], the
    port (or path) it returns is that entry up to its first colon: the
    whole entry when it has none, and whatever follows in the list is not
    looked at. *)
Theorem loaded_host_side
    (w : world) (path : string) (doc svcs sd : pydict) (name : string)
    (nc : pydict) :
  files w !! path = Some (Doc (PDict doc)) ->
  dict_get (KStr "services") doc = Some (PDict svcs) ->
  dict_get (KStr name) svcs = Some (PDict sd) ->
  name = "justicar" \/ name = "chain" ->
  load_try DEFAULT_CONFIG w path = Ok nc ->
  (forall s rest,
      dict_get (KStr "ports") sd = Some (PList (PStr s :: rest)) ->
      model_field nc name "port" = Some (PStr (before_colon s)) /\
      (colon_free s = true -> model_field nc name "port" = Some (PStr s))) /\
  (forall s rest,
      dict_get (KStr "volumes") sd = Some (PList (PStr s :: rest)) ->
      model_field nc name "configuration file" = Some (PStr (before_colon s)) /\
      (colon_free s = true ->
       model_field nc name "configuration file" = Some (PStr s))).
Proof.
  intros Hf Hdoc Hsd Hname Hload. rewrite (load_document _ _ _ Hf) in Hload.
  destruct (loaded_fields doc svcs sd name nc Hload Hdoc Hsd Hname)
    as (dport & dcfg & ports & cfg & _ & _ & Hp & Hc & Mp & Mc).
  unfold get_or in Hp, Hc. split; intros s rest E.
  - rewrite E, first_host_side_list in Hp. injection Hp as <-.
    split; [exact Mp |]. intros F. rewrite Mp, (before_colon_free s F). reflexivity.
  - rewrite E, first_host_side_list in Hc. injection Hc as <-.
    split; [exact Mc |]. intros F. rewrite Mc, (before_colon_free s F). reflexivity.
Qed.

(** X2.  When [ports] (or [volumes]) is a single non-empty [str] instead
    of a list, the loader indexes the [str].  When the [try] block
    completes, the port (or path) it returns is the first character, or
    the empty [str] when that character is a colon; when the block raises
    elsewhere in the document, the loader returns the default model and
    nothing of the [str] is kept. *)
Theorem loaded_scalar_is_cut
    (w : world) (path : string) (doc svcs sd : pydict) (name : string) :
  files w !! path = Some (Doc (PDict doc)) ->
  dict_get (KStr "services") doc = Some (PDict svcs) ->
  dict_get (KStr name) svcs = Some (PDict sd) ->
  name = "justicar" \/ name = "chain" ->
  (forall nc,
      load_try DEFAULT_CONFIG w path = Ok nc ->
      load_config_from_docker_compose w path = Ok (PDict nc) /\
      (forall c s,
          dict_get (KStr "ports") sd = Some (PStr (String c s)) ->
          model_field nc name "port"
          = Some (PStr (if Ascii.eqb c ":" then "" else String c ""))) /\
      (forall c s,
          dict_get (KStr "volumes") sd = Some (PStr (String c s)) ->
          model_field nc name "configuration file"
          = Some (PStr (if Ascii.eqb c ":" then "" else String c "")))) /\
  (forall e,
      load_try DEFAULT_CONFIG w path = Raise e ->
      load_config_from_docker_compose w path = Ok DEFAULT_CONFIG).
Proof.
  intros Hf Hdoc Hsd Hname. split; [| intros e; apply load_raised].
  intros nc Hload. split.
  { rewrite (load_existing _ _ _ Hf), Hload. reflexivity. }
  rewrite (load_document _ _ _ Hf) in Hload.
  destruct (loaded_fields doc svcs sd name nc Hload Hdoc Hsd Hname)
    as (dport & dcfg & ports & cfg & _ & _ & Hp & Hc & Mp & Mc).
  unfold get_or in Hp, Hc. split; intros c s E.
  - rewrite E, first_host_side_str in Hp. injection Hp as <-. exact Mp.
  - rewrite E, first_host_side_str in Hc. injection Hc as <-. exact Mc.
Qed.

(** X3.  One malformed [ports] or [volumes] value in the entry of either
    known service (null, a boolean, an integer, a list whose first entry
    is not a [str], a non-empty mapping without a [str] under [0]) makes
    the loader return the whole default model: the valid fields of the
    document are discarded with it. *)
Theorem malformed_sequence_discards_document
    (w : world) (path : string) (doc svcs sd : pydict) (name : string)
    (v : pyval) :
  files w !! path = Some (Doc (PDict doc)) ->
  dict_get (KStr "services") doc = Some (PDict svcs) ->
  dict_get (KStr name) svcs = Some (PDict sd) ->
  name = "justicar" \/ name = "chain" ->
  dict_get (KStr "ports") sd = Some v \/ dict_get (KStr "volumes") sd = Some v ->
  malformed_sequence v = true ->
  load_config_from_docker_compose w path = Ok DEFAULT_CONFIG.
Proof.
  intros Hf Hdoc Hsd Hname Hv Hbad.
  apply first_host_side_malformed in Hbad as [e He].
  destruct (load_try DEFAULT_CONFIG w path) as [nc|x] eqn:Hload;
    [| exact (load_raised w path x Hload)].
  rewrite (load_document _ _ _ Hf) in Hload.
  destruct (loaded_fields doc svcs sd name nc Hload Hdoc Hsd Hname)
    as (dport & dcfg & ports & cfg & _ & _ & Hp & Hc & _ & _).
  unfold get_or in Hp, Hc.
  destruct Hv as [E | E]; [rewrite E, He in Hp | rewrite E, He in Hc];
    discriminate.
Qed.

Lemma nth_error_split_second (a b : string) :
  colon_free a = true ->
  nth_error (split ":" (a ++ String ":" b)) 1 = Some (before_colon b).
Proof.
  intros H. rewrite (split_host_side a b H). cbn [nth_error].
  destruct (split_before_colon b) as (r & ->). reflexivity.
Qed.

(** X4.  When the loader completes, the network of [chain] is ["testnet"]
    if its entry has no [image] or a null one; for an image
    [a:b] with [a] colon-free it is [b] up to its next colon, so a
    registry with a port in front of the image name is taken for the
    tag. *)
Theorem loaded_network
    (w : world) (path : string) (doc svcs sd : pydict) (nc : pydict) :
  files w !! path = Some (Doc (PDict doc)) ->
  dict_get (KStr "services") doc = Some (PDict svcs) ->
  dict_get (KStr "chain") svcs = Some (PDict sd) ->
  load_try DEFAULT_CONFIG w path = Ok nc ->
  (dict_get (KStr "image") sd = None \/ dict_get (KStr "image") sd = Some PNone ->
   model_field nc "chain" "network" = Some (PStr "testnet")) /\
  (forall a b,
      dict_get (KStr "image") sd = Some (PStr (a ++ String ":" b)) ->
      colon_free a = true ->
      model_field nc "chain" "network" = Some (PStr (before_colon b))).
Proof.
  intros Hf Hdoc Hsd Hload. rewrite (load_document _ _ _ Hf) in Hload.
  destruct (loaded_names doc svcs nc Hload Hdoc) as [_ Hc].
  destruct (Hc sd Hsd) as [_ Hnet]. unfold get_or in Hnet.
  split.
  - intros Himg.
    destruct Hnet as [(_ & N) | (s & t & I & _ & _)]; [exact N |].
    destruct Himg as [E | E]; rewrite E in I; discriminate.
  - intros a b E Ha. rewrite E in Hnet.
    destruct Hnet as [(I & _) | (s & t & I & N & M)]; [discriminate |].
    injection I as <-. rewrite (nth_error_split_second a b Ha) in N.
    injection N as <-. exact M.
Qed.

(** X5.  When the loader completes, the name it returns for a service is
    the [container_name] of its entry exactly as the document has it,
    colons and all and of whatever type, and the default name of the
    service when the entry has none. *)
Theorem loaded_name_verbatim
    (w : world) (path : string) (doc svcs : pydict) (nc : pydict) :
  files w !! path = Some (Doc (PDict doc)) ->
  dict_get (KStr "services") doc = Some (PDict svcs) ->
  load_try DEFAULT_CONFIG w path = Ok nc ->
  (forall sd,
      dict_get (KStr "justicar") svcs = Some (PDict sd) ->
      (forall v, dict_get (KStr "container_name") sd = Some v ->
                 model_field nc "justicar" "name" = Some v) /\
      (dict_get (KStr "container_name") sd = None ->
       model_field nc "justicar" "name" = Some (PStr "justicar"))) /\
  (forall sd,
      dict_get (KStr "chain") svcs = Some (PDict sd) ->
      (forall v, dict_get (KStr "container_name") sd = Some v ->
                 model_field nc "chain" "name" = Some v) /\
      (dict_get (KStr "container_name") sd = None ->
       model_field nc "chain" "name" = Some (PStr "cess-chain"))).
Proof.
  intros Hf Hdoc Hload. rewrite (load_document _ _ _ Hf) in Hload.
  destruct (loaded_names doc svcs nc Hload Hdoc) as [Hj Hc].
  split; intros sd Hsd.
  - rewrite (Hj sd Hsd). unfold get_or.
    split; [intros v E | intros E]; rewrite E; reflexivity.
  - destruct (Hc sd Hsd) as [-> _]. unfold get_or.
    split; [intros v E | intros E]; rewrite E; reflexivity.
Qed.

(** ** Loading what was saved, and saving what was loaded *)








Lemma first_host_side_str_or_empty (x y : pyval) :
  first_host_side x = Ok y -> str_or_empty y.
Proof.
  intros H. apply first_host_side_value in H as [H | (-> & [-> | ->])];
    unfold str_or_empty; [left; exact H | right; reflexivity ..].
Qed.

(** The model the loop of the loader completes, field by field. *)
Lemma load_try_shape (w : world) (path : string) (nc : pydict) :
  load_try DEFAULT_CONFIG w path = Ok nc ->
  exists jp jc jn cp cc cn net,
    nc = [ (KStr "justicar",
            PDict [ (KStr "port", jp); (KStr "configuration file", jc);
                    (KStr "name", jn) ]);
           (KStr "chain",
            PDict [ (KStr "port", cp); (KStr "configuration file", cc);
                    (KStr "name", cn); (KStr "network", PStr net) ]) ] /\
    str_or_empty jp /\ str_or_empty jc /\ str_or_empty cp /\ str_or_empty cc.
Proof.
  unfold load_try. intros H. apply bind_ok in H as (data & _ & H).
  apply load_body_default_inv in H as (s1 & H1 & H2).
  apply load_service_inv in H1
    as (? & ? & ? & ? & jp & ? & ? & jc & _ & _ & _ & _ & Pj & _ & _ & Cj & H1).
  destruct H1 as [(_ & jn & ->) | [(Hn & _) | (Hn & _)]];
    [| discriminate Hn | contradiction Hn; reflexivity].
  apply load_service_chain_inv in H2
    as (? & ? & ? & cp & ? & cc & ? & cn & net & _ & _ & Pc & Cc & _ & _ & N & ->).
  apply first_host_side_str_or_empty in Pj, Cj, Pc, Cc.
  destruct N as [(_ & D) | (s & t & _ & _ & ->)].
  - vm_compute in D. injection D as <-.
    exists jp, jc, jn, cp, cc, cn, "testnet". auto.
  - exists jp, jc, jn, cp, cc, cn, t. auto.
Qed.

(** X8.  Whatever is at the path, the model the loader returns has a port,
    a path and a name for both services and a network for [chain]; the
    network is a [str], and each port and path is a [str] or a value of
    length 0, which the loader took from the document as it was (an empty
    list or mapping, among the documents of the embedding). *)
Theorem loaded_model_is_complete (w : world) (path : string) :
  exists d jp jc jn cp cc cn net,
    load_config_from_docker_compose w path = Ok (PDict d) /\
    model_field d "justicar" "port" = Some jp /\
    model_field d "justicar" "configuration file" = Some jc /\
    model_field d "justicar" "name" = Some jn /\
    model_field d "chain" "port" = Some cp /\
    model_field d "chain" "configuration file" = Some cc /\
    model_field d "chain" "name" = Some cn /\
    model_field d "chain" "network" = Some (PStr net) /\
    str_or_empty jp /\ str_or_empty jc /\ str_or_empty cp /\ str_or_empty cc.
Proof.
  destruct (load_cases w path) as [(nc & Ht & Hl) | Hl].
  - destruct (load_try_shape w path nc Ht)
      as (jp & jc & jn & cp & cc & cn & net & -> & Sj & Sc & Tj & Tc).
    eexists _, jp, jc, jn, cp, cc, cn, net.
    split; [exact Hl |]. repeat (split; [reflexivity |]). auto.
  - eexists _, _, _, _, _, _, _, _. split; [exact Hl |].
    repeat (split; [reflexivity |]).
    unfold str_or_empty. cbn [is_str]. auto.
Qed.

Lemma py_add_suffix (v : pyval) (suffix : string) :
  py_add v (PStr suffix)
  = match v with
    | PStr s => Ok (PStr (s ++ suffix))
    | _ => Raise TypeError
    end.
Proof. destruct v; reflexivity. Qed.

Lemma justicar_service_fields (jp jc jn : pyval) :
  justicar_service
    (PDict [ (KStr "port", jp); (KStr "configuration file", jc);
             (KStr "name", jn) ])
  = match jp, jc with
    | PStr p, PStr c =>
        Ok (justicar_definition jn (PStr (p ++ ":1309"))
              (PStr (c ++ ":/opt/justicar/backups")))
    | _, _ => Raise TypeError
    end.
Proof.
  unfold justicar_service.
  cbn [py_subscript dict_get key_eqb String.eqb Ascii.eqb Bool.eqb bind].
  rewrite !py_add_suffix. destruct jp, jc; reflexivity.
Qed.

Lemma chain_service_fields (cp cc cn : pyval) (net : string) :
  chain_service
    (PDict [ (KStr "port", cp); (KStr "configuration file", cc);
             (KStr "name", cn); (KStr "network", PStr net) ])
  = match cc, cp with
    | PStr c, PStr p =>
        Ok (chain_definition (PStr ("cesslab/cess-chain:" ++ net))
              (PStr (c ++ ":/opt/cess/data")) (PStr ("cess-" ++ net))
              cn (PStr (p ++ ":9944")))
    | _, _ => Raise TypeError
    end.
Proof.
  unfold chain_service.
  cbn [py_subscript dict_get key_eqb String.eqb Ascii.eqb Bool.eqb bind py_add].
  rewrite !py_add_suffix. destruct cc, cp; reflexivity.
Qed.

(** X9.  Saving the model that the loader returned, to a path that can be
    written, succeeds when its four ports and paths are [str]s and raises
    [TypeError] otherwise; it never fails for a missing field. *)
Theorem save_after_load
    (w w2 : world) (path p : string) (d : pydict) :
  load_config_from_docker_compose w path = Ok (PDict d) ->
  p ∉ write_denied w2 ->
  exists jp jc cp cc,
    model_field d "justicar" "port" = Some jp /\
    model_field d "justicar" "configuration file" = Some jc /\
    model_field d "chain" "port" = Some cp /\
    model_field d "chain" "configuration file" = Some cc /\
    (is_str jp && is_str jc && is_str cp && is_str cc = true ->
     exists w3, save_config_to_docker_compose (PDict d) p w2 = Ok w3) /\
    (is_str jp && is_str jc && is_str cp && is_str cc = false ->
     save_config_to_docker_compose (PDict d) p w2 = Raise TypeError).
Proof.
  intros Hload Hw.
  destruct (load_cases w path) as [(nc & Ht & Hl) | Hl];
    rewrite Hl in Hload; injection Hload as <-.
  - destruct (load_try_shape w path nc Ht)
      as (jp & jc & jn & cp & cc & cn & net & -> & _).
    exists jp, jc, cp, cc. repeat (split; [reflexivity |]).
    unfold save_config_to_docker_compose.
    cbn [py_items bind for_each save_service key_eqb String.eqb Ascii.eqb Bool.eqb].
    rewrite justicar_service_fields, chain_service_fields.
    split; intros H.
    + destruct jp, jc, cp, cc; try discriminate H.
      cbn [bind]. unfold write_yaml.
      rewrite bool_decide_eq_false_2 by assumption. eauto.
    + destruct jp, jc; try reflexivity; destruct cp, cc; try reflexivity.
      discriminate H.
  - eexists _, _, _, _. repeat (split; [reflexivity |]).
    split; intros H; [| discriminate H].
    eexists. apply save_writes; [reflexivity | exact Hw].
Qed.

(** ** What the writer emits *)

Lemma supported_str (k : pykey) :
  supported k = true -> k = KStr "justicar" \/ k = KStr "chain".
Proof.
  unfold supported. intros H. apply orb_true_iff in H as [H | H];
    apply key_eqb_str in H; auto.
Qed.

Lemma dict_get_existsb_false {V} (k k' : pykey) (d : list (pykey * V)) :
  existsb (key_eqb k) (keys d) = false -> In k' (keys d) -> key_eqb k k' = false.
Proof.
  unfold keys. induction d as [|[k0 v0] d IH]; simpl; [contradiction |].
  intros H [-> | Hin]; apply orb_false_iff in H as [H1 H2]; auto.
Qed.










Lemma py_subscript_ok (o : pyval) (k : pykey) (v : pyval) :
  py_subscript o k = Ok v <-> exists d, o = PDict d /\ dict_get k d = Some v.
Proof.
  split.
  - destruct o; cbn; try discriminate.
    destruct (dict_get k d) eqn:E; [| discriminate].
    intros H. injection H as <-. eauto.
  - intros (d & -> & H). cbn. rewrite H. reflexivity.
Qed.

Lemma py_add_suffix_ok (v : pyval) (suffix : string) (r : pyval) :
  py_add v (PStr suffix) = Ok r <-> exists s, v = PStr s /\ r = PStr (s ++ suffix).
Proof.
  rewrite py_add_suffix. split.
  - destruct v; try discriminate. intros H. injection H as <-. eauto.
  - intros (s & -> & ->). reflexivity.
Qed.

(** X12.  A record can be synthesized exactly when it is a dict that has
    a name, and a port and a path that are [str]s (for [chain] also a
    network that is a [str]); the definition then carries the name as it
    is, whatever its type, and the mappings and tag built from the other
    fields.  Fields beyond these, and the order of the fields, play no
    part. *)
Theorem synthesis_succeeds_iff :
  (forall sc s,
      justicar_service sc = Ok s <->
      exists d nm p c,
        sc = PDict d /\
        dict_get (KStr "name") d = Some nm /\
        dict_get (KStr "port") d = Some (PStr p) /\
        dict_get (KStr "configuration file") d = Some (PStr c) /\
        s = justicar_definition nm (PStr (p ++ ":1309"))
              (PStr (c ++ ":/opt/justicar/backups"))) /\
  (forall sc s,
      chain_service sc = Ok s <->
      exists d nm p c net,
        sc = PDict d /\
        dict_get (KStr "name") d = Some nm /\
        dict_get (KStr "port") d = Some (PStr p) /\
        dict_get (KStr "configuration file") d = Some (PStr c) /\
        dict_get (KStr "network") d = Some (PStr net) /\
        s = chain_definition (PStr ("cesslab/cess-chain:" ++ net))
              (PStr (c ++ ":/opt/cess/data")) (PStr ("cess-" ++ net))
              nm (PStr (p ++ ":9944"))).
Proof.
  split; intros sc s; split.
  - unfold justicar_service. intros H. bind_inv H. injection H as <-.
    apply py_subscript_ok in E as (d & -> & Hn).
    apply py_subscript_ok in E0 as (d0 & Ed & Hp). injection Ed as <-.
    apply py_subscript_ok in E2 as (d0 & Ed & Hc). injection Ed as <-.
    apply py_add_suffix_ok in E1 as (p & -> & ->).
    apply py_add_suffix_ok in E3 as (c & -> & ->).
    exists d, x, p, c. auto.
  - intros (d & nm & p & c & -> & Hn & Hp & Hc & ->).
    unfold justicar_service. cbn [py_subscript]. rewrite Hn, Hp, Hc. reflexivity.
  - unfold chain_service. intros H. bind_inv H. injection H as <-.
    apply py_subscript_ok in E as (d & -> & Hnet).
    apply py_subscript_ok in E1 as (d0 & Ed & Hc). injection Ed as <-.
    apply py_subscript_ok in E3 as (d0 & Ed & Hnet'). injection Ed as <-.
    apply py_subscript_ok in E5 as (d0 & Ed & Hn). injection Ed as <-.
    apply py_subscript_ok in E6 as (d0 & Ed & Hp). injection Ed as <-.
    apply py_add_suffix_ok in E2 as (c & -> & ->).
    apply py_add_suffix_ok in E7 as (p & -> & ->).
    rewrite Hnet in Hnet'. injection Hnet' as <-.
    destruct x; try discriminate E0. cbn in E0, E4.
    injection E0 as <-. injection E4 as <-.
    exists d, x5, p, c, s. auto 10.
  - intros (d & nm & p & c & net & -> & Hn & Hp & Hc & Hnet & ->).
    unfold chain_service. cbn [py_subscript]. rewrite Hn, Hp, Hc, Hnet.
    reflexivity.
Qed.

Lemma load_ext (w w' : world) (path path' : string) :
  files w !! path = files w' !! path' ->
  load_config_from_docker_compose w path
  = load_config_from_docker_compose w' path'.
Proof.
  intros H. unfold load_config_from_docker_compose, load_with, path_exists,
    load_try, read_yaml. rewrite H. reflexivity.
Qed.

(** X13.  A save that succeeds, at a path other than the debug log,
    replaces the document at its path, whatever was there: the outcome
    does not depend on the old content.  It writes no other document:
    with a path taken as the name of its file, every path other than the
    one saved and other than the debug log holds what it held and loads
    as it did.  The debug log is set apart because the program appends a
    record to it after every save, which the file system of the embedding
    does not show. *)
Theorem save_touches_only_its_path
    (config : pyval) (p : string) (w w' : world) :
  p <> debug_log ->
  save_config_to_docker_compose config p w = Ok w' ->
  (exists doc, files w' !! p = Some (Doc doc)) /\
  write_denied w' = write_denied w /\
  (forall q, q <> p -> q <> debug_log ->
             files w' !! q = files w !! q /\
             load_config_from_docker_compose w' q
             = load_config_from_docker_compose w q) /\
  (forall f, save_config_to_docker_compose config p
               (World (<[p := f]> (files w)) (write_denied w)) = Ok w').
Proof.
  intros _ H. apply save_inv in H as (items & services & -> & Hfor & Hw & ->).
  split; [eexists; cbn [files]; apply lookup_insert_eq |].
  split; [reflexivity |].
  split.
  - intros q Hq _.
    assert (E : files (World (<[p := Doc (docker_compose_data services)]> (files w))
                         (write_denied w)) !! q = files w !! q)
      by (cbn [files]; apply lookup_insert_ne; congruence).
    split; [exact E | exact (load_ext _ _ q q E)].
  - intros f. rewrite (save_writes items services p _ Hfor) by exact Hw.
    cbn [files write_denied]. rewrite insert_insert_eq. reflexivity.
Qed.

(** ** The loader on the heap *)

(** X14.  Whatever the template reads as, the loader changes no object
    that was on the heap ([DEFAULT_CONFIG] and its records among them):
    it returns a dict object that was not there before, and that object
    reads as the value the loader computes from the template's value. *)
Theorem load_allocates_and_leaves_the_rest
    (h : heap) (w : world) (path : string) (dc : pydict) :
  view_model h DEFAULT_CONFIG_loc = Some (PDict dc) ->
  exists h1 m,
    h_load h w path = Some (h1, m) /\
    (forall l o, h !! l = Some o -> h1 !! l = Some o) /\
    h !! m = None /\
    view_model h1 DEFAULT_CONFIG_loc = Some (PDict dc) /\
    Ok <$> view_model h1 m = Some (load_with (PDict dc) w path).
Proof.
  intros Hv.
  destruct (h_load_view h w path dc Hv) as (h1 & m & Hl & Hsub & Hf & Hm).
  exists h1, m. split; [exact Hl |].
  split; [intros l o Ho; exact (lookup_weaken h h1 l o Ho Hsub) |].
  split; [exact Hf |].
  split; [exact (view_model_mono h h1 _ _ Hsub Hv) | exact Hm].
Qed.

Lemma h_alloc_entries_fresh (d : pydict) (h h' : heap) (e : list (pykey * loc)) :
  h_alloc_entries h d = (h', e) ->
  forall k r, dict_get k e = Some r -> h !! r = None.
Proof.
  revert h h' e. induction d as [|[k0 v0] d IH]; intros h h' e H k r Hr.
  - inversion H. subst. discriminate.
  - cbn [h_alloc_entries] in H.
    destruct (alloc h (Value v0)) as [h1 l] eqn:Ea.
    destruct (h_alloc_entries h1 d) as [h2 e'] eqn:Er.
    inversion H. subst h' e. clear H.
    apply alloc_spec in Ea as [Hf ->].
    cbn [dict_get] in Hr. destruct (key_eqb k0 k).
    + injection Hr as <-. exact Hf.
    + pose proof (IH _ _ _ Er k r Hr) as Hn.
      destruct (decide (r = l)) as [-> | Hne]; [exact Hf |].
      rewrite lookup_insert_ne in Hn by congruence. exact Hn.
Qed.

(** X15.  A model that the loader built from a document, unlike the copy
    of the default, shares no record with what was on the heap: writing a
    field of any of its records leaves every earlier object, and so what
    [DEFAULT_CONFIG] reads as, unchanged. *)
Theorem parsed_model_is_isolated
    (h : heap) (w : world) (path : string) (dc nc : pydict)
    (h1 : heap) (m : loc) :
  view_model h DEFAULT_CONFIG_loc = Some (PDict dc) ->
  path_exists w path = true ->
  load_try (PDict dc) w path = Ok nc ->
  h_load h w path = Some (h1, m) ->
  view_model h1 m = Some (PDict nc) /\
  forall k f v h2,
    h_setfield h1 m k f v = Some h2 ->
    (forall l o, h !! l = Some o -> h2 !! l = Some o) /\
    view_model h2 DEFAULT_CONFIG_loc = Some (PDict dc).
Proof.
  intros Hv Hex Htry Hl. unfold h_load in Hl.
  rewrite Hex, Hv, Htry in Hl. cbn [negb] in Hl. injection Hl as Hl.
  destruct (h_new_model_spec h h1 nc m Hl) as (Hsub & Hfm & Hvm).
  split; [exact Hvm |].
  intros k f v h2 Hset.
  unfold h_new_model in Hl.
  destruct (h_alloc_entries h nc) as [h' e] eqn:Ee.
  apply alloc_spec in Hl as [Hfm' ->].
  unfold h_setfield in Hset. rewrite lookup_insert_eq in Hset.
  destruct (dict_get k e) as [r|] eqn:Er; [| discriminate].
  pose proof (h_alloc_entries_fresh nc h h' e Ee k r Er) as Hr.
  destruct (<[m := Model e]> h' !! r) as [[[| | | | |rec]|]|]; try discriminate.
  injection Hset as <-.
  assert (Hsub2 : h ⊆ <[r := Value (PDict (dict_set f v rec))]> (<[m := Model e]> h'))
    by (apply insert_subseteq_r; assumption).
  split.
  - intros l o Ho. exact (lookup_weaken _ _ l o Ho Hsub2).
  - exact (view_model_mono _ _ _ _ Hsub2 Hv).
Qed.

(** ** The screens *)

Lemma ends_with_append (a suffix : string) :
  ends_with suffix (a ++ suffix) = true.
Proof.
  induction a as [|c a IH]; simpl.
  - destruct suffix; simpl; rewrite ?String.eqb_refl, ?Ascii.eqb_refl; reflexivity.
  - rewrite IH. apply orb_true_r.
Qed.

Lemma str_take_append (a b : string) :
  str_take (String.length a) (a ++ b) = a.
Proof. induction a as [|c a IH]; simpl; [destruct b; reflexivity | rewrite IH; reflexivity]. Qed.

Lemma length_append (a b : string) :
  String.length (a ++ b) = String.length a + String.length b.
Proof. induction a as [|c a IH]; simpl; [reflexivity | rewrite IH; reflexivity]. Qed.

Lemma drop_last_append (a suffix : string) :
  drop_last (String.length suffix) (a ++ suffix) = a.
Proof.
  unfold drop_last. rewrite length_append.
  replace (String.length a + String.length suffix - String.length suffix)
    with (String.length a) by (symmetry; apply Nat.add_sub).
  apply str_take_append.
Qed.

Lemma dict_set_new {V} (k : pykey) (v : V) (d : list (pykey * V)) :
  dict_get k d = None -> dict_set k v d = d ++ [(k, v)].
Proof.
  induction d as [|[k0 v0] d IH]; simpl; [reflexivity |].
  destruct (key_eqb k0 k); [discriminate |]. intros H. rewrite IH by exact H.
  reflexivity.
Qed.

Section ScreenFacts.

Variable py_str : pyval -> string.

Lemma compose_loop (d : pydict) (acc : list (pykey * string)) :
  unique_keys d = true -> str_keys d = true ->
  (forall k, In k (keys d) -> dict_get k acc = None) ->
  for_each d
    (fun item fields =>
       match fst item with
       | KStr _ => Ok (dict_set (fst item) (py_str (snd item)) fields)
       | _ => Raise AttributeError
       end) acc
  = Ok (acc ++ map (shown py_str) d).
Proof.
  revert acc. induction d as [|[k v] d IH]; intros acc U S Hacc.
  - cbn. rewrite app_nil_r. reflexivity.
  - cbn [unique_keys] in U. apply andb_true_iff in U as [U1 U2].
    apply negb_true_iff in U1.
    unfold str_keys in S. cbn [keys map fst forallb] in S.
    apply andb_true_iff in S as [S1 S2].
    cbn [for_each fst snd]. destruct k; try discriminate S1. cbn [bind].
    rewrite dict_set_new by (apply Hacc; left; reflexivity).
    rewrite IH; [| exact U2 | exact S2 |].
    + rewrite <- app_assoc. reflexivity.
    + intros k Hin. rewrite <- (dict_set_new (KStr s) (py_str v) acc)
        by (apply Hacc; left; reflexivity).
      rewrite dict_get_set_other.
      * apply Hacc. right. exact Hin.
      * exact (dict_get_existsb_false (KStr s) k d U1 Hin).
Qed.

(** The inputs [compose] makes for a record with distinct [str] keys: one
    per field, in the record's order, showing [str] of its value. *)
Lemma compose_input_fields_shown (d : pydict) :
  unique_keys d = true -> str_keys d = true ->
  compose_input_fields py_str d = Ok (map (shown py_str) d).
Proof.
  intros U S. unfold compose_input_fields.
  rewrite (compose_loop d [] U S (fun _ _ => eq_refl)). reflexivity.
Qed.

Lemma keys_shown (d : pydict) : keys (map (shown py_str) d) = keys d.
Proof. unfold keys. rewrite map_map. reflexivity. Qed.

Lemma change_input_keys (field : pykey) (text : string) (s : ConfigScreen) :
  service_name (change_input field text s) = service_name s /\
  current_config (change_input field text s) = current_config s /\
  keys (input_fields (change_input field text s)) = keys (input_fields s).
Proof.
  unfold change_input. cbn [service_name current_config input_fields].
  split; [reflexivity |]. split; [reflexivity |].
  destruct (dict_get field (input_fields s)) as [t|] eqn:E; [| reflexivity].
  exact (keys_dict_set_old field text t _ E).
Qed.

Lemma change_inputs_keys (edits : list (pykey * string)) (s : ConfigScreen) :
  service_name (change_inputs edits s) = service_name s /\
  current_config (change_inputs edits s) = current_config s /\
  keys (input_fields (change_inputs edits s)) = keys (input_fields s).
Proof.
  revert s. induction edits as [|[f t] edits IH]; intros s; [auto |].
  unfold change_inputs. cbn [fold_left fst snd].
  fold (change_inputs edits (change_input f t s)).
  destruct (IH (change_input f t s)) as (A & B & C).
  destruct (change_input_keys f t s) as (A' & B' & C').
  rewrite A, B, C. auto.
Qed.

Lemma apply_input_fields_cons (fields : list (pykey * string)) (x : pykey * pyval)
    (cur : pydict) :
  (forall k, In k (keys fields) -> key_eqb (fst x) k = false) ->
  apply_input_fields fields (x :: cur) = x :: apply_input_fields fields cur.
Proof.
  revert cur. induction fields as [|[k t] fields IH]; intros cur H; [reflexivity |].
  cbn [apply_input_fields fold_left fst snd dict_set].
  destruct x as [k0 v0]. cbn [fst] in H.
  rewrite (H k) by (left; reflexivity).
  fold (apply_input_fields fields ((k0, v0) :: dict_set k (PStr t) cur)).
  fold (apply_input_fields fields (dict_set k (PStr t) cur)).
  apply IH. intros k' Hin. apply H. right. exact Hin.
Qed.

(** With one input per field, the loop of the commit replaces every value
    of the record by the text of its input. *)
Lemma apply_input_fields_typed (fields : list (pykey * string)) (cur : pydict) :
  keys fields = keys cur -> unique_keys cur = true ->
  apply_input_fields fields cur = map typed fields.
Proof.
  revert cur. induction fields as [|[k t] fields IH]; intros cur K U.
  - destruct cur; [reflexivity | discriminate K].
  - destruct cur as [|[k0 v0] cur]; [discriminate K |].
    cbn [keys map fst] in K. injection K as <- K.
    cbn [unique_keys] in U. apply andb_true_iff in U as [U1 U2].
    apply negb_true_iff in U1.
    cbn [apply_input_fields fold_left fst snd dict_set].
    rewrite key_eqb_refl.
    fold (apply_input_fields fields ((k, PStr t) :: cur)).
    rewrite apply_input_fields_cons.
    + rewrite (IH cur K U2). reflexivity.
    + intros k' Hin. cbn [fst]. unfold keys in K. fold (keys fields) in Hin.
      unfold keys in Hin. rewrite K in Hin.
      exact (dict_get_existsb_false k k' cur U1 Hin).
Qed.

Lemma keys_typed (fields : list (pykey * string)) :
  keys (map typed fields) = keys fields.
Proof. unfold keys. rewrite map_map. reflexivity. Qed.

Lemma unique_keys_ext {V W} (d : list (pykey * V)) (d' : list (pykey * W)) :
  keys d = keys d' -> unique_keys d = unique_keys d'.
Proof.
  revert d'. induction d as [|[k v] d IH]; intros [|[k' v'] d'] H;
    try discriminate H; [reflexivity |].
  cbn [keys map fst] in H. injection H as <- H.
  cbn [unique_keys]. unfold keys in *. rewrite H, (IH d' H). reflexivity.
Qed.

Lemma str_keys_ext {V W} (d : list (pykey * V)) (d' : list (pykey * W)) :
  keys d = keys d' -> str_keys d = str_keys d'.
Proof. unfold str_keys. intros ->. reflexivity. Qed.

Lemma push_config_screen_ok (name : string) (items rec : pydict) :
  dict_get (KStr name) items = Some (PDict rec) ->
  unique_keys rec = true -> str_keys rec = true ->
  push_config_screen py_str name (PDict items)
  = Ok {| service_name := name;
          current_config := rec;
          input_fields := map (shown py_str) rec |}.
Proof.
  intros H U S. unfold push_config_screen. cbn [py_subscript]. rewrite H.
  cbn [bind py_copy py_items]. rewrite (compose_input_fields_shown rec U S).
  reflexivity.
Qed.

Lemma push_config_screen_inv (name : string) (config : pyval) (s : ConfigScreen) :
  push_config_screen py_str name config = Ok s ->
  exists items rec,
    config = PDict items /\
    dict_get (KStr name) items = Some (PDict rec) /\
    service_name s = name /\ current_config s = rec /\
    compose_input_fields py_str rec = Ok (input_fields s).
Proof.
  unfold push_config_screen. intros H. bind_inv H. injection H as <-.
  apply py_subscript_ok in E as (items & -> & Hrec).
  destruct x; cbn in E0; try discriminate E0; injection E0 as <-;
    cbn in E1; try discriminate E1.
  injection E1 as <-. exists items, d. auto.
Qed.

Lemma menu_button_loop (names : list string) (ids : list string) :
  for_each (map KStr names)
    (fun key ids =>
       match key with
       | KStr name => Ok (ids ++ [String.append name "_btn"])
       | _ => Raise AttributeError
       end) ids
  = Ok (ids ++ map (fun n => String.append n "_btn") names).
Proof.
  revert ids. induction names as [|n names IH]; intros ids; cbn [map for_each bind].
  - rewrite app_nil_r. reflexivity.
  - rewrite IH, <- app_assoc. reflexivity.
Qed.

Lemma app_eta (app : CD2N) :
  {| config := config app; screen_stack := screen_stack app; disk := disk app |}
  = app.
Proof. destruct app. reflexivity. Qed.

(** X16.  The main menu has one button per key of the config, then
    [run_compose]; the button made for a key is the one that opens the
    screen of that key, with the record the config holds and one input
    per field showing [str] of its value, and [run_compose] is never
    taken for a service however the services are called. *)
Theorem menu_buttons_open_their_service
    (app : CD2N) (items : pydict) (names : list string) :
  config app = PDict items ->
  keys items = map KStr names ->
  MainMenu_buttons (config app)
  = Ok (map (fun n => String.append n "_btn") names ++ [ "run_compose" ]) /\
  (forall name rec,
      dict_get (KStr name) items = Some (PDict rec) ->
      unique_keys rec = true -> str_keys rec = true ->
      MainMenu_on_button_pressed py_str (String.append name "_btn") app
      = ({| config := config app;
            screen_stack :=
              Config {| service_name := name;
                        current_config := rec;
                        input_fields := map (shown py_str) rec |}
              :: screen_stack app;
            disk := disk app |}, Ok tt)) /\
  MainMenu_on_button_pressed py_str "run_compose" app = run_compose app.
Proof.
  intros Hc Hk. split; [| split].
  - unfold MainMenu_buttons. rewrite Hc. cbn [py_items bind]. rewrite Hk.
    rewrite menu_button_loop. reflexivity.
  - intros name rec Hrec U S. unfold MainMenu_on_button_pressed.
    rewrite ends_with_append.
    change 4 with (String.length "_btn"). rewrite drop_last_append.
    rewrite Hc, (push_config_screen_ok name items rec Hrec U S). reflexivity.
  - reflexivity.
Qed.

Lemma keys_two_services {V} (d : list (pykey * V)) (name : string) :
  keys d = [ KStr "justicar"; KStr "chain" ] ->
  (dict_get (KStr name) d <> None <-> name = "justicar" \/ name = "chain").
Proof.
  destruct d as [|[k1 v1] [|[k2 v2] [|? ?]]]; try discriminate.
  intros H. cbn [keys map fst] in H. injection H as -> ->.
  cbn [dict_get key_eqb]. split.
  - destruct (String.eqb "justicar" name) eqn:E1.
    { apply String.eqb_eq in E1. auto. }
    destruct (String.eqb "chain" name) eqn:E2.
    { apply String.eqb_eq in E2. auto. }
    intros H. contradiction H. reflexivity.
  - intros [-> | ->]; cbn; discriminate.
Qed.

Lemma action_save_config_ok (s : ConfigScreen) (app : CD2N) :
  app_ok app ->
  service_name s = "justicar" \/ service_name s = "chain" ->
  (exists rest, screen_stack app = Config s :: rest) ->
  app_ok (fst (action_save_config s app)).
Proof.
  intros [(d & Hc & Hk) Hst] Hname [rest Hrest].
  assert (Hstack : tl (screen_stack app) = [ MainMenu ]).
  { destruct Hst as [E | (s0 & E & _)]; rewrite E in Hrest;
      [discriminate Hrest |]. rewrite E. reflexivity. }
  unfold action_save_config. rewrite Hc. cbn [py_setitem].
  assert (Hkeys : keys (dict_set (KStr (service_name s))
                          (PDict (apply_input_fields (input_fields s)
                                    (current_config s))) d)
                  = [ KStr "justicar"; KStr "chain" ]).
  { destruct (dict_get (KStr (service_name s)) d) as [v|] eqn:E.
    - rewrite (keys_dict_set_old _ _ v d E). exact Hk.
    - exfalso. apply (proj2 (keys_two_services d (service_name s) Hk) Hname).
      exact E. }
  destruct (save_config_to_docker_compose _ default_path (disk app));
    cbn [fst]; (split; [eexists; split; [reflexivity | exact Hkeys] |]);
    cbn [screen_stack]; rewrite Hstack; [left; reflexivity |].
  right. eexists. split; [reflexivity |]. exact Hname.
Qed.

Lemma step_ok (app : CD2N) (e : event) :
  app_ok app -> app_ok (fst (step py_str app e)).
Proof.
  intros Hok. pose proof Hok as [(d & Hc & Hk) Hst].
  unfold step. destruct Hst as [E | (s & E & Hname)]; rewrite E.
  - destruct e as [button_id | key | field text]; try exact Hok.
    unfold MainMenu_on_button_pressed.
    destruct (ends_with "_btn" button_id).
    + destruct (push_config_screen py_str (drop_last 4 button_id) (config app))
        as [s|x] eqn:Hp; [| exact Hok].
      cbn [fst]. split; [exists d; auto |]. right. cbn [screen_stack].
      rewrite E. exists s. split; [reflexivity |].
      apply push_config_screen_inv in Hp
        as (items & rec & Hi & Hrec & Hn & _).
      rewrite Hc in Hi. injection Hi as <-. rewrite Hn.
      apply (proj1 (keys_two_services d _ Hk)). rewrite Hrec. discriminate.
    + destruct (String.eqb button_id "run_compose"); [| exact Hok].
      unfold run_compose.
      destruct (save_config_to_docker_compose (config app) default_path (disk app));
        [| exact Hok].
      cbn [fst]. split; [exists d; auto |]. left. exact E.
  - destruct e as [button_id | key | field text].
    + unfold ConfigScreen_on_button_pressed.
      destruct (String.eqb button_id "save_and_back").
      { apply action_save_config_ok; eauto. }
      destruct (String.eqb button_id "cancel"); [| exact Hok].
      cbn [action_go_back fst]. split; [exists d; auto |].
      left. cbn [screen_stack]. rewrite E. reflexivity.
    + destruct (String.eqb key "escape").
      { cbn [action_go_back fst]. split; [exists d; auto |].
        left. cbn [screen_stack]. rewrite E. reflexivity. }
      destruct (String.eqb key "ctrl+s"); [| exact Hok].
      apply action_save_config_ok; eauto.
    + cbn [fst]. split; [exists d; auto |]. right. cbn [screen_stack].
      eexists. split; [reflexivity |].
      rewrite (proj1 (change_input_keys field text s)). exact Hname.
Qed.

(** X17.  The app always starts, on the main menu; and whatever the user
    does from there, the config stays a dict keyed by [justicar] then
    [chain], and the app is on the main menu or on the screen of one of
    the two services, opened over the main menu. *)
Theorem run_keeps_the_two_services (w : world) (es : list event) :
  exists app0,
    startup w = Ok app0 /\
    screen_stack app0 = [ MainMenu ] /\ disk app0 = w /\
    app_ok (fst (run py_str app0 es)).
Proof.
  unfold startup. destruct (load_keys w default_path) as (d & Hl & Hk).
  rewrite Hl. cbn [bind]. eexists. split; [reflexivity |].
  split; [reflexivity |]. split; [reflexivity |].
  assert (H0 : app_ok {| config := PDict d; screen_stack := [ MainMenu ]; disk := w |})
    by (split; [exists d; auto | left; reflexivity]).
  revert H0. generalize {| config := PDict d; screen_stack := [ MainMenu ]; disk := w |}.
  induction es as [|e es IH]; intros app Hok; [exact Hok |].
  cbn [run]. pose proof (step_ok app e Hok) as Hs.
  destruct (step py_str app e) as [app' [[]|x]]; cbn [fst] in Hs;
    [exact (IH app' Hs) | exact Hs].
Qed.

(** X18.  No event but a commit ([save_and_back] or [ctrl+s] on the screen
    of a service) changes the config, and a commit changes it at the key
    of that service only, whether the save then succeeds or raises;
    typing in an input, opening a screen, cancelling and [run_compose]
    leave it as it is. *)
Theorem only_commit_changes_config (app : CD2N) (e : event) :
  config (fst (step py_str app e)) = config app \/
  exists s rest d,
    screen_stack app = Config s :: rest /\
    (e = ButtonPressed "save_and_back" \/ e = KeyPressed "ctrl+s") /\
    config app = PDict d /\
    config (fst (step py_str app e))
    = PDict (dict_set (KStr (service_name s))
               (PDict (apply_input_fields (input_fields s) (current_config s))) d) /\
    forall k,
      key_eqb (KStr (service_name s)) k = false ->
      dict_get k (dict_set (KStr (service_name s))
                    (PDict (apply_input_fields (input_fields s) (current_config s))) d)
      = dict_get k d.
Proof.
  assert (Hcommit : forall s rest,
    screen_stack app = Config s :: rest ->
    config (fst (action_save_config s app)) = config app \/
    exists d,
      config app = PDict d /\
      config (fst (action_save_config s app))
      = PDict (dict_set (KStr (service_name s))
                 (PDict (apply_input_fields (input_fields s) (current_config s))) d)).
  { intros s rest _. unfold action_save_config.
    destruct (config app) as [| | | | |d]; cbn [py_setitem fst config]; auto.
    right. exists d. split; [reflexivity |].
    destruct (save_config_to_docker_compose _ default_path (disk app)); reflexivity. }
  unfold step. destruct (screen_stack app) as [|[|s] rest] eqn:Est; [auto | |].
  - destruct e as [button_id | key | field text]; auto.
    unfold MainMenu_on_button_pressed.
    destruct (ends_with "_btn" button_id).
    + destruct (push_config_screen py_str _ (config app)); auto.
    + destruct (String.eqb button_id "run_compose"); auto.
      unfold run_compose.
      destruct (save_config_to_docker_compose (config app) default_path (disk app)); auto.
  - destruct e as [button_id | key | field text]; auto.
    + unfold ConfigScreen_on_button_pressed.
      destruct (String.eqb button_id "save_and_back") eqn:Eb.
      * apply String.eqb_eq in Eb. subst button_id.
        destruct (Hcommit s rest eq_refl) as [H | (d & Hd & H)]; [auto |].
        right. exists s, rest, d. repeat (split; [auto |]).
        intros k Hk. apply dict_get_set_other, Hk.
      * destruct (String.eqb button_id "cancel"); auto.
    + destruct (String.eqb key "escape"); auto.
      destruct (String.eqb key "ctrl+s") eqn:Ek; auto.
      apply String.eqb_eq in Ek. subst key.
      destruct (Hcommit s rest eq_refl) as [H | (d & Hd & H)]; [auto |].
      right. exists s, rest, d. repeat (split; [auto |]).
      intros k Hk. apply dict_get_set_other, Hk.
Qed.

Lemma run_inputs (cfg : pyval) (s : ConfigScreen) (rest : list screen)
    (dk : world) (edits : list (pykey * string)) (tail : list event) :
  run py_str {| config := cfg; screen_stack := Config s :: rest; disk := dk |}
    (map (fun e => InputChanged (fst e) (snd e)) edits ++ tail)
  = run py_str {| config := cfg;
                  screen_stack := Config (change_inputs edits s) :: rest;
                  disk := dk |} tail.
Proof.
  revert s. induction edits as [|[f t] edits IH]; intros s; [reflexivity |].
  cbn [map app run step screen_stack config disk fst snd]. rewrite IH.
  reflexivity.
Qed.

(** X19.  Opening the screen of a service from the main menu, typing
    anything into its inputs and then cancelling, by the button or by
    [escape], leaves the app exactly as it was: config, screen stack and
    file system. *)
Theorem cancel_discards_edits
    (app : CD2N) (rest : list screen) (name : string)
    (edits : list (pykey * string)) :
  screen_stack app = MainMenu :: rest ->
  fst (run py_str app
         (ButtonPressed (String.append name "_btn")
          :: map (fun e => InputChanged (fst e) (snd e)) edits
          ++ [ ButtonPressed "cancel" ])) = app /\
  fst (run py_str app
         (ButtonPressed (String.append name "_btn")
          :: map (fun e => InputChanged (fst e) (snd e)) edits
          ++ [ KeyPressed "escape" ])) = app.
Proof.
  intros Hst.
  split; cbn [run]; unfold step at 1; rewrite Hst;
    unfold MainMenu_on_button_pressed; rewrite ends_with_append;
    change 4 with (String.length "_btn"); rewrite drop_last_append;
    (destruct (push_config_screen py_str name (config app)) as [s|x];
     [| reflexivity]);
    rewrite run_inputs; cbn [run step screen_stack];
    cbn [ConfigScreen_on_button_pressed String.eqb Ascii.eqb Bool.eqb
         action_go_back fst config disk screen_stack tl];
    apply app_eta.
Qed.

Lemma compose_loop_str_keys (d : pydict) (acc fields : list (pykey * string)) :
  for_each d
    (fun item fields =>
       match fst item with
       | KStr _ => Ok (dict_set (fst item) (py_str (snd item)) fields)
       | _ => Raise AttributeError
       end) acc = Ok fields ->
  str_keys d = true.
Proof.
  revert acc. induction d as [|[k v] d IH]; intros acc H; [reflexivity |].
  cbn [for_each fst snd] in H. apply bind_ok in H as (acc' & Hk & H).
  unfold str_keys. cbn [keys map fst forallb].
  destruct k; try discriminate Hk. exact (IH acc' H).
Qed.

(** The screen of a record with distinct keys, after any typing, still has
    one input per field of the record, in the record's order. *)
Lemma screen_inputs (name : string) (cfg : pyval) (s : ConfigScreen)
    (edits : list (pykey * string)) :
  push_config_screen py_str name cfg = Ok s ->
  unique_keys (current_config s) = true ->
  str_keys (current_config s) = true /\
  service_name (change_inputs edits s) = name /\
  current_config (change_inputs edits s) = current_config s /\
  keys (input_fields (change_inputs edits s)) = keys (current_config s).
Proof.
  intros Hp U.
  apply push_config_screen_inv in Hp as (items & rec & _ & _ & Hn & Hr & Hc).
  subst rec. pose proof Hc as Hs. apply compose_loop_str_keys in Hs.
  rewrite (compose_input_fields_shown _ U Hs) in Hc. injection Hc as Hc.
  destruct (change_inputs_keys edits s) as (A & B & C).
  rewrite A, B, C, <- Hc, keys_shown. auto.
Qed.

(** X20.  A commit stores, under every field of the record and in the
    record's order, the text of the input of that field as a [str]: also
    for the fields the user did not touch, so that a value that was not a
    [str] is replaced by the text the screen showed for it. *)
Theorem commit_stores_every_input
    (name : string) (app : CD2N) (d : pydict) (s : ConfigScreen)
    (edits : list (pykey * string)) :
  config app = PDict d ->
  push_config_screen py_str name (config app) = Ok s ->
  unique_keys (current_config s) = true ->
  keys (map typed (input_fields (change_inputs edits s))) = keys (current_config s) /\
  config (fst (action_save_config (change_inputs edits s) app))
  = PDict (dict_set (KStr name)
             (PDict (map typed (input_fields (change_inputs edits s)))) d).
Proof.
  intros Hc Hp U.
  destruct (screen_inputs name _ s edits Hp U) as (S & A & B & C).
  split; [rewrite keys_typed; exact C |].
  unfold action_save_config. rewrite Hc. cbn [py_setitem]. rewrite A, B.
  rewrite (apply_input_fields_typed _ _ C U).
  destruct (save_config_to_docker_compose _ default_path (disk app)); reflexivity.
Qed.

(** X21.  Provided [str] returns a [str] as it is: after a commit, whether
    its save succeeded or raised, opening the screen of the same service
    again shows in every input exactly the text that was committed. *)
Theorem reopened_screen_shows_the_commit
    (name : string) (app : CD2N) (d : pydict) (s : ConfigScreen)
    (edits : list (pykey * string)) :
  (forall t, py_str (PStr t) = t) ->
  config app = PDict d ->
  push_config_screen py_str name (config app) = Ok s ->
  unique_keys (current_config s) = true ->
  push_config_screen py_str name
    (config (fst (action_save_config (change_inputs edits s) app)))
  = Ok {| service_name := name;
          current_config := map typed (input_fields (change_inputs edits s));
          input_fields := input_fields (change_inputs edits s) |}.
Proof.
  intros Hstr Hc Hp U.
  destruct (screen_inputs name _ s edits Hp U) as (S & A & B & C).
  assert (Hcfg : config (fst (action_save_config (change_inputs edits s) app))
                 = PDict (dict_set (KStr name)
                            (PDict (map typed (input_fields (change_inputs edits s)))) d)).
  { unfold action_save_config. rewrite Hc. cbn [py_setitem]. rewrite A, B.
    rewrite (apply_input_fields_typed _ _ C U).
    destruct (save_config_to_docker_compose _ default_path (disk app)); reflexivity. }
  rewrite Hcfg.
  set (fields := input_fields (change_inputs edits s)) in *.
  assert (K : keys (map typed fields) = keys (current_config s))
    by (rewrite keys_typed; exact C).
  rewrite (push_config_screen_ok name _ (map typed fields)).
  - f_equal. f_equal. rewrite map_map. clear -Hstr.
    induction fields as [|[k t] fields IH]; [reflexivity |].
    cbn [map]. rewrite IH. unfold shown, typed. cbn [fst snd].
    rewrite Hstr. reflexivity.
  - apply dict_get_set_same, key_eqb_refl.
  - rewrite (unique_keys_ext _ _ K). exact U.
  - rewrite (str_keys_ext _ _ K). exact S.
Qed.

End ScreenFacts.

(** ** The further properties at sample inputs *)

Lemma colons_doc_loads :
  load_try DEFAULT_CONFIG (one_file (Doc colons_doc)) default_path = Ok colons_model.
Proof. reflexivity. Defined.

(** The bind address is taken for the port, and the second entry is not
    looked at. *)
Lemma loaded_host_side_witness :
  model_field colons_model "justicar" "port" = Some (PStr (before_colon "127.0.0.1:8080:1309")) /\
  before_colon "127.0.0.1:8080:1309" = "127.0.0.1" /\
  model_field colons_model "justicar" "configuration file" = Some (PStr "/srv/justicar") /\
  model_field colons_model "chain" "configuration file" = Some (PStr "/srv/chain").
Proof.
  split.
  { exact (proj1 (proj1
             (loaded_host_side (one_file (Doc colons_doc)) default_path
                _ _ _ "justicar" colons_model
                eq_refl eq_refl eq_refl (or_introl eq_refl) colons_doc_loads)
             "127.0.0.1:8080:1309" [ PStr "9999:9999" ] eq_refl)). }
  split; [reflexivity |]. split.
  { exact (proj1 (proj2
             (loaded_host_side (one_file (Doc colons_doc)) default_path
                _ _ _ "justicar" colons_model
                eq_refl eq_refl eq_refl (or_introl eq_refl) colons_doc_loads)
             "/srv/justicar:/opt/justicar/backups" [] eq_refl)). }
  exact (proj2 (proj2
           (loaded_host_side (one_file (Doc colons_doc)) default_path
              _ _ _ "chain" colons_model
              eq_refl eq_refl eq_refl (or_intror eq_refl) colons_doc_loads)
           "/srv/chain" [] eq_refl) eq_refl).
Defined.

(** [ports: "9944:9944"] gives the port ["9"]; [ports: "8080:1309"]
    beside an image without a tag gives the default model. *)
Lemma loaded_scalar_is_cut_witness :
  model_field colons_model "chain" "port" = Some (PStr "9") /\
  load_try DEFAULT_CONFIG (one_file (Doc scalar_ports_untagged_doc)) default_path
  = Raise IndexError /\
  load_config_from_docker_compose (one_file (Doc scalar_ports_untagged_doc))
    default_path = Ok DEFAULT_CONFIG.
Proof.
  split.
  { exact (proj1 (proj2
             (proj1 (loaded_scalar_is_cut (one_file (Doc colons_doc)) default_path
                       _ _ _ "chain"
                       eq_refl eq_refl eq_refl (or_intror eq_refl))
                colons_model colons_doc_loads))
             "9"%char "944:9944" eq_refl). }
  split; [reflexivity |].
  exact (proj2 (loaded_scalar_is_cut (one_file (Doc scalar_ports_untagged_doc))
                  default_path _ _
                  [ (KStr "ports", PStr "8080:1309") ] "justicar"
                  eq_refl eq_refl eq_refl (or_introl eq_refl))
           IndexError eq_refl).
Defined.

(** [ports: [8080]] for [justicar] discards the valid [chain] entry too. *)
Lemma malformed_sequence_discards_document_witness :
  malformed_sequence (PList [ PInt 8080 ]) = true /\
  load_config_from_docker_compose (one_file (Doc number_port_doc)) default_path
  = Ok DEFAULT_CONFIG.
Proof.
  split; [reflexivity |].
  exact (malformed_sequence_discards_document
           (one_file (Doc number_port_doc)) default_path _ _ _ "justicar"
           (PList [ PInt 8080 ])
           eq_refl eq_refl eq_refl (or_introl eq_refl) (or_introl eq_refl) eq_refl).
Defined.

(** The registry's port and the image name are taken for the network. *)
Lemma loaded_network_witness :
  colon_free "localhost" = true /\
  model_field colons_model "chain" "network"
  = Some (PStr (before_colon "5000/cess-chain:testnet")) /\
  before_colon "5000/cess-chain:testnet" = "5000/cess-chain".
Proof.
  split; [reflexivity |]. split; [| reflexivity].
  exact (proj2
           (loaded_network (one_file (Doc colons_doc)) default_path
              _ _ _ colons_model eq_refl eq_refl eq_refl colons_doc_loads)
           "localhost" "5000/cess-chain:testnet" eq_refl eq_refl).
Defined.

(** The colon stays in the name; the absent name of [chain] is the
    default one. *)
Lemma loaded_name_verbatim_witness :
  model_field colons_model "justicar" "name" = Some (PStr "worker:1") /\
  model_field colons_model "chain" "name" = Some (PStr "cess-chain").
Proof.
  pose proof (loaded_name_verbatim (one_file (Doc colons_doc)) default_path
                _ _ colons_model eq_refl eq_refl colons_doc_loads) as [Hj Hc].
  split.
  - exact (proj1 (Hj _ eq_refl) (PStr "worker:1") eq_refl).
  - exact (proj2 (Hc _ eq_refl) eq_refl).
Defined.




(** The model loaded from the document with [ports: []] cannot be
    saved. *)
Lemma save_after_load_witness :
  exists d,
    load_config_from_docker_compose (one_file (Doc empty_ports_doc)) default_path
    = Ok (PDict d) /\
    model_field d "justicar" "port" = Some (PList []) /\
    save_config_to_docker_compose (PDict d) default_path no_files = Raise TypeError.
Proof.
  eexists. split; [reflexivity |]. split; [reflexivity |].
  destruct (save_after_load (one_file (Doc empty_ports_doc)) no_files
              default_path default_path _ eq_refl default_path_writable)
    as (jp & jc & cp & cc & Hjp & Hjc & Hcp & Hcc & _ & Hfail).
  injection Hjp as <-. injection Hjc as <-.
  injection Hcp as <-. injection Hcc as <-.
  exact (Hfail eq_refl).
Defined.



(** Saving the default model over an empty file leaves another path as it
    was. *)
Lemma save_touches_only_its_path_witness :
  save_config_to_docker_compose DEFAULT_CONFIG default_path (one_file (Doc PNone))
  = Ok (saved DEFAULT_CONFIG default_path (one_file (Doc PNone))) /\
  files (saved DEFAULT_CONFIG default_path (one_file (Doc PNone))) !! "copy.yml"
  = files (one_file (Doc PNone)) !! "copy.yml" /\
  save_config_to_docker_compose DEFAULT_CONFIG default_path
    (World (<[default_path := Garbled]> (files (one_file (Doc PNone))))
       (write_denied (one_file (Doc PNone))))
  = Ok (saved DEFAULT_CONFIG default_path (one_file (Doc PNone))).
Proof.
  split; [reflexivity |].
  pose proof (save_touches_only_its_path DEFAULT_CONFIG default_path
                (one_file (Doc PNone))
                (saved DEFAULT_CONFIG default_path (one_file (Doc PNone)))
                ltac:(discriminate) eq_refl) as (_ & _ & Hq & Hf).
  split.
  - exact (proj1 (Hq "copy.yml" ltac:(discriminate) ltac:(discriminate))).
  - exact (Hf Garbled).
Defined.

Lemma heap0_reads_default :
  view_model heap0 DEFAULT_CONFIG_loc
  = Some (PDict match DEFAULT_CONFIG with PDict d => d | _ => [] end).
Proof. vm_compute. reflexivity. Defined.

(** Loading a document on the initial heap. *)
Lemma load_allocates_and_leaves_the_rest_witness :
  exists h1 m,
    h_load heap0 (one_file (Doc name_only_doc)) default_path = Some (h1, m) /\
    heap0 !! m = None /\
    view_model h1 DEFAULT_CONFIG_loc = Some DEFAULT_CONFIG /\
    Ok <$> view_model h1 m
    = Some (load_config_from_docker_compose (one_file (Doc name_only_doc)) default_path).
Proof.
  destruct (load_allocates_and_leaves_the_rest heap0
              (one_file (Doc name_only_doc)) default_path _ heap0_reads_default)
    as (h1 & m & Hl & _ & Hf & Hv & Hm).
  exists h1, m. auto.
Defined.

(** Writing a field of the model loaded from a document leaves
    [DEFAULT_CONFIG] as it is. *)
Lemma parsed_model_is_isolated_witness :
  exists h1 m,
    h_load heap0 (one_file (Doc name_only_doc)) default_path = Some (h1, m) /\
    forall h2,
      h_setfield h1 m (KStr "justicar") (KStr "port") (PStr "8080") = Some h2 ->
      view_model h2 DEFAULT_CONFIG_loc = Some DEFAULT_CONFIG.
Proof.
  destruct (h_load heap0 (one_file (Doc name_only_doc)) default_path)
    as [[h1 m]|] eqn:Hl; [| vm_compute in Hl; discriminate Hl].
  exists h1, m. split; [reflexivity |].
  intros h2 Hset.
  exact (proj2 (proj2
           (parsed_model_is_isolated heap0 (one_file (Doc name_only_doc))
              default_path _ _ h1 m heap0_reads_default eq_refl eq_refl Hl)
           (KStr "justicar") (KStr "port") (PStr "8080") h2 Hset)).
Defined.

(** The main menu over the default config. *)
Lemma menu_buttons_open_their_service_witness :
  MainMenu_buttons (config menu_app)
  = Ok [ "justicar_btn"; "chain_btn"; "run_compose" ] /\
  MainMenu_on_button_pressed sample_str "justicar_btn" menu_app
  = ({| config := DEFAULT_CONFIG;
        screen_stack := [ Config justicar_screen; MainMenu ];
        disk := no_files |}, Ok tt).
Proof.
  pose proof (menu_buttons_open_their_service sample_str menu_app _
                [ "justicar"; "chain" ] eq_refl eq_refl) as (Hb & Hp & _).
  split; [exact Hb |].
  exact (Hp "justicar" _ eq_refl eq_refl eq_refl).
Defined.

(** Two inputs retyped, then cancelled. *)
Lemma cancel_discards_edits_witness :
  fst (run sample_str menu_app
         [ ButtonPressed "justicar_btn";
           InputChanged (KStr "port") "8080";
           InputChanged (KStr "name") "worker";
           ButtonPressed "cancel" ]) = menu_app.
Proof.
  exact (proj1
           (cancel_discards_edits sample_str menu_app [] "justicar"
              [ (KStr "port", "8080"); (KStr "name", "worker") ] eq_refl)).
Defined.

(** The port retyped on the screen of [justicar], then committed. *)
Lemma commit_stores_every_input_witness :
  push_config_screen sample_str "justicar" (config menu_app) = Ok justicar_screen /\
  config (fst (action_save_config
                 (change_inputs [ (KStr "port", "8080") ] justicar_screen) menu_app))
  = PDict [ (KStr "justicar",
             PDict (justicar_record "8080" "/opt/cd2n/justicar" "justicar"));
            (KStr "chain",
             PDict [ (KStr "name", PStr "cess-chain");
                     (KStr "port", PStr "9944");
                     (KStr "network", PStr "testnet");
                     (KStr "configuration file", PStr "/opt/cd2n/chain") ]) ].
Proof.
  split; [reflexivity |].
  exact (proj2
           (commit_stores_every_input sample_str "justicar" menu_app _
              justicar_screen [ (KStr "port", "8080") ]
              eq_refl eq_refl eq_refl)).
Defined.

(** The screen opened again after that commit. *)
Lemma reopened_screen_shows_the_commit_witness :
  (forall t, sample_str (PStr t) = t) /\
  push_config_screen sample_str "justicar"
    (config (fst (action_save_config
                    (change_inputs [ (KStr "port", "8080") ] justicar_screen)
                    menu_app)))
  = Ok {| service_name := "justicar";
          current_config := justicar_record "8080" "/opt/cd2n/justicar" "justicar";
          input_fields := [ (KStr "port", "8080");
                            (KStr "configuration file", "/opt/cd2n/justicar");
                            (KStr "name", "justicar") ] |}.
Proof.
  split; [reflexivity |].
  exact (reopened_screen_shows_the_commit sample_str "justicar" menu_app _
           justicar_screen [ (KStr "port", "8080") ]
           (fun t => eq_refl) eq_refl eq_refl eq_refl).
Defined.
